(** * Deterministic data analyzer: [scripts/analyze.py]

    A shallow embedding of [analyze] and [main] together with the pandas,
    NumPy and Python primitives they call, followed by the properties of
    the tabular analysis engine.

    Conventions of the embedding.
    - A [float64] is a primitive binary64 float ([PrimFloat.float]); every
      arithmetic step is the IEEE-754 operation the library performs.
    - An [int64] is a [Z] with its wrap-around written out ([int64_wrap]).
    - A Python value that reaches the result dictionary is a [pyval].
    - A computation that may raise is a [res]: [Ok v] or [Raise e].
    - The library semantics are those of pandas 2.x on NumPy. *)

From Stdlib Require Import ZArith List Bool String Ascii Lia.
From Stdlib Require Import Permutation Sorted.
From Stdlib Require Import Uint63 Floats.
Import ListNotations.

Local Open Scope string_scope.
Local Open Scope list_scope.

#[local] Set Warnings "-register-all,-inexact-float".

(* ================================================================== *)
(** ** Python values and exceptions *)

(** The Python objects that occur in a result: [None], [bool], [int],
    [float], [str], [list] and [dict] (insertion ordered, so an
    association list).  NumPy scalars are identified with the Python
    scalar of the same value. *)
Inductive pyval : Type :=
| PNone
| PBool (b : bool)
| PInt (z : Z)
| PFloat (f : float)
| PStr (s : string)
| PList (l : list pyval)
| PDict (d : list (pyval * pyval)).

(** An exception instance: its class name and [str(e)]. *)
Record exn : Type := mkExn { exn_class : string; exn_str : string }.

Inductive res (A : Type) : Type :=
| Ok (a : A)
| Raise (e : exn).
Arguments Ok {A} a.
Arguments Raise {A} e.

Definition bind {A B : Type} (m : res A) (k : A -> res B) : res B :=
  match m with
  | Ok a => k a
  | Raise e => Raise e
  end.

Notation "x <- m ;; k" := (bind m (fun x => k))
  (at level 61, m at next level, right associativity).

(** [try: body  except Exception as e: handler(e)] *)
Definition try_except {A : Type} (body : res A) (handler : exn -> res A) : res A :=
  match body with
  | Ok a => Ok a
  | Raise e => handler e
  end.

(** *** [repr] of a [str] and of a list of [str] *)

Definition dquote : ascii := ascii_of_nat 34.
Definition squote : ascii := ascii_of_nat 39.
Definition backslash : ascii := ascii_of_nat 92.

Fixpoint contains_char (c : ascii) (s : string) : bool :=
  match s with
  | EmptyString => false
  | String d r => Ascii.eqb c d || contains_char c r
  end.

Definition hex_digit (n : nat) : ascii :=
  ascii_of_nat (if Nat.ltb n 10 then 48 + n else 87 + n).

(** The body of [repr(s)] with [q] as the enclosing quote.  Bytes above
    127 belong to UTF-8 encoded printable text and are kept. *)
Fixpoint repr_body (q : ascii) (s : string) : string :=
  match s with
  | EmptyString => EmptyString
  | String c r =>
      let n := nat_of_ascii c in
      let rest := repr_body q r in
      if Ascii.eqb c backslash then String backslash (String backslash rest)
      else if Ascii.eqb c q then String backslash (String c rest)
      else if Nat.eqb n 10 then String backslash (String "n" rest)
      else if Nat.eqb n 13 then String backslash (String "r" rest)
      else if Nat.eqb n 9 then String backslash (String "t" rest)
      else if Nat.ltb n 32 || Nat.eqb n 127 then
        String backslash (String "x"
          (String (hex_digit (n / 16)) (String (hex_digit (n mod 16)) rest)))
      else String c rest
  end.

Definition py_repr_str (s : string) : string :=
  let q := if contains_char squote s && negb (contains_char dquote s)
           then dquote else squote in
  String q (repr_body q s ++ String q EmptyString).

Fixpoint join (sep : string) (l : list string) : string :=
  match l with
  | [] => ""
  | [x] => x
  | x :: r => x ++ sep ++ join sep r
  end.

(** [str(list_of_str)], as in [f"{list(df.columns)}"] *)
Definition py_str_list (l : list string) : string :=
  "[" ++ join ", " (map py_repr_str l) ++ "]".

(** [f"{col}"] for a keyword argument that is a [str] or [None] *)
Definition py_str_opt (o : option string) : string :=
  match o with
  | Some s => s
  | None => "None"
  end.

(* ================================================================== *)
(** ** Numbers *)

Module Np.

Local Open Scope Z_scope.

(** Two's complement wrap-around of 64-bit integer arithmetic. *)
Definition int64_wrap (z : Z) : Z := (z + 2 ^ 63) mod 2 ^ 64 - 2 ^ 63.

Definition int64_min : Z := - 2 ^ 63.
Definition int64_max : Z := 2 ^ 63 - 1.
Definition in_int64 (z : Z) : bool := (int64_min <=? z) && (z <=? int64_max).

(** The binary64 float nearest to [num / den] (ties to even), for
    [0 <= num] and [0 < den]: the quotient is scaled to a 53-bit integer
    significand, rounded, and scaled back. *)
Definition nearest_float (num den : Z) : float :=
  if num <=? 0 then 0%float
  else
    let e0 := Z.log2 num - Z.log2 den - 53 in
    let scaled (e : Z) := if 0 <=? e then (num, den * 2 ^ e) else (num * 2 ^ (- e), den) in
    let e1 := let '(a, b) := scaled (e0 + 1) in
              if 2 ^ 52 <=? a / b then e0 + 1 else e0 in
    let e := Z.max e1 (-1074) in
    let '(a, b) := scaled e in
    let m := a / b in
    let r := a mod b in
    let m' := if 2 * r <? b then m
              else if b <? 2 * r then m + 1
              else if Z.even m then m else m + 1 in
    Z.ldexp (of_uint63 (Uint63.of_Z m')) e.

(** Conversion of an integer to [float64] (round to nearest even), as
    done by [float(i)] and by NumPy casts. *)
Definition float_of_Z (z : Z) : float :=
  if z <? 0 then (- nearest_float (- z) 1)%float else nearest_float z 1.

(** The exact value of a finite non-zero float as [(negative, m, e)],
    meaning [(-1)^negative * m * 2^e]. *)
Definition exact_value (x : float) : option (bool * Z * Z) :=
  match Prim2SF x with
  | S754_finite s m e => Some (s, Zpos m, e)
  | _ => None
  end.

(** [num / den] rounded to the nearest integer, ties to even. *)
Definition round_half_even (num den : Z) : Z :=
  let q := num / den in
  let r := num mod den in
  if 2 * r <? den then q
  else if den <? 2 * r then q + 1
  else if Z.even q then q else q + 1.

Definition with_sign (s : bool) (x : float) : float :=
  if s then (- x)%float else x.

(** Python's [round(x, 2)] on a [float]: the exact binary value is
    rounded to two decimals (half to even) and the decimal is converted
    back to the nearest float. *)
Definition py_round2 (x : float) : float :=
  match exact_value x with
  | None => x
  | Some (s, m, e) =>
      let q := if 0 <=? e then m * 2 ^ e * 100
               else round_half_even (m * 100) (2 ^ (- e)) in
      with_sign s (nearest_float q 100)
  end.

(** [numpy.rint]: nearest integral float, ties to even. *)
Definition np_rint (x : float) : float :=
  match exact_value x with
  | None => x
  | Some (s, m, e) =>
      if 0 <=? e then x
      else with_sign s (nearest_float (round_half_even m (2 ^ (- e))) 1)
  end.

(** [round(x, 2)] on a [numpy.float64]: NumPy scales, rounds with
    [rint] and scales back. *)
Definition np_round2 (x : float) : float :=
  (np_rint (x * 100) / 100)%float.

Local Open Scope float_scope.

(** Elements are equal for the hash tables behind [unique], [duplicated]
    and [groupby]: [a == b], or both are NaN. *)
Definition float_eqv (a b : float) : bool :=
  (a =? b) || (is_nan a && is_nan b).

Definition fsum_seq (init : float) (a : list float) : float :=
  fold_left PrimFloat.add a init.

Fixpoint add_lanes (r a : list float) : list float :=
  match r, a with
  | x :: r', y :: a' => (x + y) :: add_lanes r' a'
  | _, _ => r
  end.

(** The unrolled loop of NumPy's pairwise summation: eight running sums
    over the complete groups of eight, the rest returned untouched. *)
Fixpoint sum_lanes (fuel : nat) (r a : list float) : list float * list float :=
  match fuel with
  | O => (r, a)
  | S fuel' =>
      if Nat.leb 8 (List.length a)
      then sum_lanes fuel' (add_lanes r (firstn 8 a)) (skipn 8 a)
      else (r, a)
  end.

Definition sum_block (a : list float) : float :=
  let '(r, rest) := sum_lanes (List.length a) (firstn 8 a) (skipn 8 a) in
  let g (i : nat) := nth i r 0 in
  fsum_seq (((g 0%nat + g 1%nat) + (g 2%nat + g 3%nat))
            + ((g 4%nat + g 5%nat) + (g 6%nat + g 7%nat))) rest.

(** NumPy's [pairwise_sum] over a contiguous [float64] array. *)
Fixpoint pairwise_sum (fuel : nat) (a : list float) : float :=
  let n := List.length a in
  if Nat.ltb n 8 then fsum_seq 0 a
  else if Nat.leb n 128 then sum_block a
  else
    match fuel with
    | O => sum_block a
    | S fuel' =>
        let h := (n / 2)%nat in
        let n2 := (h - h mod 8)%nat in
        pairwise_sum fuel' (firstn n2 a) + pairwise_sum fuel' (skipn n2 a)
    end.

(** [a.sum()] of a [float64] array: the additive identity combined with
    the pairwise sum of the elements. *)
Definition np_sum (a : list float) : float :=
  0 + pairwise_sum (List.length a) a.

(** [a.sum()] of an [int64] array. *)
Definition np_sum_int (a : list Z) : Z :=
  fold_left (fun acc v => int64_wrap (acc + v)%Z) a 0%Z.

End Np.

(* ================================================================== *)
(** ** Tables *)

(** A column: its values under one NumPy dtype.  A missing value is NaN
    in a [float64] column and the NaN object ([None] here) in an [object]
    column; [int64] and [bool] columns have no missing values.  An
    [object] column holds [str] values, as the loader produces them. *)
Inductive Series : Type :=
| IntCol (v : list Z)
| FloatCol (v : list float)
| ObjCol (v : list (option string))
| BoolCol (v : list bool).

(** One value of a column. *)
Inductive cell : Type :=
| CInt (z : Z)
| CFloat (f : float)
| CStr (s : string)
| CBool (b : bool)
| CNull.

(** [str(dtype)] *)
Definition dtype_name (c : Series) : string :=
  match c with
  | IntCol _ => "int64"
  | FloatCol _ => "float64"
  | ObjCol _ => "object"
  | BoolCol _ => "bool"
  end.

Definition obj_cell (o : option string) : cell :=
  match o with
  | Some s => CStr s
  | None => CNull
  end.

Definition cells (c : Series) : list cell :=
  match c with
  | IntCol v => map CInt v
  | FloatCol v => map CFloat v
  | ObjCol v => map obj_cell v
  | BoolCol v => map CBool v
  end.

Definition series_len (c : Series) : nat := List.length (cells c).

Definition cell_at (c : Series) (i : nat) : cell := nth i (cells c) CNull.

(** [isna] *)
Definition is_null (x : cell) : bool :=
  match x with
  | CFloat f => is_nan f
  | CNull => true
  | _ => false
  end.

(** The Python object a cell becomes in [to_dict] and [tolist]. *)
Definition box (x : cell) : pyval :=
  match x with
  | CInt z => PInt z
  | CFloat f => PFloat f
  | CStr s => PStr s
  | CBool b => PBool b
  | CNull => PFloat nan
  end.

(** Equality of two cells as hash-table keys. *)
Definition cell_eqv (a b : cell) : bool :=
  match a, b with
  | CInt x, CInt y => Z.eqb x y
  | CFloat x, CFloat y => Np.float_eqv x y
  | CStr x, CStr y => String.eqb x y
  | CBool x, CBool y => Bool.eqb x y
  | CNull, CNull => true
  | _, _ => false
  end.

(** Positional selection [s.iloc[idx]]. *)
Definition series_take (idx : list nat) (c : Series) : Series :=
  match c with
  | IntCol v => IntCol (map (fun i => nth i v 0%Z) idx)
  | FloatCol v => FloatCol (map (fun i => nth i v nan) idx)
  | ObjCol v => ObjCol (map (fun i => nth i v None) idx)
  | BoolCol v => BoolCol (map (fun i => nth i v false) idx)
  end.

(** A table: the length of its index and its named columns, in order. *)
Record DataFrame : Type := mkDF {
  df_len : nat;
  df_cols : list (string * Series)
}.

(** The values of an [int64] column are in range. *)
Definition int64_values (c : Series) : Prop :=
  match c with
  | IntCol v => Forall (fun z => Np.in_int64 z = true) v
  | _ => True
  end.

(** A table as the loader yields it: every column has the length of
    the index, column names are distinct, [int64] values are in range,
    and there is at least one column. *)
Record wf_df (df : DataFrame) : Prop := mk_wf {
  wf_len : Forall (fun nc => series_len (snd nc) = df_len df) (df_cols df);
  wf_names : NoDup (map fst (df_cols df));
  wf_int64 : Forall (fun nc => int64_values (snd nc)) (df_cols df);
  wf_cols : df_cols df <> []
}.

(** [list(df.columns)] *)
Definition columns (df : DataFrame) : list string := map fst (df_cols df).

(** [col in df.columns], for a keyword argument that may be [None] *)
Definition in_columns (col : option string) (df : DataFrame) : bool :=
  match col with
  | Some c => existsb (String.eqb c) (columns df)
  | None => false
  end.

Fixpoint lookup_col (c : string) (l : list (string * Series)) : option Series :=
  match l with
  | [] => None
  | (n, s) :: r => if String.eqb c n then Some s else lookup_col c r
  end.

(** [df[col]] *)
Definition get_col (df : DataFrame) (c : string) : option Series :=
  lookup_col c (df_cols df).

(** [df.iloc[idx]] *)
Definition df_take (idx : list nat) (df : DataFrame) : DataFrame :=
  mkDF (List.length idx) (map (fun nc => (fst nc, series_take idx (snd nc))) (df_cols df)).

(** [df.head(k)] *)
Definition df_head (k : nat) (df : DataFrame) : DataFrame :=
  df_take (firstn k (seq 0 (df_len df))) df.

(** Row [i] as a record: column name to boxed value. *)
Definition record_at (df : DataFrame) (i : nat) : pyval :=
  PDict (map (fun nc => (PStr (fst nc), box (cell_at (snd nc) i))) (df_cols df)).

(** [df.to_dict(orient="records")] *)
Definition to_dict_records (df : DataFrame) : pyval :=
  PList (map (record_at df) (seq 0 (df_len df))).

(** [{col: str(dtype) for col, dtype in df.dtypes.items()}] *)
Definition dtypes_dict (df : DataFrame) : pyval :=
  PDict (map (fun nc => (PStr (fst nc), PStr (dtype_name (snd nc)))) (df_cols df)).

(** What the interpreter, the file system and the loader contribute to a
    run, and is not modelled further: whether the path exists, the table
    the loader returns for it, the bytes pandas reports for a table,
    Python's [float(str)], and the behaviour of [DataFrame.query] on
    expressions outside the grammar modelled in [Query]. *)
Record Env : Type := mkEnv {
  path_exists : string -> bool;
  read_csv : string -> DataFrame;
  read_excel : string -> DataFrame;
  read_json : string -> DataFrame;
  memory_usage_deep : DataFrame -> Z;
  float_of_str : string -> option float;
  query_other : DataFrame -> string -> res DataFrame
}.

(* ================================================================== *)
(** ** pandas primitives used by the reducers *)

Definition key_error (k : string) : exn := mkExn "KeyError" (py_repr_str k).
Definition type_error (m : string) : exn := mkExn "TypeError" m.
Definition value_error (m : string) : exn := mkExn "ValueError" m.

(** [df[col]] as a computation: a missing label raises [KeyError]. *)
Definition getitem (df : DataFrame) (c : string) : res Series :=
  match get_col df c with
  | Some s => Ok s
  | None => Raise (key_error c)
  end.

(** *** [nlargest] and [nsmallest] *)

(** [a < b] between two present values of one numeric dtype. *)
Definition cell_ltb (a b : cell) : bool :=
  match a, b with
  | CInt x, CInt y => Z.ltb x y
  | CFloat x, CFloat y => PrimFloat.ltb x y
  | CBool x, CBool y => negb x && y
  | _, _ => false
  end.

(** Row [i] must come strictly before row [j]: present values before
    missing ones, and among present values the larger first
    ([largest = true]) or the smaller first. *)
Definition precedes (largest : bool) (c : Series) (i j : nat) : bool :=
  let a := cell_at c i in
  let b := cell_at c j in
  (negb (is_null a) && is_null b)
  || (if largest then cell_ltb b a else cell_ltb a b).

Section StableSort.
Variable before : nat -> nat -> bool.

(** [x] is older than every element of [l]: it goes in front of the
    first element that does not come strictly before it. *)
Fixpoint insert_first (x : nat) (l : list nat) : list nat :=
  match l with
  | [] => [x]
  | y :: r => if before y x then y :: insert_first x r else x :: y :: r
  end.

Fixpoint stable_sort (l : list nat) : list nat :=
  match l with
  | [] => []
  | x :: r => insert_first x (stable_sort r)
  end.
End StableSort.

(** The row positions in the order of [keep="first"]: sorted on the
    column, rows with equal values in their original order. *)
Definition ranked (largest : bool) (c : Series) : list nat :=
  stable_sort (precedes largest c) (seq 0 (series_len c)).

(** The positions [Series.nlargest(n)] / [Series.nsmallest(n)] select. *)
Definition select_n (largest : bool) (n : Z) (c : Series) : list nat :=
  if (n <=? 0)%Z then [] else firstn (Z.to_nat n) (ranked largest c).

Definition method_name (largest : bool) : string :=
  if largest then "nlargest" else "nsmallest".

(** [df.nlargest(n, col)] and [df.nsmallest(n, col)]: an [object] column
    is rejected with [TypeError]. *)
Definition pd_select_n (largest : bool) (n : Z) (col : string) (df : DataFrame)
  : res DataFrame :=
  c <- getitem df col ;;
  match c with
  | ObjCol _ =>
      Raise (type_error ("Column " ++ py_repr_str col ++ " has dtype object, cannot use method "
                         ++ py_repr_str (method_name largest) ++ " with this dtype"))
  | _ => Ok (df_take (select_n largest n c) df)
  end.

Definition pd_nlargest := pd_select_n true.
Definition pd_nsmallest := pd_select_n false.

(** *** [sum] and [mean] *)

(** Python's [+] on the objects an [object] column reduction meets. *)
Definition py_add (a b : pyval) : res pyval :=
  match a, b with
  | PStr x, PStr y => Ok (PStr (x ++ y))
  | PInt x, PInt y => Ok (PInt (x + y))
  | PStr _, PInt _ =>
      Raise (type_error ("can only concatenate str (not " ++ String dquote "int"
                         ++ String dquote ") to str"))
  | PInt _, PStr _ =>
      Raise (type_error "unsupported operand type(s) for +: 'int' and 'str'")
  | _, _ => Raise (type_error "unsupported operand type(s) for +")
  end.

Fixpoint py_add_all (acc : pyval) (l : list pyval) : res pyval :=
  match l with
  | [] => Ok acc
  | x :: r => s <- py_add acc x ;; py_add_all s r
  end.

(** The sum of an [object] array whose missing values were filled with
    the integer [0]: the first element combined with the others, [0] for
    an empty array. *)
Definition obj_sum (v : list (option string)) : res pyval :=
  match map (fun o => match o with Some s => PStr s | None => PInt 0 end) v with
  | [] => Ok (PInt 0)
  | x :: r => py_add_all x r
  end.

Definition nan_to_zero (x : float) : float := if is_nan x then 0%float else x.

Definition count_true (v : list bool) : Z := Z.of_nat (List.length (filter (fun b => b) v)).

(** The number of present values, [s.count()]. *)
Definition count_valid (c : Series) : nat :=
  List.length (filter (fun x => negb (is_null x)) (cells c)).

(** [s.sum()] (missing values skipped): [int64] sums wrap around,
    [float64] sums are NumPy's, booleans are counted, strings are
    concatenated. *)
Definition pd_sum (c : Series) : res pyval :=
  match c with
  | IntCol v => Ok (PInt (Np.np_sum_int v))
  | FloatCol v => Ok (PFloat (Np.np_sum (map nan_to_zero v)))
  | BoolCol v => Ok (PInt (count_true v))
  | ObjCol v => obj_sum v
  end.

(** [s.mean()]: the sum accumulated in [float64], divided by the number
    of present values; NaN when there is none.  A string total is
    rejected. *)
Definition mean_of (total : float) (count : nat) : float :=
  if Nat.ltb 0 count then (total / Np.float_of_Z (Z.of_nat count))%float else nan.

Definition pd_mean (c : Series) : res pyval :=
  match c with
  | IntCol v =>
      Ok (PFloat (mean_of (Np.np_sum (map Np.float_of_Z v)) (count_valid c)))
  | FloatCol v =>
      Ok (PFloat (mean_of (Np.np_sum (map nan_to_zero v)) (count_valid c)))
  | BoolCol v =>
      Ok (PFloat (mean_of (Np.float_of_Z (count_true v)) (count_valid c)))
  | ObjCol v =>
      s <- obj_sum v ;;
      match s with
      | PStr x => Raise (type_error ("Could not convert string '" ++ x ++ "' to numeric"))
      | PInt z => Ok (PFloat (mean_of (Np.float_of_Z z) (count_valid c)))
      | _ => Raise (type_error "Could not convert to numeric")
      end
  end.

(** Python's [float(x)]. *)
Definition py_float (env : Env) (x : pyval) : res float :=
  match x with
  | PFloat f => Ok f
  | PInt z => Ok (Np.float_of_Z z)
  | PBool b => Ok (if b then 1%float else 0%float)
  | PStr s =>
      match float_of_str env s with
      | Some f => Ok f
      | None => Raise (value_error ("could not convert string to float: " ++ py_repr_str s))
      end
  | _ => Raise (type_error "float() argument must be a string or a real number")
  end.

(** *** [unique] *)

(** The distinct values in order of first appearance. *)
Fixpoint unique_cells (seen : list cell) (l : list cell) : list cell :=
  match l with
  | [] => []
  | x :: r =>
      if existsb (cell_eqv x) seen then unique_cells seen r
      else x :: unique_cells (x :: seen) r
  end.

(** [s.unique().tolist()] *)
Definition pd_unique (c : Series) : list pyval :=
  map box (unique_cells [] (cells c)).

(** *** [duplicated] *)

Definition row_key (cs : list Series) (i : nat) : list cell :=
  map (fun c => cell_at c i) cs.

Fixpoint key_eqv (a b : list cell) : bool :=
  match a, b with
  | [], [] => true
  | x :: a', y :: b' => cell_eqv x y && key_eqv a' b'
  | _, _ => false
  end.

Fixpoint getitems (df : DataFrame) (names : list string) : res (list Series) :=
  match names with
  | [] => Ok []
  | n :: r => c <- getitem df n ;; cs <- getitems df r ;; Ok (c :: cs)
  end.

(** The columns [duplicated] compares: the subset, or every column. *)
Definition subset_cols (subset : option (list string)) (df : DataFrame)
  : res (list Series) :=
  match subset with
  | None => Ok (map snd (df_cols df))
  | Some names => getitems df names
  end.

(** The row keys of the table over the compared columns. *)
Definition row_keys (cs : list Series) (df : DataFrame) : list (list cell) :=
  map (row_key cs) (seq 0 (df_len df)).

Definition occurrences (k : list cell) (keys : list (list cell)) : nat :=
  List.length (filter (key_eqv k) keys).

(** [df.duplicated(subset=subset, keep=False)]: the mask of the rows
    whose key occurs more than once. *)
Definition pd_duplicated (subset : option (list string)) (df : DataFrame)
  : res (list bool) :=
  cs <- subset_cols subset df ;;
  let keys := row_keys cs df in
  Ok (map (fun k => Nat.ltb 1 (occurrences k keys)) keys).

(** The positions selected by a boolean mask. *)
Fixpoint mask_positions (i : nat) (mask : list bool) : list nat :=
  match mask with
  | [] => []
  | b :: r => if b then i :: mask_positions (S i) r else mask_positions (S i) r
  end.

(** [df[mask]] *)
Definition df_mask (mask : list bool) (df : DataFrame) : DataFrame :=
  df_take (mask_positions 0 mask) df.

(** *** [describe] *)

(** [a < b] between two present values of one dtype, strings included. *)
Definition cell_lt_any (a b : cell) : bool :=
  match a, b with
  | CStr x, CStr y => String.ltb x y
  | _, _ => cell_ltb a b
  end.

Fixpoint insert_cell (x : cell) (l : list cell) : list cell :=
  match l with
  | [] => [x]
  | y :: r => if cell_lt_any x y then x :: y :: r else y :: insert_cell x r
  end.

Definition sort_cells (l : list cell) : list cell :=
  fold_right insert_cell [] l.

Definition cell_float (x : cell) : float :=
  match x with
  | CInt z => Np.float_of_Z z
  | CFloat f => f
  | CBool b => if b then 1%float else 0%float
  | _ => nan
  end.

Definition valid_cells (c : Series) : list cell :=
  filter (fun x => negb (is_null x)) (cells c).

(** The values as [float64] with missing values filled by [0]. *)
Definition filled_floats (c : Series) : list float :=
  map (fun x => if is_null x then 0%float else cell_float x) (cells c).

(** [floor] of a non-negative float, as an index. *)
Definition floor_index (x : float) : nat :=
  match Np.exact_value x with
  | Some (false, m, e) =>
      Z.to_nat (if (0 <=? e)%Z then m * 2 ^ e else m / 2 ^ (- e))%Z
  | _ => 0
  end.

(** NumPy's [_lerp]: [b - a] is taken in the dtype of the array. *)
Definition np_lerp (a b : cell) (t : float) : float :=
  let diff := match a, b with
              | CInt x, CInt y => Np.float_of_Z (Np.int64_wrap (y - x))
              | _, _ => (cell_float b - cell_float a)%float
              end in
  if (t <? 0.5)%float then (cell_float a + diff * t)%float
  else (cell_float b - diff * (1 - t))%float.

(** [numpy.percentile(values, 100 * q)], linear interpolation, over the
    present values [sorted]; NaN when there is none. *)
Definition np_quantile (sorted : list cell) (q : float) : float :=
  match sorted with
  | [] => nan
  | _ =>
      let n := List.length sorted in
      let vi := (Np.float_of_Z (Z.of_nat (n - 1)) * q)%float in
      let last := nth (n - 1) sorted CNull in
      if (Np.float_of_Z (Z.of_nat (n - 1)) <=? vi)%float then np_lerp last last 1%float
      else
        let p := floor_index vi in
        np_lerp (nth p sorted CNull) (nth (S p) sorted CNull)
                (vi - Np.float_of_Z (Z.of_nat p))%float
  end.

(** [s.std()]: the two-pass sample variance of pandas' [nanvar], then
    its square root; NaN for fewer than two present values. *)
Definition pd_std (c : Series) : float :=
  let count := count_valid c in
  if Nat.leb count 1 then nan
  else
    let vals := filled_floats c in
    let avg := (Np.np_sum vals / Np.float_of_Z (Z.of_nat count))%float in
    let sqr := map (fun xv => if is_null (fst xv) then 0%float
                              else ((avg - snd xv) * (avg - snd xv))%float)
                   (combine (cells c) vals) in
    PrimFloat.sqrt (Np.np_sum sqr / Np.float_of_Z (Z.of_nat (count - 1)))%float.

Definition first_or_nan (l : list cell) : float :=
  match l with
  | [] => nan
  | x :: _ => cell_float x
  end.

Definition mean_float (c : Series) : float :=
  match pd_mean c with
  | Ok (PFloat f) => f
  | _ => nan
  end.

(** [describe] of a numeric column: eight [float64] statistics. *)
Definition describe_numeric (c : Series) : pyval :=
  let sorted := sort_cells (valid_cells c) in
  PDict [ (PStr "count", PFloat (Np.float_of_Z (Z.of_nat (count_valid c))));
          (PStr "mean", PFloat (mean_float c));
          (PStr "std", PFloat (pd_std c));
          (PStr "min", PFloat (first_or_nan sorted));
          (PStr "25%", PFloat (np_quantile sorted 0.25%float));
          (PStr "50%", PFloat (np_quantile sorted 0.5%float));
          (PStr "75%", PFloat (np_quantile sorted 0.75%float));
          (PStr "max", PFloat (first_or_nan (rev sorted))) ].

(** [value_counts]: each distinct present value, in order of first
    appearance, with the number of times it occurs. *)
Definition value_counts (c : Series) : list (cell * nat) :=
  let vs := valid_cells c in
  map (fun k => (k, List.length (filter (cell_eqv k) vs))) (unique_cells [] vs).

(** The most frequent value, the earliest one among equals. *)
Fixpoint top_count (best : cell * nat) (l : list (cell * nat)) : cell * nat :=
  match l with
  | [] => best
  | x :: r => top_count (if Nat.ltb (snd best) (snd x) then x else best) r
  end.

(** [describe] of an [object] or [bool] column. *)
Definition describe_categorical (c : Series) : pyval :=
  let vc := value_counts c in
  let '(top, freq) :=
    match vc with
    | [] => (PFloat nan, PFloat nan)
    | x :: r => let b := top_count x r in (box (fst b), PInt (Z.of_nat (snd b)))
    end in
  PDict [ (PStr "count", PInt (Z.of_nat (count_valid c)));
          (PStr "unique", PInt (Z.of_nat (List.length vc)));
          (PStr "top", top);
          (PStr "freq", freq) ].

Definition is_number_dtype (c : Series) : bool :=
  match c with
  | IntCol _ | FloatCol _ => true
  | _ => false
  end.

(** [s.describe().to_dict()] *)
Definition describe_series (c : Series) : pyval :=
  if is_number_dtype c then describe_numeric c else describe_categorical c.

(** [df.describe().to_dict()]: the numeric columns when there are some,
    every column otherwise; a table without columns is rejected. *)
Definition describe_frame (df : DataFrame) : res pyval :=
  match df_cols df with
  | [] => Raise (value_error "Cannot describe a DataFrame without columns")
  | all =>
      let numeric := filter (fun nc => is_number_dtype (snd nc)) all in
      let chosen := match numeric with [] => all | _ => numeric end in
      Ok (PDict (map (fun nc => (PStr (fst nc), describe_series (snd nc))) chosen))
  end.

(** *** [groupby(...)[...].sum()] *)

(** Kahan summation of pandas' [group_sum], missing values skipped. *)
Fixpoint kahan (sumx comp : float) (l : list float) : float :=
  match l with
  | [] => sumx
  | v :: r =>
      if is_nan v then kahan sumx comp r
      else
        let y := (v - comp)%float in
        let t := (sumx + y)%float in
        let c := (t - sumx - y)%float in
        kahan t (if is_nan c then 0%float else c) r
  end.

Fixpoint concat_present (l : list (option string)) : option string :=
  match l with
  | [] => None
  | None :: r => concat_present r
  | Some s :: r =>
      match concat_present r with
      | None => Some s
      | Some t => Some (s ++ t)%string
      end
  end.

(** The sum of the rows [idx] of the aggregated column. *)
Definition group_sum (idx : list nat) (c : Series) : pyval :=
  match series_take idx c with
  | IntCol v => PInt (Np.np_sum_int v)
  | FloatCol v => PFloat (kahan 0 0 v)
  | BoolCol v => PInt (count_true v)
  | ObjCol v => match concat_present v with
                | Some s => PStr s
                | None => PInt 0
                end
  end.

(** [df.groupby(g)[a].sum().to_dict()]: one entry per distinct present
    value of the grouping column, in ascending order of that value. *)
Definition pd_groupby_sum (g a : string) (df : DataFrame) : res pyval :=
  gc <- getitem df g ;;
  ac <- getitem df a ;;
  let keys := sort_cells (unique_cells [] (valid_cells gc)) in
  let rows (k : cell) :=
    filter (fun i => cell_eqv k (cell_at gc i)) (seq 0 (df_len df)) in
  Ok (PDict (map (fun k => (box k, group_sum (rows k) ac)) keys)).

(** *** [Series.corr] *)

(** [s.to_numpy(dtype=float, na_value=nan)] *)
Fixpoint floats_of_obj (env : Env) (v : list (option string)) : res (list float) :=
  match v with
  | [] => Ok []
  | None :: r => fs <- floats_of_obj env r ;; Ok (nan :: fs)
  | Some s :: r =>
      f <- py_float env (PStr s) ;;
      fs <- floats_of_obj env r ;;
      Ok (f :: fs)
  end.

Definition to_float_array (env : Env) (c : Series) : res (list float) :=
  match c with
  | ObjCol v => floats_of_obj env v
  | _ => Ok (map cell_float (cells c))
  end.

(** The inner product of two rows, accumulated from left to right. *)
Definition np_dot (x y : list float) : float :=
  fold_left (fun acc p => (acc + fst p * snd p)%float) (combine x y) 0%float.

Definition np_clip (x lo hi : float) : float :=
  let y := if (x <? lo)%float then lo else x in
  if (hi <? y)%float then hi else y.

(** [numpy.corrcoef(a, b)[0, 1]]: the covariance matrix of the centred
    rows scaled by [1 / (N - 1)], its off-diagonal entry divided by the
    standard deviation of the first row, then by that of the second, and
    clipped to [-1, 1]. *)
Definition np_corrcoef (a b : list float) : float :=
  let n := List.length a in
  let nf := Np.float_of_Z (Z.of_nat n) in
  let xa := map (fun v => (v - Np.np_sum a / nf)%float) a in
  let xb := map (fun v => (v - Np.np_sum b / nf)%float) b in
  let fact := if Nat.leb n 1 then 0%float else Np.float_of_Z (Z.of_nat (n - 1)) in
  let scale := (1 / fact)%float in
  let c00 := (np_dot xa xa * scale)%float in
  let c01 := (np_dot xa xb * scale)%float in
  let c11 := (np_dot xb xb * scale)%float in
  np_clip (c01 / PrimFloat.sqrt c00 / PrimFloat.sqrt c11)%float (-1)%float 1%float.

(** [s1.corr(s2)], Pearson: rows where either value is missing are
    dropped; NaN when no row is left. *)
Definition pd_corr (env : Env) (c1 c2 : Series) : res float :=
  a <- to_float_array env c1 ;;
  b <- to_float_array env c2 ;;
  let valid := filter (fun p => negb (is_nan (fst p)) && negb (is_nan (snd p)))
                      (combine a b) in
  match valid with
  | [] => Ok nan
  | _ => Ok (np_corrcoef (map fst valid) (map snd valid))
  end.

(* ================================================================== *)
(** ** [DataFrame.query] *)

(** The expression language of [query] is modelled on the grammar of
    conditions the analyzer documents: comparisons between column names
    and literals, combined with [and], [or], [not] and parentheses.  On
    any other text, and on operand kinds not covered below, the result
    is the environment's [query_other]. *)
Module Query.

Inductive cmp_op : Type := Lt | Le | Gt | Ge | Eq | Ne.

(** An operand: a name, an integer literal, a decimal literal
    [digits / 10^scale], a quoted string, or [True] / [False]. *)
Inductive operand : Type :=
| OName (s : string)
| OInt (z : Z)
| ODec (digits : Z) (scale : nat)
| OStr (s : string)
| OBool (b : bool).

Inductive expr : Type :=
| EAtom (o : operand)
| ECmp (op : cmp_op) (a b : operand)
| ENot (e : expr)
| EAnd (a b : expr)
| EOr (a b : expr).

Inductive token : Type :=
| TOperand (o : operand)
| TCmp (op : cmp_op)
| TAnd | TOr | TNot
| TLParen | TRParen.

(** *** Lexer *)

Definition is_digit (c : ascii) : bool :=
  let n := nat_of_ascii c in Nat.leb 48 n && Nat.leb n 57.

Definition is_name_start (c : ascii) : bool :=
  let n := nat_of_ascii c in
  (Nat.leb 65 n && Nat.leb n 90) || (Nat.leb 97 n && Nat.leb n 122) || Nat.eqb n 95.

Definition is_name_char (c : ascii) : bool := is_name_start c || is_digit c.

Definition is_space (c : ascii) : bool :=
  let n := nat_of_ascii c in Nat.eqb n 32 || Nat.eqb n 9.

Fixpoint span (p : ascii -> bool) (l : list ascii) : list ascii * list ascii :=
  match l with
  | c :: r => if p c then let '(a, b) := span p r in (c :: a, b) else ([], l)
  | [] => ([], [])
  end.

Definition digits_value (l : list ascii) : Z :=
  fold_left (fun acc c => (acc * 10 + Z.of_nat (nat_of_ascii c - 48))%Z) l 0%Z.

(** Names that are Python keywords, other than those of the grammar. *)
Definition python_keywords : list string :=
  [ "None"; "in"; "is"; "if"; "else"; "elif"; "lambda"; "for"; "while";
    "def"; "class"; "return"; "yield"; "import"; "from"; "as"; "with";
    "try"; "except"; "finally"; "raise"; "assert"; "del"; "pass"; "break";
    "continue"; "global"; "nonlocal"; "async"; "await" ].

Definition word_token (w : string) : option token :=
  if String.eqb w "and" then Some TAnd
  else if String.eqb w "or" then Some TOr
  else if String.eqb w "not" then Some TNot
  else if String.eqb w "True" then Some (TOperand (OBool true))
  else if String.eqb w "False" then Some (TOperand (OBool false))
  else if existsb (String.eqb w) python_keywords then None
  else Some (TOperand (OName w)).

(** The text of a quoted string up to the closing quote [q]; a backslash
    is outside the grammar. *)
Fixpoint quoted (q : ascii) (l : list ascii) : option (list ascii * list ascii) :=
  match l with
  | [] => None
  | c :: r =>
      if Ascii.eqb c q then Some ([], r)
      else if Ascii.eqb c backslash then None
      else match quoted q r with
           | Some (s, rest) => Some (c :: s, rest)
           | None => None
           end
  end.

Definition starts_name (l : list ascii) : bool :=
  match l with
  | c :: _ => is_name_char c || Ascii.eqb c "."
  | [] => false
  end.

Fixpoint lex (fuel : nat) (l : list ascii) : option (list token) :=
  match fuel with
  | O => match l with [] => Some [] | _ => None end
  | S fuel' =>
      let continue (t : token) (rest : list ascii) :=
        match lex fuel' rest with
        | Some ts => Some (t :: ts)
        | None => None
        end in
      match l with
      | [] => Some []
      | c :: r =>
          if is_space c then lex fuel' r
          else if Ascii.eqb c "(" then continue TLParen r
          else if Ascii.eqb c ")" then continue TRParen r
          else if Ascii.eqb c "<" then
            match r with
            | "="%char :: r' => continue (TCmp Le) r'
            | _ => continue (TCmp Lt) r
            end
          else if Ascii.eqb c ">" then
            match r with
            | "="%char :: r' => continue (TCmp Ge) r'
            | _ => continue (TCmp Gt) r
            end
          else if Ascii.eqb c "=" then
            match r with
            | "="%char :: r' => continue (TCmp Eq) r'
            | _ => None
            end
          else if Ascii.eqb c "!" then
            match r with
            | "="%char :: r' => continue (TCmp Ne) r'
            | _ => None
            end
          else if Ascii.eqb c squote || Ascii.eqb c dquote then
            match quoted c r with
            | Some (s, rest) => continue (TOperand (OStr (string_of_list_ascii s))) rest
            | None => None
            end
          else if is_digit c then
            let '(ip, rest) := span is_digit l in
            match rest with
            | "."%char :: rest' =>
                let '(fp, rest'') := span is_digit rest' in
                if starts_name rest'' then None
                else continue (TOperand (ODec (digits_value (ip ++ fp)) (List.length fp))) rest''
            | _ =>
                if starts_name rest then None
                else continue (TOperand (OInt (digits_value ip))) rest
            end
          else if is_name_start c then
            let '(w, rest) := span is_name_char l in
            match word_token (string_of_list_ascii w) with
            | Some t => continue t rest
            | None => None
            end
          else None
      end
  end.

(** *** Parser: [or] binds weaker than [and], [and] weaker than [not],
    [not] weaker than a comparison. *)

Definition parse_primary (por : list token -> option (expr * list token))
                         (ts : list token) : option (expr * list token) :=
  match ts with
  | TLParen :: r =>
      match por r with
      | Some (e, TRParen :: r') => Some (e, r')
      | _ => None
      end
  | TOperand a :: TCmp op :: TOperand b :: r => Some (ECmp op a b, r)
  | TOperand a :: r => Some (EAtom a, r)
  | _ => None
  end.

Fixpoint parse_or (fuel : nat) (ts : list token) : option (expr * list token) :=
  match fuel with
  | O => None
  | S fuel' =>
      let fix parse_not (k : nat) (ts : list token) : option (expr * list token) :=
        match k with
        | O => None
        | S k' =>
            match ts with
            | TNot :: r =>
                match parse_not k' r with
                | Some (e, r') => Some (ENot e, r')
                | None => None
                end
            | _ => parse_primary (parse_or fuel') ts
            end
        end in
      let fix and_tail (k : nat) (lhs : expr) (ts : list token) : option (expr * list token) :=
        match k with
        | O => None
        | S k' =>
            match ts with
            | TAnd :: r =>
                match parse_not (S (List.length r)) r with
                | Some (e, r') => and_tail k' (EAnd lhs e) r'
                | None => None
                end
            | _ => Some (lhs, ts)
            end
        end in
      let parse_and (ts : list token) :=
        match parse_not (S (List.length ts)) ts with
        | Some (e, r) => and_tail (S (List.length r)) e r
        | None => None
        end in
      let fix or_tail (k : nat) (lhs : expr) (ts : list token) : option (expr * list token) :=
        match k with
        | O => None
        | S k' =>
            match ts with
            | TOr :: r =>
                match parse_and r with
                | Some (e, r') => or_tail k' (EOr lhs e) r'
                | None => None
                end
            | _ => Some (lhs, ts)
            end
        end in
      match parse_and ts with
      | Some (e, r) => or_tail (S (List.length r)) e r
      | None => None
      end
  end.

(** The expression a condition text denotes, when it is in the grammar. *)
Definition parse (text : string) : option expr :=
  let cs := list_ascii_of_string text in
  match lex (S (List.length cs)) cs with
  | Some ts =>
      match parse_or (S (List.length ts)) ts with
      | Some (e, []) => Some e
      | _ => None
      end
  | None => None
  end.

(** *** Name resolution *)

Definition operand_names (o : operand) : list string :=
  match o with
  | OName s => [s]
  | _ => []
  end.

(** The names of an expression in the order the visitor meets them. *)
Fixpoint names (e : expr) : list string :=
  match e with
  | EAtom o => operand_names o
  | ECmp _ a b => operand_names a ++ operand_names b
  | ENot a => names a
  | EAnd a b | EOr a b => names a ++ names b
  end.

(** Names [query] resolves to the index rather than to a column. *)
Definition index_names : list string := [ "index"; "ilevel_0" ].

Definition resolves (df : DataFrame) (x : string) : bool :=
  in_columns (Some x) df || existsb (String.eqb x) index_names.

(** The first name that resolves neither to a column nor to the index. *)
Definition first_undefined (df : DataFrame) (e : expr) : option string :=
  find (fun x => negb (resolves df x)) (names e).

Definition undefined_variable (x : string) : exn :=
  mkExn "UndefinedVariableError" ("name " ++ py_repr_str x ++ " is not defined").

(** *** Evaluation to a row mask *)

(** An evaluated operand: a scalar or a column of one kind. *)
Inductive value : Type :=
| VInts (scalar : bool) (v : nat -> Z)
| VFloats (scalar : bool) (v : nat -> float)
| VStrs (scalar : bool) (v : nat -> option string).

Definition is_scalar (x : value) : bool :=
  match x with
  | VInts s _ | VFloats s _ | VStrs s _ => s
  end.

Definition eval_operand (df : DataFrame) (o : operand) : option value :=
  match o with
  | OInt z => if Np.in_int64 z then Some (VInts true (fun _ => z)) else None
  | ODec d k => Some (VFloats true (fun _ => Np.nearest_float d (10 ^ Z.of_nat k)))
  | OStr s => Some (VStrs true (fun _ => Some s))
  | OBool _ => None
  | OName x =>
      match get_col df x with
      | Some (IntCol v) => Some (VInts false (fun i => nth i v 0%Z))
      | Some (FloatCol v) => Some (VFloats false (fun i => nth i v nan))
      | Some (ObjCol v) => Some (VStrs false (fun i => nth i v None))
      | _ => None
      end
  end.

Definition cmp_Z (op : cmp_op) (a b : Z) : bool :=
  match op with
  | Lt => Z.ltb a b | Le => Z.leb a b | Gt => Z.ltb b a | Ge => Z.leb b a
  | Eq => Z.eqb a b | Ne => negb (Z.eqb a b)
  end.

Definition cmp_float (op : cmp_op) (a b : float) : bool :=
  match op with
  | Lt => PrimFloat.ltb a b | Le => PrimFloat.leb a b
  | Gt => PrimFloat.ltb b a | Ge => PrimFloat.leb b a
  | Eq => PrimFloat.eqb a b | Ne => negb (PrimFloat.eqb a b)
  end.

(** A missing value compares unequal to everything. *)
Definition cmp_str (op : cmp_op) (a b : option string) : bool :=
  match a, b with
  | Some x, Some y =>
      match op with
      | Lt => String.ltb x y | Le => String.leb x y
      | Gt => String.ltb y x | Ge => String.leb y x
      | Eq => String.eqb x y | Ne => negb (String.eqb x y)
      end
  | _, _ => match op with Ne => true | _ => false end
  end.

Definition rows (df : DataFrame) : list nat := seq 0 (df_len df).

Definition eval_cmp (df : DataFrame) (op : cmp_op) (a b : value) : option (list bool) :=
  if is_scalar a && is_scalar b then None
  else
    match a, b with
    | VInts _ x, VInts _ y => Some (map (fun i => cmp_Z op (x i) (y i)) (rows df))
    | VInts _ x, VFloats _ y =>
        Some (map (fun i => cmp_float op (Np.float_of_Z (x i)) (y i)) (rows df))
    | VFloats _ x, VInts _ y =>
        Some (map (fun i => cmp_float op (x i) (Np.float_of_Z (y i))) (rows df))
    | VFloats _ x, VFloats _ y => Some (map (fun i => cmp_float op (x i) (y i)) (rows df))
    | VStrs _ x, VStrs _ y => Some (map (fun i => cmp_str op (x i) (y i)) (rows df))
    | _, _ => None
    end.

Fixpoint zip_with (f : bool -> bool -> bool) (a b : list bool) : list bool :=
  match a, b with
  | x :: a', y :: b' => f x y :: zip_with f a' b'
  | _, _ => []
  end.

Fixpoint eval (df : DataFrame) (e : expr) : option (list bool) :=
  match e with
  | EAtom (OName x) =>
      match get_col df x with
      | Some (BoolCol v) => Some v
      | _ => None
      end
  | EAtom _ => None
  | ECmp op a b =>
      match eval_operand df a, eval_operand df b with
      | Some x, Some y => eval_cmp df op x y
      | _, _ => None
      end
  | ENot a => option_map (map negb) (eval df a)
  | EAnd a b =>
      match eval df a, eval df b with
      | Some x, Some y => Some (zip_with andb x y)
      | _, _ => None
      end
  | EOr a b =>
      match eval df a, eval df b with
      | Some x, Some y => Some (zip_with orb x y)
      | _, _ => None
      end
  end.

End Query.

(** [df.query(condition)].  The argument must be a non-empty [str];
    every name is resolved when the expression is built, before the
    expression is evaluated on the rows. *)
Definition pd_query (env : Env) (df : DataFrame) (condition : option string)
  : res DataFrame :=
  match condition with
  | None =>
      Raise (value_error "expr must be a string to be evaluated, <class 'NoneType'> given")
  | Some text =>
      if String.eqb text "" then Raise (value_error "expr cannot be an empty string")
      else
        match Query.parse text with
        | None => query_other env df text
        | Some e =>
            match Query.first_undefined df e with
            | Some x => Raise (Query.undefined_variable x)
            | None =>
                match Query.eval df e with
                | Some mask => Ok (df_mask mask df)
                | None => query_other env df text
                end
            end
        end
  end.

(* ================================================================== *)
(** ** Python string and path helpers *)

(** [s.split(sep)] for a one-character separator. *)
Fixpoint split_on (sep : ascii) (s : string) : list string :=
  match s with
  | EmptyString => [EmptyString]
  | String c r =>
      if Ascii.eqb c sep then EmptyString :: split_on sep r
      else match split_on sep r with
           | w :: ws => String c w :: ws
           | [] => [String c EmptyString]
           end
  end.

Definition is_py_space (c : ascii) : bool :=
  let n := nat_of_ascii c in
  (Nat.leb 9 n && Nat.leb n 13) || (Nat.leb 28 n && Nat.leb n 32).

Fixpoint lstrip (s : string) : string :=
  match s with
  | String c r => if is_py_space c then lstrip r else s
  | EmptyString => EmptyString
  end.

Fixpoint rstrip (s : string) : string :=
  match s with
  | EmptyString => EmptyString
  | String c r =>
      match rstrip r with
      | EmptyString => if is_py_space c then EmptyString else String c EmptyString
      | r' => String c r'
      end
  end.

(** [s.strip()] *)
Definition strip (s : string) : string := rstrip (lstrip s).

Definition lower_char (c : ascii) : ascii :=
  let n := nat_of_ascii c in
  if Nat.leb 65 n && Nat.leb n 90 then ascii_of_nat (n + 32) else c.

(** [s.lower()] on ASCII text *)
Fixpoint lower (s : string) : string :=
  match s with
  | EmptyString => EmptyString
  | String c r => String (lower_char c) (lower r)
  end.

(** [Path(p).name]: the last component that is neither empty nor [.] *)
Definition path_name (p : string) : string :=
  last (filter (fun w => negb (String.eqb w "" || String.eqb w "."))
               (split_on "/" p)) "".

(** The position of the last [.] in [s], if any. *)
Fixpoint rfind_dot (s : string) : option nat :=
  match s with
  | EmptyString => None
  | String c r =>
      match rfind_dot r with
      | Some i => Some (S i)
      | None => if Ascii.eqb c "." then Some 0 else None
      end
  end.

(** [Path(p).suffix] *)
Definition path_suffix (p : string) : string :=
  let name := path_name p in
  match rfind_dot name with
  | Some i =>
      if Nat.ltb 0 i && Nat.ltb i (String.length name - 1)
      then substring i (String.length name - i) name
      else ""
  | None => ""
  end.

(* ================================================================== *)
(** ** [analyze] *)

(** The keyword arguments of [analyze].  A field is [None] when the key
    is absent or bound to [None]; [kwargs.get] treats both alike, except
    for [n], whose [None] means that the key is absent. *)
Record kwargs : Type := mkKwargs {
  column : option string;
  column1 : option string;
  column2 : option string;
  columns_arg : option string;
  n : option Z;
  group_by : option string;
  aggregate : option string;
  condition : option string
}.

(** [{"error": msg}] *)
Definition error (msg : string) : pyval := PDict [ (PStr "error", PStr msg) ].

Definition available (df : DataFrame) : string := py_str_list (columns df).

(** [f"Column '{col}' not found. Available: {list(df.columns)}"] *)
Definition column_not_found (col : option string) (df : DataFrame) : string :=
  "Column '" ++ py_str_opt col ++ "' not found. Available: " ++ available df.

(** The result object with its [result] entry set. *)
Definition results (filepath : string) (df : DataFrame) (operation : string)
                   (payload : pyval) : pyval :=
  PDict [ (PStr "file", PStr filepath);
          (PStr "rows", PInt (Z.of_nat (df_len df)));
          (PStr "columns", PList (map PStr (columns df)));
          (PStr "dtypes", dtypes_dict df);
          (PStr "operation", PStr operation);
          (PStr "result", payload) ].

(** [col not in df.columns] guards the use of [df[col]]. *)
Definition with_column (df : DataFrame) (col : option string) (not_found : string)
                       (k : string -> res pyval) : res pyval :=
  match col with
  | Some c => if in_columns col df then k c else Ok (error not_found)
  | None => Ok (error not_found)
  end.

Definition null_count (c : Series) : Z :=
  Z.of_nat (List.length (filter is_null (cells c))).

(** Python's [a / b] on two [int] lengths. *)
Definition py_truediv (a b : nat) : res float :=
  match b with
  | O => Raise (mkExn "ZeroDivisionError" "division by zero")
  | _ => Ok (Np.nearest_float (Z.of_nat a) (Z.of_nat b))
  end.

Definition interpretation (corr : float) : string :=
  if (0.7 <? corr)%float then "strong positive"
  else if (corr <? -0.7)%float then "strong negative"
  else if (abs corr <? 0.3)%float then "weak"
  else "moderate".

(** The [subset] of the duplicates operation:
    [kwargs.get("columns", "").split(",") if kwargs.get("columns") else None],
    each name stripped. *)
Definition parse_subset (arg : option string) : option (list string) :=
  match arg with
  | None => None
  | Some s => if String.eqb s "" then None else Some (map strip (split_on "," s))
  end.

(** The first name of the subset that is not a column. *)
Definition first_missing (df : DataFrame) (subset : option (list string)) : option string :=
  match subset with
  | None => None
  | Some names => find (fun c => negb (in_columns (Some c) df)) names
  end.

Section Analyze.
Variable env : Env.
Variable filepath : string.
Variable df : DataFrame.
Variable operation : string.
Variable kw : kwargs.

Let success (payload : pyval) : res pyval :=
  Ok (results filepath df operation payload).

Definition op_info : res pyval :=
  success (PDict
    [ (PStr "shape", PList [ PInt (Z.of_nat (df_len df));
                             PInt (Z.of_nat (List.length (df_cols df))) ]);
      (PStr "memory_mb",
        PFloat (Np.np_round2 (Np.float_of_Z (memory_usage_deep env df) / 1024 / 1024)%float));
      (PStr "null_counts",
        PDict (map (fun nc => (PStr (fst nc), PInt (null_count (snd nc)))) (df_cols df)));
      (PStr "sample", to_dict_records (df_head 3 df)) ]).

Definition op_select (largest : bool) : res pyval :=
  let col := column kw in
  let n := match n kw with Some v => v | None => 10%Z end in
  with_column df col (column_not_found col df) (fun c =>
    top <- pd_select_n largest n c df ;;
    success (to_dict_records top)).

Definition op_sum : res pyval :=
  let col := column kw in
  with_column df col (column_not_found col df) (fun c =>
    s <- getitem df c ;;
    total <- pd_sum s ;;
    f <- py_float env total ;;
    success (PFloat f)).

Definition op_mean : res pyval :=
  let col := column kw in
  with_column df col (column_not_found col df) (fun c =>
    s <- getitem df c ;;
    m <- pd_mean s ;;
    f <- py_float env m ;;
    success (PFloat f)).

Definition op_stats : res pyval :=
  let col := column kw in
  match col with
  | Some (String _ _) =>
      with_column df col (column_not_found col df) (fun c =>
        s <- getitem df c ;;
        success (describe_series s))
  | _ => desc <- describe_frame df ;; success desc
  end.

Definition op_group_by : res pyval :=
  let group_col := group_by kw in
  let agg_col := aggregate kw in
  with_column df group_col
    ("Group column '" ++ py_str_opt group_col ++ "' not found. Available: " ++ available df)
    (fun g =>
      with_column df agg_col
        ("Aggregate column '" ++ py_str_opt agg_col ++ "' not found. Available: "
         ++ available df)
        (fun a => sums <- pd_groupby_sum g a df ;; success sums)).

Definition op_filter : res pyval :=
  let condition := condition kw in
  try_except
    (filtered <- pd_query env df condition ;;
     ratio <- py_truediv (df_len filtered) (df_len df) ;;
     success (PDict
       [ (PStr "matching_rows", PInt (Z.of_nat (df_len filtered)));
         (PStr "total_rows", PInt (Z.of_nat (df_len df)));
         (PStr "percentage", PFloat (Np.py_round2 (ratio * 100)%float));
         (PStr "sample", to_dict_records (df_head 5 filtered)) ]))
    (fun e => Ok (error ("Invalid filter condition: " ++ py_str_opt condition
                         ++ ". Error: " ++ exn_str e))).

Definition op_unique : res pyval :=
  let col := column kw in
  with_column df col (column_not_found col df) (fun c =>
    s <- getitem df c ;;
    let unique_vals := pd_unique s in
    success (PDict
      [ (PStr "unique_count", PInt (Z.of_nat (List.length unique_vals)));
        (PStr "values",
          PList (if Nat.ltb 100 (List.length unique_vals)
                 then firstn 100 unique_vals else unique_vals)) ])).

Definition op_duplicates : res pyval :=
  let subset := parse_subset (columns_arg kw) in
  match first_missing df subset with
  | Some col => Ok (error (column_not_found (Some col) df))
  | None =>
      mask <- pd_duplicated subset df ;;
      let dupes := df_mask mask df in
      success (PDict
        [ (PStr "duplicate_rows", PInt (Z.of_nat (df_len dupes)));
          (PStr "sample", to_dict_records (df_head 10 dupes)) ])
  end.

Definition op_correlate : res pyval :=
  let col1 := column1 kw in
  let col2 := column2 kw in
  match col1, col2 with
  | Some c1, Some c2 =>
      if in_columns col1 df && in_columns col2 df then
        s1 <- getitem df c1 ;;
        s2 <- getitem df c2 ;;
        corr <- pd_corr env s1 s2 ;;
        success (PDict
          [ (PStr "correlation", PFloat corr);
            (PStr "interpretation", PStr (interpretation corr)) ])
      else Ok (error ("Columns not found. Available: " ++ available df))
  | _, _ => Ok (error ("Columns not found. Available: " ++ available df))
  end.

(** The body of the [try] statement: the value [analyze] returns, or
    the exception that escapes the operation. *)
Definition dispatch : res pyval :=
  if String.eqb operation "info" then op_info
  else if String.eqb operation "top_n" then op_select true
  else if String.eqb operation "bottom_n" then op_select false
  else if String.eqb operation "sum" then op_sum
  else if String.eqb operation "mean" then op_mean
  else if String.eqb operation "stats" then op_stats
  else if String.eqb operation "group_by" then op_group_by
  else if String.eqb operation "filter" then op_filter
  else if String.eqb operation "unique" then op_unique
  else if String.eqb operation "duplicates" then op_duplicates
  else if String.eqb operation "correlate" then op_correlate
  else Ok (error ("Unknown operation: " ++ operation
                  ++ ". Available: info, top_n, bottom_n, sum, mean, stats, group_by, "
                  ++ "filter, unique, duplicates, correlate")).

(** [try: ... except Exception as e: return {"error": str(e)}] *)
Definition run : res pyval :=
  try_except dispatch (fun e => Ok (error (exn_str e))).
End Analyze.

(** [analyze(filepath, operation, **kwargs)] *)
Definition analyze (env : Env) (filepath operation : string) (kw : kwargs) : res pyval :=
  if negb (path_exists env filepath) then Ok (error ("File not found: " ++ filepath))
  else
    let suffix := lower (path_suffix filepath) in
    if String.eqb suffix ".csv" then run env filepath (read_csv env filepath) operation kw
    else if String.eqb suffix ".xlsx" || String.eqb suffix ".xls"
    then run env filepath (read_excel env filepath) operation kw
    else if String.eqb suffix ".json" then run env filepath (read_json env filepath) operation kw
    else Ok (error ("Unsupported file type: " ++ path_suffix filepath)).

(* ================================================================== *)
(** ** [main] *)

(** [key in d] for a string key *)
Definition has_key (key : string) (d : pyval) : bool :=
  match d with
  | PDict items =>
      existsb (fun kv => match fst kv with
                         | PStr s => String.eqb s key
                         | _ => false
                         end) items
  | _ => false
  end.

(** How the process ends: the object it printed and its exit status, or
    an exception that nothing caught. *)
Inductive outcome : Type :=
| Exited (printed : pyval) (status : Z)
| Uncaught (e : exn).

(** The keyword arguments [main] passes, after [argparse] has produced
    the arguments: [--n] defaults to [10]. *)
Definition main_kwargs (args : kwargs) : kwargs :=
  mkKwargs (column args) (column1 args) (column2 args) (columns_arg args)
           (Some (match n args with Some v => v | None => 10%Z end))
           (group_by args) (aggregate args) (condition args).

(** [main]: the result is printed, and the status is [1] when it has an
    [error] key. *)
Definition main (env : Env) (filepath operation : string) (args : kwargs) : outcome :=
  match analyze env filepath operation (main_kwargs args) with
  | Ok result => Exited result (if has_key "error" result then 1%Z else 0%Z)
  | Raise e => Uncaught e
  end.

(* ================================================================== *)
(** * Feature list manager: [scripts/feature-manager.py]

    The script keeps a JSON document in [feature_list.json].  A run of
    the script is modelled by what it prints, the document the file
    holds afterwards, and how the process ends.

    Conventions of the embedding.
    - The document is a [pyval], as [json.load] returns it; a file that
      exists holds valid JSON, and [json.dump] followed by [json.load]
      gives the document back.
    - A [str] is the string of its UTF-8 bytes.
    - A document whose shape makes a command leave the paths modelled
      here (a feature that is not an object, a priority that is not an
      integer, ...) is handed to the host. *)

From Stdlib Require Import DecimalString.

Module FeatureManager.

Local Open Scope string_scope.

Definition FEATURE_FILE : string := "feature_list.json".

Definition nl : string := String (ascii_of_nat 10) EmptyString.

(** How the process ends: the command returns, [sys.exit] is called, or
    an exception reaches the top level. *)
Inductive ending : Type :=
| Returned
| Exited (status : Z)
| Crashed (e : exn).

(** A run: the texts given to [print], in order; the document in the
    file afterwards ([None]: no file); the ending. *)
Record run : Type := mkRun {
  printed : list string;
  file : option pyval;
  ended : ending
}.

(** What the script takes from its host: [datetime.now().isoformat()],
    [str] of a float and of a list or dict, [upper] of a string that is
    not ASCII, and the run of a command on a document outside the
    modelled shape. *)
Record Host : Type := mkHost {
  now_isoformat : string;
  float_repr : float -> string;
  container_repr : pyval -> string;
  unicode_upper : string -> string;
  off_shape : list string -> pyval -> run
}.

(** ** Python primitives *)

(** [d.get(k)] on the items of a [dict] *)
Fixpoint dict_get (k : string) (d : list (pyval * pyval)) : option pyval :=
  match d with
  | [] => None
  | (PStr s, v) :: r => if String.eqb s k then Some v else dict_get k r
  | _ :: r => dict_get k r
  end.

(** [d.get(k, default)] *)
Definition get_or (k : string) (default : pyval) (d : list (pyval * pyval)) : pyval :=
  match dict_get k d with
  | Some v => v
  | None => default
  end.

(** [d[k] = v]: an existing key keeps its place, a new key goes last. *)
Fixpoint dict_set (k : string) (v : pyval) (d : list (pyval * pyval))
  : list (pyval * pyval) :=
  match d with
  | [] => [(PStr k, v)]
  | (PStr s, x) :: r =>
      if String.eqb s k then (PStr s, v) :: r else (PStr s, x) :: dict_set k v r
  | kv :: r => kv :: dict_set k v r
  end.

(** The truth value of an object. *)
Definition truthy (v : pyval) : bool :=
  match v with
  | PNone => false
  | PBool b => b
  | PInt z => negb (Z.eqb z 0)
  | PFloat f => negb (PrimFloat.eqb f 0%float)
  | PStr s => negb (String.eqb s "")
  | PList l => match l with [] => false | _ => true end
  | PDict d => match d with [] => false | _ => true end
  end.

(** [v == s] for a [str] [s] *)
Definition eq_str (s : string) (v : pyval) : bool :=
  match v with
  | PStr t => String.eqb t s
  | _ => false
  end.

(** [str(z)] of an [int] *)
Definition int_str (z : Z) : string := NilZero.string_of_int (Z.to_int z).

(** [f"{v}"] *)
Definition py_str (host : Host) (v : pyval) : string :=
  match v with
  | PNone => "None"
  | PBool b => if b then "True" else "False"
  | PInt z => int_str z
  | PFloat f => float_repr host f
  | PStr s => s
  | PList _ | PDict _ => container_repr host v
  end.

(** [s * n] *)
Fixpoint repeat_str (s : string) (n : nat) : string :=
  match n with
  | O => ""
  | S n' => s ++ repeat_str s n'
  end.

(** A byte that continues a UTF-8 character. *)
Definition is_continuation (c : ascii) : bool :=
  let n := nat_of_ascii c in Nat.leb 128 n && Nat.ltb n 192.

(** [s[:k]]: the first [k] characters. *)
Fixpoint str_prefix (k : nat) (s : string) : string :=
  match s with
  | EmptyString => EmptyString
  | String c r =>
      if is_continuation c then String c (str_prefix k r)
      else match k with
           | O => EmptyString
           | S k' => String c (str_prefix k' r)
           end
  end.

Definition upper_char (c : ascii) : ascii :=
  let n := nat_of_ascii c in
  if Nat.leb 97 n && Nat.leb n 122 then ascii_of_nat (n - 32) else c.

Fixpoint ascii_upper (s : string) : string :=
  match s with
  | EmptyString => EmptyString
  | String c r => String (upper_char c) (ascii_upper r)
  end.

Fixpoint is_ascii (s : string) : bool :=
  match s with
  | EmptyString => true
  | String c r => Nat.ltb (nat_of_ascii c) 128 && is_ascii r
  end.

(** [s.upper()] *)
Definition upper (host : Host) (s : string) : string :=
  if is_ascii s then ascii_upper s else unicode_upper host s.

(** [f"{i:03d}"] for [i < 1000] *)
Definition pad3 (i : nat) : string :=
  let digit (d : nat) := ascii_of_nat (48 + d) in
  String (digit (i / 100)) (String (digit (i / 10 mod 10))
    (String (digit (i mod 10)) EmptyString)).

(** ** The shape of the document *)

Definition is_dict (v : pyval) : bool :=
  match v with
  | PDict _ => true
  | _ => false
  end.

Definition items (v : pyval) : list (pyval * pyval) :=
  match v with
  | PDict d => d
  | _ => []
  end.

(** The entry [k] of a feature is absent or satisfies [ok]. *)
Definition entry_is (k : string) (ok : pyval -> bool) (f : pyval) : bool :=
  match dict_get k (items f) with
  | Some v => ok v
  | None => true
  end.

Definition is_int (v : pyval) : bool :=
  match v with
  | PInt _ => true
  | _ => false
  end.

Definition is_str (v : pyval) : bool :=
  match v with
  | PStr _ => true
  | _ => false
  end.

Definition is_list (v : pyval) : bool :=
  match v with
  | PList _ => true
  | _ => false
  end.

(** The document is an object; [features], when present, is a list of
    objects that satisfy [feature_ok]; [metadata], when present, is an
    object. *)
Definition shaped (feature_ok : pyval -> bool) (data : pyval) : bool :=
  match data with
  | PDict d =>
      match dict_get "features" d with
      | None => true
      | Some (PList fs) => forallb (fun f => is_dict f && feature_ok f) fs
      | Some _ => false
      end
      && match dict_get "metadata" d with
         | None | Some (PDict _) => true
         | Some _ => false
         end
  | _ => false
  end.

(** [data.get('features', [])] of a shaped document *)
Definition features_of (data : pyval) : list pyval :=
  match dict_get "features" (items data) with
  | Some (PList fs) => fs
  | _ => []
  end.

(** [f.get('passes', False)] as a condition *)
Definition passes (f : pyval) : bool :=
  truthy (get_or "passes" (PBool false) (items f)).

(** [sum(1 for f in features if f.get('passes', False))] *)
Definition count_passing (fs : list pyval) : nat :=
  List.length (filter passes fs).

(** ** [load_features] and [save_features] *)

(** The run of [load_features] when the file is missing. *)
Definition not_found : run :=
  mkRun [ "❌ Error: " ++ FEATURE_FILE ++ " not found";
          "Run setup-long-running-project.sh first" ]
        None (Exited 1).

(** The document [save_features] writes, for a shaped document: the
    four entries of [metadata] are set in turn; a missing [metadata] or
    [features] raises [KeyError] before the file is opened. *)
Definition save_features (host : Host) (data : pyval) : res pyval :=
  match dict_get "metadata" (items data) with
  | None => Raise (key_error "metadata")
  | Some meta =>
      let m1 := dict_set "last_updated" (PStr (now_isoformat host)) (items meta) in
      match dict_get "features" (items data) with
      | None => Raise (key_error "features")
      | Some _ =>
          let fs := features_of data in
          let total := Z.of_nat (List.length fs) in
          let m2 := dict_set "total_features" (PInt total) m1 in
          let passing := Z.of_nat (count_passing fs) in
          let m3 := dict_set "passing" (PInt passing) m2 in
          let m4 := dict_set "failing" (PInt (total - passing)) m3 in
          Ok (PDict (dict_set "metadata" (PDict m4) (items data)))
      end
  end.

Definition saved : string := "✅ Saved " ++ FEATURE_FILE.

(** A command that changed the document in memory to [data'], saves it
    and prints [message]; when saving raises, the file keeps [before]. *)
Definition save_and_report (host : Host) (before data' : pyval) (message : string) : run :=
  match save_features host data' with
  | Ok written => mkRun [ saved; message ] (Some written) Returned
  | Raise e => mkRun [] (Some before) (Crashed e)
  end.

(** ** [cmd_pass] and [cmd_fail] *)

(** [f.get('id') == feature_id] *)
Definition has_id (feature_id : string) (f : pyval) : bool :=
  match dict_get "id" (items f) with
  | Some v => eq_str feature_id v
  | None => false
  end.

(** The features with the first one that has the id replaced by [g] of it. *)
Fixpoint update_first (feature_id : string) (g : pyval -> pyval) (fs : list pyval)
  : list pyval :=
  match fs with
  | [] => []
  | f :: r => if has_id feature_id f then g f :: r else f :: update_first feature_id g r
  end.

(** [f['passes'] = b] *)
Definition set_passes (b : bool) (f : pyval) : pyval :=
  PDict (dict_set "passes" (PBool b) (items f)).

(** [cmd_pass] ([target = true]) and [cmd_fail] ([target = false]): the
    first feature with the id decides. *)
Definition cmd_mark (target : bool) (host : Host) (store : option pyval)
                    (feature_id : string) : run :=
  match store with
  | None => not_found
  | Some data =>
      if negb (shaped (fun _ => true) data)
      then off_shape host [ if target then "pass" else "fail"; feature_id ] data
      else
        match dict_get "features" (items data) with
        | None => mkRun [] store (Crashed (key_error "features"))
        | Some _ =>
            let fs := features_of data in
            match find (has_id feature_id) fs with
            | None => mkRun [ "❌ Feature " ++ feature_id ++ " not found" ] store Returned
            | Some f =>
                if Bool.eqb (passes f) target
                then mkRun [ "⚠️  " ++ feature_id ++ " is already "
                             ++ (if target then "passing" else "failing") ]
                           store Returned
                else
                  let fs' := update_first feature_id (set_passes target) fs in
                  let data' := PDict (dict_set "features" (PList fs') (items data)) in
                  save_and_report host data data'
                    (if target then "✅ Marked " ++ feature_id ++ " as PASSING"
                     else "❌ Marked " ++ feature_id ++ " as FAILING")
            end
        end
  end.

Definition cmd_pass := cmd_mark true.
Definition cmd_fail := cmd_mark false.

(** ** [cmd_add] *)

(** The priority of a feature whose priority is an integer or absent. *)
Definition priority_or (default : Z) (f : pyval) : Z :=
  match dict_get "priority" (items f) with
  | Some (PInt z) => z
  | _ => default
  end.

(** [max(..., default=0)] *)
Definition max_or_zero (l : list Z) : Z :=
  match l with
  | [] => 0%Z
  | x :: r => fold_left Z.max r x
  end.

(** The first of [F001] ... [F999] that is no feature's id; [F999], the
    last value of the loop variable, when all are taken. *)
Definition new_id (fs : list pyval) : string :=
  let existing_ids := map (fun f => get_or "id" (PStr "") (items f)) fs in
  match find (fun i => negb (existsb (eq_str ("F" ++ pad3 i)) existing_ids)) (seq 1 999) with
  | Some i => "F" ++ pad3 i
  | None => "F" ++ pad3 999
  end.

Definition new_feature (fs : list pyval) (description : string) : pyval :=
  PDict [ (PStr "id", PStr (new_id fs));
          (PStr "category", PStr "functional");
          (PStr "priority", PInt (max_or_zero (map (priority_or 0) fs) + 1));
          (PStr "description", PStr description);
          (PStr "steps", PList [ PStr "Implement the feature";
                                 PStr "Test the feature end-to-end";
                                 PStr "Verify no regressions" ]);
          (PStr "passes", PBool false) ].

Definition cmd_add (host : Host) (store : option pyval) (description : string) : run :=
  match store with
  | None => not_found
  | Some data =>
      if negb (shaped (entry_is "priority" is_int) data)
      then off_shape host [ "add"; description ] data
      else
        let fs := features_of data in
        let added := new_feature fs description in
        match dict_get "features" (items data) with
        | None => mkRun [] store (Crashed (key_error "features"))
        | Some _ =>
            let data' :=
              PDict (dict_set "features" (PList (fs ++ [added])%list) (items data)) in
            save_and_report host data data'
              ("✅ Added feature " ++ new_id fs ++ ": " ++ description)
        end
  end.

(** ** [cmd_next] *)

(** The failing features in the order of [sort(key=priority)]: by
    priority, [999] when absent, equal priorities in document order. *)
Definition by_priority (failing : list pyval) : list pyval :=
  let key (i : nat) := priority_or 999 (nth i failing PNone) in
  map (fun i => nth i failing PNone)
      (stable_sort (fun i j => Z.ltb (key i) (key j)) (seq 0 (List.length failing))).

Definition numbered_steps (host : Host) (steps : list pyval) : list string :=
  map (fun p => "  " ++ int_str (Z.of_nat (S (fst p))) ++ ". " ++ py_str host (snd p))
      (combine (seq 0 (List.length steps)) steps).

Definition cmd_next (host : Host) (store : option pyval) : run :=
  match store with
  | None => not_found
  | Some data =>
      if negb (shaped (fun f => entry_is "priority" is_int f && entry_is "steps" is_list f) data)
      then off_shape host [ "next" ] data
      else
        let failing := filter (fun f => negb (passes f)) (features_of data) in
        match by_priority failing with
        | [] => mkRun [ nl ++ "🎉 All features are passing!" ] store Returned
        | next_feature :: _ =>
            let field (k default : string) :=
              py_str host (get_or k (PStr default) (items next_feature)) in
            let steps := match dict_get "steps" (items next_feature) with
                         | Some (PList l) => l
                         | _ => []
                         end in
            mkRun (List.app
                     [ nl ++ "🎯 Next Feature to Implement";
                       repeat_str "=" 60;
                       "ID: " ++ field "id" "???";
                       "Priority: " ++ field "priority" "???";
                       "Category: " ++ field "category" "???";
                       "Description: " ++ field "description" "No description";
                       "";
                       "Steps:" ]
                     (List.app
                        (numbered_steps host steps)
                        [ "";
                          "Remaining failing features: "
                          ++ int_str (Z.of_nat (List.length failing));
                          "" ]))
                  store Returned
        end
  end.

(** ** [cmd_status] and [cmd_list] *)

(** [100*k//total if total else 0] *)
Definition percent (k total : nat) : Z :=
  match total with
  | O => 0%Z
  | _ => (100 * Z.of_nat k / Z.of_nat total)%Z
  end.

(** [int(bar_width * passing / total)] for [bar_width = 30]: the float
    quotient, truncated. *)
Definition filled (passing total : nat) : nat :=
  floor_index (Np.nearest_float (30 * Z.of_nat passing) (Z.of_nat total)).

Definition cmd_status (host : Host) (store : option pyval) : run :=
  match store with
  | None => not_found
  | Some data =>
      if negb (shaped (fun _ => true) data)
      then off_shape host [ "status" ] data
      else
        let meta := get_or "metadata" (PDict []) (items data) in
        let features := features_of data in
        let total := List.length features in
        let passing := count_passing features in
        let failing := total - passing in
        mkRun (List.app
                 [ nl ++ "📊 Feature Status Summary";
                   repeat_str "=" 40;
                   "Project: " ++ py_str host (get_or "project" (PStr "Unknown") (items data));
                   "Total Features: " ++ int_str (Z.of_nat total);
                   "✅ Passing: " ++ int_str (Z.of_nat passing)
                   ++ " (" ++ int_str (percent passing total) ++ "%)";
                   "❌ Failing: " ++ int_str (Z.of_nat failing)
                   ++ " (" ++ int_str (percent failing total) ++ "%)";
                   "Last Updated: "
                   ++ py_str host (get_or "last_updated" (PStr "Unknown") (items meta));
                   "" ]
                 (List.app
                    (if Nat.ltb 0 total
                     then [ "Progress: ["
                            ++ repeat_str "█" (filled passing total)
                            ++ repeat_str "░" (30 - filled passing total)
                            ++ "] " ++ int_str (percent passing total) ++ "%" ]
                     else [])
                    [ "" ]))
              store Returned
  end.

Definition list_line (host : Host) (f : pyval) : string :=
  let status := if passes f then "✅" else "❌" in
  let desc := match get_or "description" (PStr "No description") (items f) with
              | PStr s => str_prefix 50 s
              | _ => ""
              end in
  status ++ " [" ++ py_str host (get_or "id" (PStr "???") (items f))
  ++ "] P" ++ py_str host (get_or "priority" (PInt 999) (items f)) ++ ": " ++ desc.

Definition cmd_list (host : Host) (store : option pyval) : run :=
  match store with
  | None => not_found
  | Some data =>
      if negb (shaped (entry_is "description" is_str) data)
      then off_shape host [ "list" ] data
      else
        mkRun (List.app
                 [ nl ++ "📋 Feature List"; repeat_str "=" 60 ]
                 (List.app (map (list_line host) (features_of data)) [ "" ]))
              store Returned
  end.

(** ** [main] *)

(** The module docstring. *)
Definition doc : string :=
  join nl
    [ "";
      "feature-manager.py";
      "Manage feature_list.json for long-running agent projects";
      "";
      "Usage:";
      "  python feature-manager.py status          # Show feature status summary";
      "  python feature-manager.py list            # List all features";
      "  python feature-manager.py next            # Show next feature to work on";
      "  python feature-manager.py pass F001       # Mark feature as passing";
      "  python feature-manager.py fail F001       # Mark feature as failing";
      "  python feature-manager.py add " ++ String dquote ("desc" ++ String dquote
        "      # Add new feature");
      "" ].

Definition usage (store : option pyval) : run :=
  mkRun [ doc ] store (Exited 1).

(** [main] on [sys.argv]: the command is compared in lower case, a
    feature id is put in upper case, and [add] joins its arguments.
    [lower] changes the letters [A] ... [Z] only, which is all that
    matters here: no other character becomes a letter of one of the six
    command names. *)
Definition main (host : Host) (store : option pyval) (argv : list string) : run :=
  match argv with
  | _ :: c :: rest =>
      let cmd := lower c in
      if String.eqb cmd "status" then cmd_status host store
      else if String.eqb cmd "list" then cmd_list host store
      else if String.eqb cmd "next" then cmd_next host store
      else
        match rest with
        | arg :: _ =>
            if String.eqb cmd "pass" then cmd_pass host store (upper host arg)
            else if String.eqb cmd "fail" then cmd_fail host store (upper host arg)
            else if String.eqb cmd "add" then cmd_add host store (join " " rest)
            else usage store
        | [] => usage store
        end
  | _ => usage store
  end.

End FeatureManager.

(* ================================================================== *)
(** ** Vocabulary of the statements *)

(** The table [analyze] loads for a path: none when the path does not
    exist or its suffix is not supported. *)
Definition loaded (env : Env) (filepath : string) : option DataFrame :=
  if negb (path_exists env filepath) then None
  else
    let suffix := lower (path_suffix filepath) in
    if String.eqb suffix ".csv" then Some (read_csv env filepath)
    else if String.eqb suffix ".xlsx" || String.eqb suffix ".xls"
    then Some (read_excel env filepath)
    else if String.eqb suffix ".json" then Some (read_json env filepath)
    else None.

(** A rank for the values IEEE comparison orders: comparing two floats
    that are not NaN is comparing their ranks lexicographically. *)
Definition rk (s : spec_float) : Z * Z * Z :=
  match s with
  | S754_zero _ => (0, 0, 0)
  | S754_infinity false => (2, 0, 0)
  | S754_infinity true => (-2, 0, 0)
  | S754_finite false m e => (1, e, Zpos m)
  | S754_finite true m e => (-1, - e, Zneg m)
  | S754_nan => (0, 0, 0)
  end%Z.

Definition lex_lt (a b : Z * Z * Z) : Prop :=
  (fst (fst a) < fst (fst b)
   \/ (fst (fst a) = fst (fst b)
       /\ (snd (fst a) < snd (fst b)
           \/ (snd (fst a) = snd (fst b) /\ snd a < snd b))))%Z.

Definition float_rank (x : float) : Z * Z * Z := rk (Prim2SF x).

(** The rank of a present cell among the cells of its column. *)
Definition cell_rank (x : cell) : Z * Z * Z :=
  match x with
  | CInt z => (0, z, 0)
  | CFloat f => float_rank f
  | CBool b => (0, if b then 1 else 0, 0)
  | _ => (0, 0, 0)
  end%Z.

Definition neg3 (a : Z * Z * Z) : Z * Z * Z :=
  (- fst (fst a), - snd (fst a), - snd a)%Z.

(** The sort key of row [i]: missing values last, then the rank of the
    value, negated when the largest come first. *)
Definition row_rank (largest : bool) (c : Series) (i : nat) : Z * (Z * Z * Z) :=
  let a := cell_at c i in
  if is_null a then (1%Z, (0, 0, 0)%Z)
  else (0%Z, if largest then neg3 (cell_rank a) else cell_rank a).

Definition key_lt (a b : Z * (Z * Z * Z)) : Prop :=
  (fst a < fst b)%Z \/ (fst a = fst b /\ lex_lt (snd a) (snd b)).

(** Row [i] is ranked before row [j]: [j] does not come strictly before
    [i], and [i] comes strictly before [j] or they tie and [i] is the
    earlier row of the table. *)
Definition ranks_before (largest : bool) (c : Series) (i j : nat) : Prop :=
  precedes largest c j i = false /\ (precedes largest c i j = true \/ i < j).

(** The dtype family of a cell; cells of one column are compatible. *)
Definition cell_kind (x : cell) : nat :=
  match x with
  | CNull => 0 | CInt _ => 1 | CFloat _ => 2 | CStr _ => 3 | CBool _ => 4
  end.

Definition compatible (a b : cell) : Prop :=
  cell_kind a = 0 \/ cell_kind b = 0 \/ cell_kind a = cell_kind b.

(** The sort key of a cell. *)
Definition cell_key (largest : bool) (a : cell) : Z * (Z * Z * Z) :=
  if is_null a then (1%Z, (0, 0, 0)%Z)
  else (0%Z, if largest then neg3 (cell_rank a) else cell_rank a).


(** ** Example tables and runs *)

(** The table of the documented scenarios. *)
Definition sales : DataFrame :=
  mkDF 5 [ ("id", IntCol [1; 2; 3; 4; 5]%Z);
           ("category", ObjCol [Some "a"; Some "a"; Some "b"; Some "b"; Some "b"]);
           ("revenue", IntCol [10; 20; 30; 40; 50]%Z) ].

(** The same columns without rows. *)
Definition sales_empty : DataFrame :=
  mkDF 0 [ ("id", IntCol []); ("category", ObjCol []); ("revenue", IntCol []) ].

(** An environment in which every path exists and loads as [df]. *)
Definition env_with (df : DataFrame) : Env :=
  mkEnv (fun _ => true) (fun _ => df) (fun _ => df) (fun _ => df)
        (fun _ => 1024%Z) (fun _ => None)
        (fun _ _ => Raise (mkExn "SyntaxError" "invalid syntax")).

Definition no_args : kwargs := mkKwargs None None None None None None None None.

Definition column_args (col : string) : kwargs :=
  mkKwargs (Some col) None None None None None None None.

Definition filter_args (cond : string) : kwargs :=
  mkKwargs None None None None None None None (Some cond).

Definition correlate_args (c1 c2 : string) : kwargs :=
  mkKwargs None (Some c1) (Some c2) None None None None None.

(** The shape of what [analyze] returns for a table: an error object or
    the result object; an escaping exception is unconstrained. *)
Definition shaped (fp : string) (df : DataFrame) (op : string) (r : res pyval) : Prop :=
  match r with
  | Ok v => (exists msg, v = error msg) \/ (exists payload, v = results fp df op payload)
  | Raise _ => True
  end.





(** A column of the integers [0 .. k-1]. *)
Definition counting (k : nat) : Series := IntCol (map Z.of_nat (seq 0 k)).

(** A value holds a float that is NaN or infinite. *)
Fixpoint has_non_finite (v : pyval) : bool :=
  match v with
  | PFloat f => negb (is_finite f)
  | PList l => existsb has_non_finite l
  | PDict d => existsb (fun kv => has_non_finite (fst kv) || has_non_finite (snd kv)) d
  | _ => false
  end.

(** A table whose column [b] has no present value. *)
Definition gaps : DataFrame :=
  mkDF 2 [ ("a", IntCol [1; 2]%Z); ("b", FloatCol [nan; nan]) ].


(** A table whose integer column adds up past the [int64] range. *)
Definition big : DataFrame :=
  mkDF 2 [ ("v", IntCol [4611686018427387904; 4611686018427387904]%Z) ].

(** What [describe] returns for a numeric column without present values. *)
Definition describe_all_missing : pyval :=
  PDict [ (PStr "count", PFloat 0%float); (PStr "mean", PFloat nan);
          (PStr "std", PFloat nan); (PStr "min", PFloat nan);
          (PStr "25%", PFloat nan); (PStr "50%", PFloat nan);
          (PStr "75%", PFloat nan); (PStr "max", PFloat nan) ].




(** The payload of the correlate operation. *)
Definition correlation_payload (r : float) : pyval :=
  PDict [ (PStr "correlation", PFloat r);
          (PStr "interpretation", PStr (interpretation r)) ].

(** The rows of two float arrays where both values are present. *)
Definition both_present (a b : list float) : list (float * float) :=
  filter (fun p => negb (is_nan (fst p)) && negb (is_nan (snd p))) (combine a b).

(* ================================================================== *)
(** ** Further vocabulary *)

(** The operation names [analyze] knows. *)
Definition known_operations : list string :=
  [ "info"; "top_n"; "bottom_n"; "sum"; "mean"; "stats"; "group_by"; "filter";
    "unique"; "duplicates"; "correlate" ].


(** [f"Invalid filter condition: {condition}. Error: {str(e)}"] *)
Definition invalid_filter (condition : option string) (msg : string) : string :=
  "Invalid filter condition: " ++ py_str_opt condition ++ ". Error: " ++ msg.

(** The message for an operation name outside [known_operations]. *)
Definition unknown_operation (operation : string) : string :=
  "Unknown operation: " ++ operation
  ++ ". Available: info, top_n, bottom_n, sum, mean, stats, group_by, "
  ++ "filter, unique, duplicates, correlate".

(** The payload of a successful filter that matched the rows [hits]. *)
Definition filter_payload (df : DataFrame) (hits : list nat) : pyval :=
  PDict
    [ (PStr "matching_rows", PInt (Z.of_nat (List.length hits)));
      (PStr "total_rows", PInt (Z.of_nat (df_len df)));
      (PStr "percentage",
        PFloat (Np.py_round2
                  (Np.nearest_float (Z.of_nat (List.length hits)) (Z.of_nat (df_len df))
                   * 100)%float));
      (PStr "sample", PList (map (record_at df) (firstn 5 hits))) ].

(** The exact total of a list of integers. *)
Fixpoint sum_Z (v : list Z) : Z :=
  match v with
  | [] => 0%Z
  | x :: r => (x + sum_Z r)%Z
  end.




(** Every element is the float zero. *)
Definition zeros (l : list float) : Prop := Forall (fun x => x = 0%float) l.

(** The rows of a group: the positions whose grouping value is [k]. *)
Definition group_rows (gc : Series) (n : nat) (k : cell) : list nat :=
  filter (fun i => cell_eqv k (cell_at gc i)) (seq 0 n).

(** The payload of group_by for the group values [keys]. *)
Definition group_by_payload (gc ac : Series) (n : nat) (keys : list cell) : pyval :=
  PDict (map (fun k => (box k, group_sum (group_rows gc n k) ac)) keys).

(** A present cell of the dtype family [k]. *)
Definition present_of (k : nat) (x : cell) : Prop :=
  is_null x = false /\ cell_kind x = k.

(** The payload of stats for one numeric column. *)
Definition stats_payload (count mean std lo q1 q2 q3 hi : float) : pyval :=
  PDict [ (PStr "count", PFloat count);
          (PStr "mean", PFloat mean);
          (PStr "std", PFloat std);
          (PStr "min", PFloat lo);
          (PStr "25%", PFloat q1);
          (PStr "50%", PFloat q2);
          (PStr "75%", PFloat q3);
          (PStr "max", PFloat hi) ].


(** The arguments of top_n and bottom_n. *)
Definition select_args (col : string) (k : Z) : kwargs :=
  mkKwargs (Some col) None None None (Some k) None None None.

(** ** Vocabulary of the feature list manager *)

(** A feature whose priority, steps and description, when present, are
    an integer, a list and a string. *)
Definition plain_feature (f : pyval) : bool :=
  FeatureManager.entry_is "priority" FeatureManager.is_int f
  && FeatureManager.entry_is "steps" FeatureManager.is_list f
  && FeatureManager.entry_is "description" FeatureManager.is_str f.

(** A document that every command handles on the modelled paths. *)
Definition well_shaped (data : pyval) : Prop :=
  FeatureManager.shaped plain_feature data = true.

(** The counts in [metadata] are those of the feature list. *)
Definition counts_agree (written : pyval) : Prop :=
  let fs := FeatureManager.features_of written in
  exists m : list (pyval * pyval),
    FeatureManager.dict_get "metadata" (FeatureManager.items written) = Some (PDict m)
    /\ FeatureManager.dict_get "total_features" m = Some (PInt (Z.of_nat (List.length fs)))
    /\ FeatureManager.dict_get "passing" m
       = Some (PInt (Z.of_nat (FeatureManager.count_passing fs)))
    /\ FeatureManager.dict_get "failing" m
       = Some (PInt (Z.of_nat (List.length fs)
                     - Z.of_nat (FeatureManager.count_passing fs))).

(** The command left the file as it was; if it crashed, it had printed
    nothing and the exception is the [KeyError] of a missing [metadata]
    or [features]. *)
Definition untouched (data : pyval) (r : FeatureManager.run) : Prop :=
  FeatureManager.file r = Some data
  /\ (forall e, FeatureManager.ended r = FeatureManager.Crashed e ->
      FeatureManager.printed r = []
      /\ (e = key_error "metadata" \/ e = key_error "features")).

(** The command saved a document: it differs from [data] in [features]
    and [metadata] at most, and its counts agree. *)
Definition rewritten (data : pyval) (r : FeatureManager.run) : Prop :=
  exists written : pyval,
    FeatureManager.file r = Some written
    /\ FeatureManager.ended r = FeatureManager.Returned
    /\ hd "" (FeatureManager.printed r) = FeatureManager.saved
    /\ counts_agree written
    /\ (forall k, k <> "metadata" -> k <> "features" ->
        FeatureManager.dict_get k (FeatureManager.items written)
        = FeatureManager.dict_get k (FeatureManager.items data)).

(** A host for the examples. *)
Definition demo_host : FeatureManager.Host :=
  FeatureManager.mkHost "2026-01-01T00:00:00" (fun _ => "") (fun _ => "") (fun s => s)
    (fun _ data => FeatureManager.mkRun [] (Some data) FeatureManager.Returned).

(** A feature list with one failing and one passing feature. *)
Definition demo_list : pyval :=
  PDict [ (PStr "project", PStr "demo");
          (PStr "features",
           PList [ PDict [ (PStr "id", PStr "F001"); (PStr "priority", PInt 2);
                           (PStr "passes", PBool false);
                           (PStr "description", PStr "first") ];
                   PDict [ (PStr "id", PStr "F002"); (PStr "priority", PInt 1);
                           (PStr "passes", PBool true) ] ]);
          (PStr "metadata", PDict [ (PStr "total_features", PInt 2) ]) ].

(** The number a three-digit string denotes. *)
Definition unpad3 (s : string) : nat :=
  match s with
  | String a (String b (String c EmptyString)) =>
      (nat_of_ascii a - 48) * 100 + (nat_of_ascii b - 48) * 10 + (nat_of_ascii c - 48)
  | _ => 0
  end.

(** The id [cmd_add] tries in round [i]. *)
Definition candidate (i : nat) : string := "F" ++ FeatureManager.pad3 i.

(** A document that holds the features [F001] ... [F999]. *)
Definition full_list : pyval :=
  PDict [ (PStr "features",
           PList (map (fun i => PDict [ (PStr "id", PStr (candidate i)) ]) (seq 1 999)));
          (PStr "metadata", PDict []) ].

(** The failing features of a document, in document order. *)
Definition failing_of (data : pyval) : list pyval :=
  filter (fun f => negb (FeatureManager.passes f)) (FeatureManager.features_of data).

(** The string holds one of the letters [a] ... [z]. *)
Fixpoint has_lower (s : string) : bool :=
  match s with
  | EmptyString => false
  | String c r =>
      (Nat.leb 97 (nat_of_ascii c) && Nat.leb (nat_of_ascii c) 122) || has_lower r
  end.

(** The number of characters of a string: the bytes that start one. *)
Fixpoint char_count (s : string) : nat :=
  match s with
  | EmptyString => 0
  | String c r => (if FeatureManager.is_continuation c then 0 else 1) + char_count r
  end.

(** The description [cmd_list] shows for a feature. *)
Definition shown_description (f : pyval) : string :=
  match FeatureManager.get_or "description" (PStr "No description") (FeatureManager.items f) with
  | PStr s => FeatureManager.str_prefix 50 s
  | _ => ""
  end.

(* ================================================================== *)
(** * Properties *)

(** ** IEEE comparison as an order on ranks *)

Section FloatOrder.
Local Open Scope Z_scope.

Lemma SFltb_lex (x y : spec_float) :
x <> S754_nan -> y <> S754_nan ->
(SFltb x y = true <-> lex_lt (rk x) (rk y)).
Proof.
intros Hx Hy.
destruct x as [sx | sx | | sx mx ex], y as [sy | sy | | sy my ey];
  try congruence;
  try destruct sx; try destruct sy;
  unfold SFltb, SFcompare, lex_lt, rk; cbn [fst snd];
  try (split; [ intros; try discriminate; lia | intros; try reflexivity; lia ]).
all: change (Pos.compare_cont Eq mx my) with (Pos.compare mx my);
  destruct (Z.compare_spec ex ey), (Pos.compare_spec mx my); cbn [CompOpp];
  (split; [ intros; try discriminate; lia | intros; try reflexivity; lia ]).
Qed.

Lemma SFeqb_lex (x y : spec_float) :
x <> S754_nan -> y <> S754_nan ->
(SFeqb x y = true <-> rk x = rk y).
Proof.
intros Hx Hy.
destruct x as [sx | sx | | sx mx ex], y as [sy | sy | | sy my ey];
  try congruence;
  try destruct sx; try destruct sy;
  unfold SFeqb, SFcompare, rk;
  try solve [ split; [ intros; solve [ discriminate | reflexivity ]
                     | intros; solve [ reflexivity | discriminate ] ] ].
all: change (Pos.compare_cont Eq mx my) with (Pos.compare mx my);
  destruct (Z.compare_spec ex ey), (Pos.compare_spec mx my); cbn [CompOpp];
  (split; [ intros; try discriminate; subst; reflexivity
          | intros E; try reflexivity; injection E; intros; lia ]).
Qed.

Lemma SFeqb_nan_l (y : spec_float) : SFeqb S754_nan y = false.
Proof. reflexivity. Qed.

Lemma SFeqb_nan_r (x : spec_float) : SFeqb x S754_nan = false.
Proof. destruct x; reflexivity. Qed.

Lemma SFltb_nan_l (y : spec_float) : SFltb S754_nan y = false.
Proof. reflexivity. Qed.

Lemma SFltb_nan_r (x : spec_float) : SFltb x S754_nan = false.
Proof. destruct x; reflexivity. Qed.

Lemma is_nan_spec (x : float) : is_nan x = true <-> Prim2SF x = S754_nan.
Proof.
unfold is_nan. rewrite eqb_spec.
destruct (Prim2SF x) as [s | s | | s m e] eqn:E.
- split; [ discriminate | discriminate ].
- destruct s; split; discriminate.
- split; reflexivity.
- assert (H : SFeqb (S754_finite s m e) (S754_finite s m e) = true)
    by (apply SFeqb_lex; congruence).
  rewrite H. split; discriminate.
Qed.

Lemma not_nan_spec (x : float) : is_nan x = false <-> Prim2SF x <> S754_nan.
Proof.
rewrite <- is_nan_spec. destruct (is_nan x); split; congruence.
Qed.

Lemma ltb_rank (x y : float) :
is_nan x = false -> is_nan y = false ->
((x <? y)%float = true <-> lex_lt (float_rank x) (float_rank y)).
Proof.
intros Hx Hy. rewrite ltb_spec.
apply SFltb_lex; now apply not_nan_spec.
Qed.

Lemma eqb_rank (x y : float) :
is_nan x = false -> is_nan y = false ->
((x =? y)%float = true <-> float_rank x = float_rank y).
Proof.
intros Hx Hy. rewrite eqb_spec.
apply SFeqb_lex; now apply not_nan_spec.
Qed.

Lemma ltb_nan_l (x y : float) : is_nan x = true -> (x <? y)%float = false.
Proof. intros H. apply is_nan_spec in H. now rewrite ltb_spec, H. Qed.

Lemma ltb_nan_r (x y : float) : is_nan y = true -> (x <? y)%float = false.
Proof. intros H. apply is_nan_spec in H. rewrite ltb_spec, H. apply SFltb_nan_r. Qed.

Lemma eqb_nan_l (x y : float) : is_nan x = true -> (x =? y)%float = false.
Proof. intros H. apply is_nan_spec in H. now rewrite eqb_spec, H. Qed.

Lemma eqb_nan_r (x y : float) : is_nan y = true -> (x =? y)%float = false.
Proof. intros H. apply is_nan_spec in H. rewrite eqb_spec, H. apply SFeqb_nan_r. Qed.


End FloatOrder.

(** ** Equality of cells as keys *)

Lemma float_eqv_spec (a b : float) :
  Np.float_eqv a b = true <->
  (is_nan a = true /\ is_nan b = true)
  \/ (is_nan a = false /\ is_nan b = false /\ float_rank a = float_rank b).
Proof.
  unfold Np.float_eqv.
  destruct (is_nan a) eqn:Ha, (is_nan b) eqn:Hb; cbn [andb].
  - rewrite (eqb_nan_l a b Ha). cbn. intuition congruence.
  - rewrite (eqb_nan_l a b Ha). cbn. intuition congruence.
  - rewrite (eqb_nan_r a b Hb). cbn. intuition congruence.
  - rewrite orb_false_r, (eqb_rank a b Ha Hb). intuition congruence.
Qed.

Lemma float_eqv_refl (a : float) : Np.float_eqv a a = true.
Proof. unfold Np.float_eqv, is_nan. now destruct (a =? a)%float. Qed.

Lemma float_eqv_sym (a b : float) : Np.float_eqv a b = true -> Np.float_eqv b a = true.
Proof. rewrite !float_eqv_spec. intuition congruence. Qed.

Lemma float_eqv_trans (a b c : float) :
  Np.float_eqv a b = true -> Np.float_eqv b c = true -> Np.float_eqv a c = true.
Proof. rewrite !float_eqv_spec. intuition congruence. Qed.

Lemma cell_eqv_refl (a : cell) : cell_eqv a a = true.
Proof.
  destruct a; cbn.
  - apply Z.eqb_refl.
  - apply float_eqv_refl.
  - apply String.eqb_refl.
  - now destruct b.
  - reflexivity.
Qed.

Lemma cell_eqv_sym (a b : cell) : cell_eqv a b = true -> cell_eqv b a = true.
Proof.
  destruct a, b; cbn; try discriminate; try reflexivity.
  - now rewrite Z.eqb_sym.
  - apply float_eqv_sym.
  - now rewrite String.eqb_sym.
  - now destruct b, b0.
Qed.

Lemma cell_eqv_trans (a b c : cell) :
  cell_eqv a b = true -> cell_eqv b c = true -> cell_eqv a c = true.
Proof.
  destruct a, b, c; cbn; try discriminate; try reflexivity.
  - rewrite !Z.eqb_eq. congruence.
  - apply float_eqv_trans.
  - rewrite !String.eqb_eq. congruence.
  - destruct b, b0, b1; auto.
Qed.



(** ** The stable sort *)

Section StableSortFacts.
Variable before : nat -> nat -> bool.
Hypothesis before_asym : forall x y, before x y = true -> before y x = false.
Hypothesis before_ntrans :
  forall x y z, before x y = false -> before y z = false -> before x z = false.

Let ord (x y : nat) : Prop := before y x = false /\ (before x y = true \/ x < y).

Lemma insert_first_perm (x : nat) (l : list nat) :
  Permutation (x :: l) (insert_first before x l).
Proof.
  induction l as [ | y r IH ]; cbn.
  - reflexivity.
  - destruct (before y x).
    + rewrite perm_swap. now apply perm_skip.
    + reflexivity.
Qed.

Lemma stable_sort_perm (l : list nat) : Permutation l (stable_sort before l).
Proof.
  induction l as [ | x r IH ]; cbn.
  - reflexivity.
  - rewrite <- insert_first_perm. now apply perm_skip.
Qed.

Lemma insert_first_sorted (x : nat) (l : list nat) :
  (forall y, In y l -> x < y) ->
  StronglySorted ord l ->
  StronglySorted ord (insert_first before x l).
Proof.
  induction l as [ | y r IH ]; intros Hlt Hs; cbn.
  - constructor; constructor.
  - inversion Hs as [ | ? ? Hr Hy ]; subst.
    destruct (before y x) eqn:E.
    + constructor.
      * apply IH; [ intros; apply Hlt; now right | assumption ].
      * rewrite Forall_forall. intros w Hw.
        apply (Permutation_in _ (Permutation_sym (insert_first_perm x r))) in Hw.
        destruct Hw as [<- | Hw].
        -- split; [ now apply before_asym | now left ].
        -- rewrite Forall_forall in Hy. now apply Hy.
    + constructor; [ assumption | ].
      rewrite Forall_forall. intros w [<- | Hw].
      * split; [ assumption | right; apply Hlt; now left ].
      * rewrite Forall_forall in Hy. destruct (Hy w Hw) as [H1 _].
        split; [ now apply (before_ntrans w y x) | right; apply Hlt; now right ].
Qed.

Lemma stable_sort_sorted (l : list nat) :
  StronglySorted lt l -> StronglySorted ord (stable_sort before l).
Proof.
  induction l as [ | x r IH ]; intros Hs; cbn.
  - constructor.
  - inversion Hs as [ | ? ? Hr Hx ]; subst.
    apply insert_first_sorted; [ | now apply IH ].
    intros y Hy. rewrite Forall_forall in Hx. apply Hx.
    now apply (Permutation_in _ (Permutation_sym (stable_sort_perm r))).
Qed.
End StableSortFacts.

Lemma seq_sorted (a n : nat) : StronglySorted lt (seq a n).
Proof.
  revert a. induction n as [ | n IH ]; intros a; cbn; constructor.
  - apply IH.
  - rewrite Forall_forall. intros x Hx. apply in_seq in Hx. lia.
Qed.

(** ** The order of [nlargest] and [nsmallest] *)

Lemma cell_at_kind (c : Series) (i : nat) :
  cell_kind (cell_at c i) = 0
  \/ cell_kind (cell_at c i) =
     match c with IntCol _ => 1 | FloatCol _ => 2 | ObjCol _ => 3 | BoolCol _ => 4 end.
Proof.
  unfold cell_at.
  destruct (nth_in_or_default i (cells c) CNull) as [H | ->]; [ | now left ].
  destruct c; cbn [cells] in *; apply in_map_iff in H; destruct H as [x [<- _]];
    try (now right).
  destruct x; cbn; auto.
Qed.

Lemma cell_at_compatible (c : Series) (i j : nat) :
  compatible (cell_at c i) (cell_at c j).
Proof.
  unfold compatible.
  destruct (cell_at_kind c i) as [H | H], (cell_at_kind c j) as [H' | H']; auto.
  right; right; congruence.
Qed.

Lemma cell_precedes_key (largest : bool) (a b : cell) :
  compatible a b ->
  ((negb (is_null a) && is_null b)
   || (if largest then cell_ltb b a else cell_ltb a b) = true
   <-> key_lt (cell_key largest a) (cell_key largest b)).
Proof.
  intros Hc. unfold compatible in Hc.
  destruct a as [x | x | x | x | ], b as [y | y | y | y | ];
    cbn [cell_kind] in Hc; try (exfalso; lia);
    unfold cell_key, key_lt, lex_lt, neg3;
    cbn [is_null cell_ltb cell_rank];
    try destruct (is_nan x) eqn:Hx; try destruct (is_nan y) eqn:Hy;
    destruct largest; cbn [negb andb orb fst snd];
    try solve [ split; intros; solve [ discriminate | reflexivity | lia ] ].
  all: try (rewrite Z.ltb_lt; lia).
  all: try (rewrite (ltb_nan_r _ _ Hx); split; intros; [ discriminate | lia ]).
  all: try (rewrite (ltb_nan_l _ _ Hx); split; intros; [ discriminate | lia ]).
  all: try (rewrite (ltb_nan_r _ _ Hy); split; intros; solve [ discriminate | reflexivity | lia ]).
  all: try (rewrite (ltb_nan_l _ _ Hy); split; intros; solve [ discriminate | reflexivity | lia ]).
  all: try (first [ rewrite (ltb_rank y x Hy Hx) | rewrite (ltb_rank x y Hx Hy) ];
            unfold lex_lt;
            destruct (float_rank x) as [[x1 x2] x3], (float_rank y) as [[y1 y2] y3];
            cbn [fst snd]; lia).
  all: try (destruct x, y; cbn; split; intros; solve [ discriminate | reflexivity | lia ]).
Qed.

Lemma precedes_key (largest : bool) (c : Series) (i j : nat) :
  precedes largest c i j = true <-> key_lt (row_rank largest c i) (row_rank largest c j).
Proof.
  unfold precedes, row_rank.
  apply (cell_precedes_key largest _ _ (cell_at_compatible c i j)).
Qed.

Lemma key_lt_asym (a b : Z * (Z * Z * Z)) : key_lt a b -> ~ key_lt b a.
Proof.
  destruct a as [a0 [[a1 a2] a3]], b as [b0 [[b1 b2] b3]].
  unfold key_lt, lex_lt; cbn [fst snd]. lia.
Qed.

Lemma key_lt_ntrans (a b c : Z * (Z * Z * Z)) :
  ~ key_lt a b -> ~ key_lt b c -> ~ key_lt a c.
Proof.
  destruct a as [a0 [[a1 a2] a3]], b as [b0 [[b1 b2] b3]], c as [c0 [[c1 c2] c3]].
  unfold key_lt, lex_lt; cbn [fst snd]. lia.
Qed.

Lemma precedes_false (largest : bool) (c : Series) (i j : nat) :
  precedes largest c i j = false <-> ~ key_lt (row_rank largest c i) (row_rank largest c j).
Proof.
  rewrite <- precedes_key. destruct (precedes largest c i j); split; congruence.
Qed.

Lemma precedes_asym (largest : bool) (c : Series) (x y : nat) :
  precedes largest c x y = true -> precedes largest c y x = false.
Proof. rewrite precedes_key, precedes_false. apply key_lt_asym. Qed.

Lemma precedes_ntrans (largest : bool) (c : Series) (x y z : nat) :
  precedes largest c x y = false -> precedes largest c y z = false ->
  precedes largest c x z = false.
Proof. rewrite !precedes_false. apply key_lt_ntrans. Qed.

Lemma ranked_perm (largest : bool) (c : Series) :
  Permutation (seq 0 (series_len c)) (ranked largest c).
Proof. apply stable_sort_perm. Qed.

Lemma ranked_sorted (largest : bool) (c : Series) :
  StronglySorted (ranks_before largest c) (ranked largest c).
Proof.
  apply (stable_sort_sorted (precedes largest c)).
  - apply precedes_asym.
  - apply precedes_ntrans.
  - apply seq_sorted.
Qed.

(** ** Loading, column lookup and dispatch *)

Lemma analyze_loaded (env : Env) (fp op : string) (kw : kwargs) (df : DataFrame) :
  loaded env fp = Some df -> analyze env fp op kw = run env fp df op kw.
Proof.
  unfold loaded, analyze.
  destruct (negb (path_exists env fp)); [ discriminate | ].
  destruct (String.eqb (lower (path_suffix fp)) ".csv"); [ now intros [= <-] | ].
  destruct (String.eqb (lower (path_suffix fp)) ".xlsx" || String.eqb (lower (path_suffix fp)) ".xls");
    [ now intros [= <-] | ].
  destruct (String.eqb (lower (path_suffix fp)) ".json"); [ now intros [= <-] | discriminate ].
Qed.


Lemma lookup_col_in (c : string) (l : list (string * Series)) (s : Series) :
  lookup_col c l = Some s -> In (c, s) l.
Proof.
  induction l as [ | [n t] r IH ]; cbn; [ discriminate | ].
  destruct (String.eqb c n) eqn:E.
  - apply String.eqb_eq in E. intros [= <-]. subst. now left.
  - intros H. right. now apply IH.
Qed.

Lemma get_col_in_columns (df : DataFrame) (c : string) (s : Series) :
  get_col df c = Some s -> in_columns (Some c) df = true.
Proof.
  unfold get_col, in_columns, columns.
  induction (df_cols df) as [ | [n t] r IH ]; cbn; [ discriminate | ].
  destruct (String.eqb c n); cbn; [ reflexivity | exact IH ].
Qed.


Lemma with_column_found (df : DataFrame) (c : string) (s : Series) (msg : string)
      (k : string -> res pyval) :
  get_col df c = Some s -> with_column df (Some c) msg k = k c.
Proof.
  intros H. unfold with_column. now rewrite (get_col_in_columns df c s H).
Qed.

Lemma getitem_found (df : DataFrame) (c : string) (s : Series) :
  get_col df c = Some s -> getitem df c = Ok s.
Proof. intros H. unfold getitem. now rewrite H. Qed.

Lemma wf_col_len (df : DataFrame) (c : string) (s : Series) :
  wf_df df -> get_col df c = Some s -> series_len s = df_len df.
Proof.
  intros [Hl _ _ _] H. apply lookup_col_in in H.
  rewrite Forall_forall in Hl. exact (Hl _ H).
Qed.

(** ** Rows of a selection *)

Lemma nth_map_default {A B : Type} (f : A -> B) (l : list A) (d : A) (e : B) (i : nat) :
  i < List.length l -> nth i (map f l) e = f (nth i l d).
Proof.
  intros H. rewrite (nth_indep _ e (f d)) by now rewrite length_map.
  apply map_nth.
Qed.

Lemma cells_take (idx : list nat) (c : Series) :
  Forall (fun i => i < series_len c) idx ->
  cells (series_take idx c) = map (cell_at c) idx.
Proof.
  intros H. unfold cell_at, series_len in *.
  destruct c; cbn [series_take cells] in *; rewrite length_map in H;
    rewrite map_map; apply map_ext_in; intros i Hi;
    rewrite Forall_forall in H; specialize (H i Hi);
    symmetry.
  - now apply (nth_map_default CInt v 0%Z).
  - now apply (nth_map_default CFloat v nan).
  - now apply (nth_map_default obj_cell v None).
  - now apply (nth_map_default CBool v false).
Qed.


Lemma nth_seq_all {A : Type} (l : list A) (d : A) :
  map (fun k => nth k l d) (seq 0 (List.length l)) = l.
Proof.
  induction l as [ | x r IH ]; cbn; [ reflexivity | ].
  f_equal. rewrite <- seq_shift, map_map. exact IH.
Qed.

Lemma to_dict_records_take (df : DataFrame) (idx : list nat) :
  Forall (fun nc => series_len (snd nc) = df_len df) (df_cols df) ->
  Forall (fun i => i < df_len df) idx ->
  to_dict_records (df_take idx df) = PList (map (record_at df) idx).
Proof.
  intros Hl Hi. unfold to_dict_records. f_equal.
  cbn [df_len df_take].
  transitivity (map (record_at df) (map (fun k => nth k idx 0) (seq 0 (List.length idx))));
    [ | now rewrite nth_seq_all ].
  rewrite map_map.
  apply map_ext_in. intros k Hk. apply in_seq in Hk.
  unfold record_at. cbn [df_cols df_take]. f_equal.
  rewrite map_map. apply map_ext_in. intros [n c] Hc. cbn [fst snd]. do 2 f_equal.
  rewrite Forall_forall in Hl. specialize (Hl _ Hc). cbn [snd] in Hl.
  unfold cell_at at 1. rewrite cells_take by now rewrite Hl.
  apply (nth_map_default (cell_at c) idx 0). lia.
Qed.


Lemma in_firstn {A : Type} (k : nat) (l : list A) (x : A) :
  In x (firstn k l) -> In x l.
Proof.
  intros H. rewrite <- (firstn_skipn k l). apply in_or_app. now left.
Qed.



(** ** The filter operation *)


(** C10: on a table without rows the filter operation returns an error. *)
Theorem filter_zero_rows (env : Env) (fp : string) (df : DataFrame) (kw : kwargs) :
  loaded env fp = Some df ->
  df_len df = 0 ->
  (exists msg,
     analyze env fp "filter" kw
     = Ok (error ("Invalid filter condition: " ++ py_str_opt (condition kw)
                  ++ ". Error: " ++ msg)))
  /\ (forall filtered,
        pd_query env df (condition kw) = Ok filtered ->
        analyze env fp "filter" kw
        = Ok (error ("Invalid filter condition: " ++ py_str_opt (condition kw)
                     ++ ". Error: division by zero"))).
Proof.
  intros Hl Hz. rewrite (analyze_loaded _ _ _ _ _ Hl).
  unfold run, dispatch. cbn [String.eqb Ascii.eqb Bool.eqb].
  unfold op_filter. rewrite Hz.
  destruct (pd_query env df (condition kw)) as [filtered | e]; cbn.
  - split; [ now eexists | intros ? _; reflexivity ].
  - split; [ now eexists | intros ? H; discriminate H ].
Qed.

Lemma filter_zero_rows_witness :
  analyze (env_with sales_empty) "data.csv" "filter" (filter_args "revenue > 25")
  = Ok (error "Invalid filter condition: revenue > 25. Error: division by zero").
Proof.
  apply (proj2 (filter_zero_rows (env_with sales_empty) "data.csv" sales_empty
                  (filter_args "revenue > 25") eq_refl eq_refl)
               (mkDF 0 [ ("id", IntCol []); ("category", ObjCol []); ("revenue", IntCol []) ])).
  reflexivity.
Defined.




(** ** Failures become error results *)

Section Shapes.
Variables (env : Env) (fp : string) (df : DataFrame) (op : string) (kw : kwargs).







End Shapes.





(** ** The duplicates operation *)












(** ** The unique operation *)

Lemma unique_cells_in (seen l : list cell) (u : cell) :
  In u (unique_cells seen l) -> In u l /\ existsb (cell_eqv u) seen = false.
Proof.
  revert seen. induction l as [ | x r IH ]; intros seen; cbn; [ intros [] | ].
  destruct (existsb (cell_eqv x) seen) eqn:E.
  - intros H. destruct (IH _ H). auto.
  - intros [<- | H]; [ auto | ].
    destruct (IH _ H) as [H1 H2]. cbn in H2. apply orb_false_iff in H2. tauto.
Qed.












Lemma sales_wf : wf_df sales.
Proof.
  constructor.
  - repeat constructor.
  - repeat constructor; simpl; intuition discriminate.
  - repeat constructor.
  - discriminate.
Qed.


(** The number of distinct values is not capped: a column of 101
    different integers has [unique_count = 101] and 100 listed values. *)
Lemma unique_count_exceeds_cap :
  let df := mkDF 101 [ ("k", counting 101) ] in
  exists values,
    analyze (env_with df) "data.csv" "unique" (column_args "k")
    = Ok (results "data.csv" df "unique"
            (PDict [ (PStr "unique_count", PInt 101); (PStr "values", PList values) ]))
    /\ List.length values = 100.
Proof.
  eexists. split; [ vm_compute; reflexivity | reflexivity ].
Qed.

(** ** The top_n and bottom_n operations *)


Lemma select_n_firstn (largest : bool) (k : Z) (s : Series) :
  select_n largest k s = firstn (Z.to_nat k) (ranked largest s).
Proof.
  unfold select_n. destruct (Z.leb_spec k 0) as [H | H]; [ | reflexivity ].
  replace (Z.to_nat k) with 0 by lia. reflexivity.
Qed.

Lemma ranked_range (largest : bool) (s : Series) :
  Forall (fun i => i < series_len s) (ranked largest s).
Proof.
  rewrite Forall_forall. intros i Hi.
  apply (Permutation_in _ (Permutation_sym (ranked_perm largest s))) in Hi.
  apply in_seq in Hi. lia.
Qed.

Lemma pd_select_n_numeric (largest : bool) (k : Z) (col : string) (df : DataFrame)
      (s : Series) :
  get_col df col = Some s ->
  is_number_dtype s = true ->
  pd_select_n largest k col df = Ok (df_take (firstn (Z.to_nat k) (ranked largest s)) df).
Proof.
  intros Hs Hn. unfold pd_select_n. rewrite (getitem_found df col s Hs). cbn [bind].
  rewrite select_n_firstn. destruct s; try reflexivity; discriminate.
Qed.



(** Scenario: the two largest revenues, 50 then 40. *)
Lemma top_two_revenues :
  ranked true (IntCol [10; 20; 30; 40; 50]%Z) = [4; 3; 2; 1; 0]
  /\ ranked false (FloatCol [2; nan; 1; 2; 1]%float) = [2; 4; 0; 3; 1]
  /\ ranked true (FloatCol [2; nan; 1; 2; 1]%float) = [0; 3; 2; 4; 1].
Proof. repeat split; reflexivity. Qed.

(** ** Values that are not finite *)

Lemma valid_cells_all_missing (v : list float) :
  Forall (fun x => is_nan x = true) v -> valid_cells (FloatCol v) = [].
Proof.
  unfold valid_cells. cbn [cells].
  induction 1 as [ | x r Hx _ IH ]; cbn; [ reflexivity | ].
  now rewrite Hx.
Qed.

Lemma count_valid_all_missing (v : list float) :
  Forall (fun x => is_nan x = true) v -> count_valid (FloatCol v) = 0.
Proof.
  intros H. unfold count_valid. fold (valid_cells (FloatCol v)).
  now rewrite valid_cells_all_missing.
Qed.

Lemma describe_numeric_all_missing (v : list float) :
  Forall (fun x => is_nan x = true) v ->
  describe_series (FloatCol v) = describe_all_missing.
Proof.
  intros H. unfold describe_series, describe_numeric, mean_float, pd_std, pd_mean, mean_of.
  cbn [is_number_dtype].
  rewrite (count_valid_all_missing v H), (valid_cells_all_missing v H).
  reflexivity.
Qed.

(** C2 (as the code has it): a float computed by a reducer is returned
    as it is.  On a float column without present values, mean succeeds
    with NaN, and stats succeeds with a zero count and NaN for every
    other statistic. *)
Theorem non_finite_values_pass_through (env : Env) (fp : string) (df : DataFrame)
        (kw : kwargs) (col : string) (v : list float) :
  loaded env fp = Some df ->
  column kw = Some col ->
  col <> "" ->
  get_col df col = Some (FloatCol v) ->
  Forall (fun x => is_nan x = true) v ->
  analyze env fp "mean" kw = Ok (results fp df "mean" (PFloat nan))
  /\ analyze env fp "stats" kw = Ok (results fp df "stats" describe_all_missing)
  /\ has_non_finite (results fp df "mean" (PFloat nan)) = true
  /\ has_non_finite (results fp df "stats" describe_all_missing) = true.
Proof.
  intros Hl Hc Hne Hs Hv.
  rewrite !(analyze_loaded _ _ _ _ _ Hl).
  split; [ | split; [ | split ] ].
  - unfold run, dispatch. cbn [String.eqb Ascii.eqb Bool.eqb].
    unfold op_mean. rewrite Hc, (with_column_found df col _ _ _ Hs).
    rewrite (getitem_found df col _ Hs). cbn [bind pd_mean].
    unfold mean_of. rewrite (count_valid_all_missing v Hv). reflexivity.
  - unfold run, dispatch. cbn [String.eqb Ascii.eqb Bool.eqb].
    unfold op_stats. rewrite Hc.
    destruct col as [ | ch rest ]; [ now elim Hne | ].
    rewrite (with_column_found df _ _ _ _ Hs).
    rewrite (getitem_found df _ _ Hs). cbn [bind try_except].
    now rewrite (describe_numeric_all_missing v Hv).
  - cbn. now rewrite !orb_true_r.
  - cbn. now rewrite !orb_true_r.
Qed.

Lemma non_finite_values_pass_through_witness :
  analyze (env_with gaps) "data.csv" "mean" (column_args "b")
  = Ok (results "data.csv" gaps "mean" (PFloat nan))
  /\ analyze (env_with gaps) "data.csv" "stats" (column_args "b")
     = Ok (results "data.csv" gaps "stats" describe_all_missing)
  /\ has_non_finite (results "data.csv" gaps "mean" (PFloat nan)) = true
  /\ has_non_finite (results "data.csv" gaps "stats" describe_all_missing) = true.
Proof.
  apply (non_finite_values_pass_through (env_with gaps) "data.csv" gaps (column_args "b")
           "b" [nan; nan]).
  - reflexivity.
  - reflexivity.
  - discriminate.
  - reflexivity.
  - repeat constructor.
Defined.

Lemma mean_of_all_missing_is_nan :
  exists result,
    analyze (env_with gaps) "data.csv" "mean" (column_args "b") = Ok result
    /\ has_key "error" result = false
    /\ has_non_finite result = true.
Proof. eexists. split; [ reflexivity | split; reflexivity ]. Qed.

(** ** Numeric reducers on columns that are not numeric *)










(** ** Sum and mean *)

Lemma mean_of_positive (total : float) (count : nat) :
  0 < count -> mean_of total count = (total / Np.float_of_Z (Z.of_nat count))%float.
Proof.
  intros H. unfold mean_of. destruct (Nat.ltb_spec 0 count); [ reflexivity | lia ].
Qed.

(** C8 (as the code has it): on a float column with a present value,
    mean is sum divided by the number of present values, both taken
    from one float64 total in which a missing value counts as zero.  On
    an integer column sum is the int64 total, which wraps around, then
    converted to float64, while mean divides a total accumulated in
    float64. *)
Theorem mean_and_sum_totals (env : Env) (fp : string) (df : DataFrame) (kw : kwargs)
        (col : string) (s : Series) :
  loaded env fp = Some df ->
  column kw = Some col ->
  get_col df col = Some s ->
  0 < count_valid s ->
  let count := Np.float_of_Z (Z.of_nat (count_valid s)) in
  (forall v, s = FloatCol v ->
     let total := Np.np_sum (map nan_to_zero v) in
     analyze env fp "sum" kw = Ok (results fp df "sum" (PFloat total))
     /\ analyze env fp "mean" kw = Ok (results fp df "mean" (PFloat (total / count)%float)))
  /\ (forall v, s = IntCol v ->
        analyze env fp "sum" kw
        = Ok (results fp df "sum" (PFloat (Np.float_of_Z (Np.np_sum_int v))))
        /\ analyze env fp "mean" kw
           = Ok (results fp df "mean"
                   (PFloat (Np.np_sum (map Np.float_of_Z v) / count)%float))).
Proof.
  intros Hl Hc Hs Hpos count.
  rewrite !(analyze_loaded _ _ _ _ _ Hl).
  split; intros v ->; split.
  all: unfold run, dispatch; cbn [String.eqb Ascii.eqb Bool.eqb];
    unfold op_sum, op_mean; rewrite Hc, (with_column_found df col _ _ _ Hs);
    rewrite (getitem_found df col _ Hs); cbn [bind pd_sum pd_mean py_float try_except];
    try rewrite (mean_of_positive _ _ Hpos); reflexivity.
Qed.

Lemma mean_and_sum_totals_witness :
  analyze (env_with sales) "data.csv" "sum" (column_args "revenue")
  = Ok (results "data.csv" sales "sum"
          (PFloat (Np.float_of_Z (Np.np_sum_int [10; 20; 30; 40; 50]%Z))))
  /\ analyze (env_with sales) "data.csv" "mean" (column_args "revenue")
     = Ok (results "data.csv" sales "mean"
             (PFloat (Np.np_sum (map Np.float_of_Z [10; 20; 30; 40; 50]%Z)
                      / Np.float_of_Z (Z.of_nat (count_valid (IntCol [10; 20; 30; 40; 50]%Z))))%float)).
Proof.
  apply (proj2 (mean_and_sum_totals (env_with sales) "data.csv" sales
                  (column_args "revenue") "revenue" (IntCol [10; 20; 30; 40; 50]%Z)
                  eq_refl eq_refl eq_refl ltac:(vm_compute; lia))
               [10; 20; 30; 40; 50]%Z eq_refl).
Defined.

(** Scenario: the sum of the revenues is 150.0, their mean 30.0. *)
Lemma revenue_sum_and_mean :
  analyze (env_with sales) "data.csv" "sum" (column_args "revenue")
  = Ok (results "data.csv" sales "sum" (PFloat 150%float))
  /\ analyze (env_with sales) "data.csv" "mean" (column_args "revenue")
     = Ok (results "data.csv" sales "mean" (PFloat 30%float)).
Proof. split; reflexivity. Qed.

Lemma mean_differs_from_sum_over_count :
  analyze (env_with big) "data.csv" "sum" (column_args "v")
  = Ok (results "data.csv" big "sum" (PFloat (-9223372036854775808)%float))
  /\ analyze (env_with big) "data.csv" "mean" (column_args "v")
     = Ok (results "data.csv" big "mean" (PFloat 4611686018427387904%float))
  /\ count_valid (IntCol [4611686018427387904; 4611686018427387904]%Z) = 2
  /\ (4611686018427387904 =? -9223372036854775808 / 2)%float = false.
Proof. repeat split; reflexivity. Qed.

(** ** The correlate operation *)







Lemma pd_corr_numeric (env : Env) (s1 s2 : Series) :
  is_number_dtype s1 = true ->
  is_number_dtype s2 = true ->
  let valid := both_present (map cell_float (cells s1)) (map cell_float (cells s2)) in
  pd_corr env s1 s2
  = Ok (match valid with
        | [] => nan
        | _ => np_corrcoef (map fst valid) (map snd valid)
        end).
Proof.
  intros H1 H2 valid. unfold pd_corr.
  assert (E1 : to_float_array env s1 = Ok (map cell_float (cells s1)))
    by (destruct s1; try reflexivity; discriminate).
  assert (E2 : to_float_array env s2 = Ok (map cell_float (cells s2)))
    by (destruct s2; try reflexivity; discriminate).
  rewrite E1, E2. cbn [bind]. unfold valid, both_present.
  now destruct (filter _ _).
Qed.


Lemma analyze_correlate (env : Env) (fp : string) (df : DataFrame) (kw : kwargs)
      (c1 c2 : string) (s1 s2 : Series) (r : float) :
  loaded env fp = Some df ->
  column1 kw = Some c1 ->
  column2 kw = Some c2 ->
  get_col df c1 = Some s1 ->
  get_col df c2 = Some s2 ->
  pd_corr env s1 s2 = Ok r ->
  analyze env fp "correlate" kw = Ok (results fp df "correlate" (correlation_payload r)).
Proof.
  intros Hl H1 H2 Hs1 Hs2 Hr. rewrite (analyze_loaded _ _ _ _ _ Hl).
  unfold run, dispatch. cbn [String.eqb Ascii.eqb Bool.eqb].
  unfold op_correlate.
  rewrite H1, H2, (get_col_in_columns df c1 _ Hs1), (get_col_in_columns df c2 _ Hs2).
  cbn [andb]. rewrite (getitem_found df c1 _ Hs1), (getitem_found df c2 _ Hs2).
  cbn [bind]. now rewrite Hr.
Qed.



(** Scenario: the revenues correlate with themselves at exactly 1.0. *)
Lemma revenue_self_correlation :
  analyze (env_with sales) "data.csv" "correlate" (correlate_args "revenue" "revenue")
  = Ok (results "data.csv" sales "correlate"
          (PDict [ (PStr "correlation", PFloat 1%float);
                   (PStr "interpretation", PStr "strong positive") ])).
Proof. reflexivity. Qed.


(* ================================================================== *)
(** * Further properties *)

(** ** Order of the checks *)

Lemma dispatch_unknown (env : Env) (fp : string) (df : DataFrame) (op : string)
      (kw : kwargs) :
  ~ In op known_operations ->
  dispatch env fp df op kw = Ok (error (unknown_operation op)).
Proof.
  intros H. unfold dispatch.
  repeat match goal with
         | |- (if String.eqb op ?s then _ else _) = _ =>
             destruct (String.eqb_spec op s) as [E | _];
             [ exfalso; apply H; rewrite E; cbn; tauto | ]
         end.
  reflexivity.
Qed.

(** X1: the checks come in a fixed order.  A path that does not exist is
    reported whatever the operation and arguments are; then a suffix
    other than .csv, .xlsx, .xls or .json (compared in lower case) is
    reported with the suffix as written; only for a loaded table is an
    unknown operation name (compared exactly) reported, whatever the
    arguments are. *)
Theorem checks_in_order (env : Env) (fp op : string) (kw : kwargs) :
  (path_exists env fp = false ->
   analyze env fp op kw = Ok (error ("File not found: " ++ fp)))
  /\ (path_exists env fp = true ->
      ~ In (lower (path_suffix fp)) [ ".csv"; ".xlsx"; ".xls"; ".json" ] ->
      analyze env fp op kw = Ok (error ("Unsupported file type: " ++ path_suffix fp)))
  /\ (forall df,
        loaded env fp = Some df ->
        ~ In op known_operations ->
        analyze env fp op kw = Ok (error (unknown_operation op))).
Proof.
  split; [ | split ].
  - intros H. unfold analyze. now rewrite H.
  - intros H Hs. unfold analyze. rewrite H. cbn [negb].
    destruct (String.eqb_spec (lower (path_suffix fp)) ".csv") as [E | _];
      [ exfalso; apply Hs; rewrite E; cbn; tauto | ].
    destruct (String.eqb_spec (lower (path_suffix fp)) ".xlsx") as [E | _];
      [ exfalso; apply Hs; rewrite E; cbn; tauto | ].
    destruct (String.eqb_spec (lower (path_suffix fp)) ".xls") as [E | _];
      [ exfalso; apply Hs; rewrite E; cbn; tauto | ].
    destruct (String.eqb_spec (lower (path_suffix fp)) ".json") as [E | _];
      [ exfalso; apply Hs; rewrite E; cbn; tauto | ].
    reflexivity.
  - intros df Hl Hop. rewrite (analyze_loaded _ _ _ _ _ Hl).
    unfold run. now rewrite (dispatch_unknown env fp df op kw Hop).
Qed.

(** ** Columns that are not in the table *)





(** ** The filter operation, continued *)

(** X4: the filter operation reports every failure, whether the
    condition is absent, is rejected by the query engine, or the table
    has no rows, as an invalid filter condition that quotes the
    condition; it never returns the bare message of the exception. *)
Theorem filter_failures_quote_condition (env : Env) (fp : string) (df : DataFrame)
        (kw : kwargs) :
  loaded env fp = Some df ->
  (exists payload, analyze env fp "filter" kw = Ok (results fp df "filter" payload))
  \/ (exists msg, analyze env fp "filter" kw = Ok (error (invalid_filter (condition kw) msg))).
Proof.
  intros Hl. rewrite (analyze_loaded _ _ _ _ _ Hl).
  unfold run, dispatch. cbn [String.eqb Ascii.eqb Bool.eqb]. unfold op_filter.
  destruct (pd_query env df (condition kw)) as [filtered | e]; cbn [bind try_except].
  - destruct (py_truediv (df_len filtered) (df_len df)) as [ratio | e]; cbn [bind].
    + left. now eexists.
    + right. now exists (exn_str e).
  - right. now exists (exn_str e).
Qed.

Lemma filter_failures_quote_condition_witness :
  (exists payload,
     analyze (env_with sales) "data.csv" "filter" no_args
     = Ok (results "data.csv" sales "filter" payload))
  \/ (exists msg,
        analyze (env_with sales) "data.csv" "filter" no_args
        = Ok (error (invalid_filter (condition no_args) msg))).
Proof.
  apply (filter_failures_quote_condition (env_with sales) "data.csv" sales no_args).
  reflexivity.
Defined.









(** Scenario: three of the five revenues exceed 25, which is 60.0%. *)
Lemma revenue_filter_percentage :
  filter_payload sales (mask_positions 0 [false; false; true; true; true])
  = PDict [ (PStr "matching_rows", PInt 3); (PStr "total_rows", PInt 5);
            (PStr "percentage", PFloat 60%float);
            (PStr "sample", PList (map (record_at sales) [2; 3; 4])) ].
Proof. reflexivity. Qed.

(** ** The duplicates operation, continued *)









(** ** The unique operation, continued *)

Lemma unique_cells_cover (seen l : list cell) (x : cell) :
  In x l ->
  existsb (cell_eqv x) seen = true
  \/ exists u, In u (unique_cells seen l) /\ cell_eqv x u = true.
Proof.
  revert seen. induction l as [ | y r IH ]; intros seen; [ intros [] | ].
  cbn [unique_cells]. intros [<- | Hx].
  - destruct (existsb (cell_eqv y) seen) eqn:E; [ now left | right ].
    exists y. split; [ now left | apply cell_eqv_refl ].
  - destruct (existsb (cell_eqv y) seen) eqn:E.
    + now apply IH.
    + destruct (IH (y :: seen) Hx) as [H | [u [Hu Hxu]]].
      * cbn in H. apply orb_true_iff in H. destruct H as [H | H]; [ right | now left ].
        exists y. split; [ now left | exact H ].
      * right. exists u. split; [ now right | exact Hxu ].
Qed.



(** ** Sums *)

Lemma int64_wrap_small (z : Z) : Np.in_int64 z = true -> Np.int64_wrap z = z.
Proof.
  unfold Np.in_int64, Np.int64_wrap, Np.int64_min, Np.int64_max.
  rewrite andb_true_iff, !Z.leb_le. intros [H1 H2].
  rewrite Z.mod_small; lia.
Qed.

Lemma int64_wrap_add (a x : Z) :
  Np.int64_wrap (Np.int64_wrap a + x) = Np.int64_wrap (a + x).
Proof.
  unfold Np.int64_wrap.
  replace ((a + 2 ^ 63) mod 2 ^ 64 - 2 ^ 63 + x + 2 ^ 63)%Z
    with ((a + 2 ^ 63) mod 2 ^ 64 + x)%Z by lia.
  replace (a + x + 2 ^ 63)%Z with (a + 2 ^ 63 + x)%Z by lia.
  now rewrite Zplus_mod_idemp_l.
Qed.

Lemma np_sum_int_from (v : list Z) (acc : Z) :
  fold_left (fun a x => Np.int64_wrap (a + x)) v (Np.int64_wrap acc)
  = Np.int64_wrap (acc + sum_Z v).
Proof.
  revert acc. induction v as [ | x r IH ]; intros acc; cbn [fold_left sum_Z].
  - now rewrite Z.add_0_r.
  - rewrite int64_wrap_add, IH. f_equal. lia.
Qed.

Lemma np_sum_int_total (v : list Z) : Np.np_sum_int v = Np.int64_wrap (sum_Z v).
Proof. unfold Np.np_sum_int. apply (np_sum_int_from v 0%Z). Qed.

(** X9: on an integer column sum is the exact total of the column
    reduced into the signed 64-bit range and converted to a float; it is
    the exact total whenever that fits in 64 bits, whatever the running
    totals do. *)
Theorem integer_sum_is_exact (env : Env) (fp : string) (df : DataFrame) (kw : kwargs)
        (col : string) (v : list Z) :
  loaded env fp = Some df ->
  column kw = Some col ->
  get_col df col = Some (IntCol v) ->
  analyze env fp "sum" kw
  = Ok (results fp df "sum" (PFloat (Np.float_of_Z (Np.int64_wrap (sum_Z v)))))
  /\ (Np.in_int64 (sum_Z v) = true ->
      analyze env fp "sum" kw = Ok (results fp df "sum" (PFloat (Np.float_of_Z (sum_Z v))))).
Proof.
  intros Hl Hc Hs.
  assert (E : analyze env fp "sum" kw
              = Ok (results fp df "sum" (PFloat (Np.float_of_Z (Np.int64_wrap (sum_Z v)))))).
  { rewrite (analyze_loaded _ _ _ _ _ Hl).
    unfold run, dispatch. cbn [String.eqb Ascii.eqb Bool.eqb].
    unfold op_sum. rewrite Hc, (with_column_found df col _ _ _ Hs).
    rewrite (getitem_found df col _ Hs). cbn [bind pd_sum py_float try_except].
    now rewrite np_sum_int_total. }
  split; [ exact E | ].
  intros Hr. rewrite E. now rewrite (int64_wrap_small _ Hr).
Qed.

Lemma integer_sum_is_exact_witness :
  analyze (env_with sales) "data.csv" "sum" (column_args "revenue")
  = Ok (results "data.csv" sales "sum"
          (PFloat (Np.float_of_Z (Np.int64_wrap (sum_Z [10; 20; 30; 40; 50]%Z)))))
  /\ (Np.in_int64 (sum_Z [10; 20; 30; 40; 50]%Z) = true ->
      analyze (env_with sales) "data.csv" "sum" (column_args "revenue")
      = Ok (results "data.csv" sales "sum"
              (PFloat (Np.float_of_Z (sum_Z [10; 20; 30; 40; 50]%Z))))).
Proof.
  apply (integer_sum_is_exact (env_with sales) "data.csv" sales (column_args "revenue")
           "revenue" [10; 20; 30; 40; 50]%Z).
  - reflexivity.
  - reflexivity.
  - reflexivity.
Defined.

Lemma zeros_firstn (k : nat) (l : list float) : zeros l -> zeros (firstn k l).
Proof.
  unfold zeros. rewrite !Forall_forall. intros H x Hx. apply H. now apply in_firstn in Hx.
Qed.

Lemma zeros_skipn (k : nat) (l : list float) : zeros l -> zeros (skipn k l).
Proof.
  unfold zeros. rewrite !Forall_forall. intros H x Hx. apply H.
  rewrite <- (firstn_skipn k l). apply in_or_app. now right.
Qed.

Lemma zeros_nth (l : list float) (i : nat) : zeros l -> nth i l 0%float = 0%float.
Proof.
  intros H. destruct (nth_in_or_default i l 0%float) as [Hin | ->]; [ | reflexivity ].
  unfold zeros in H. rewrite Forall_forall in H. now apply H.
Qed.

Lemma fsum_seq_zeros (l : list float) : zeros l -> Np.fsum_seq 0 l = 0%float.
Proof.
  unfold Np.fsum_seq. induction 1 as [ | x r Hx _ IH ]; cbn; [ reflexivity | ].
  subst x. exact IH.
Qed.

Lemma add_lanes_zeros (r a : list float) : zeros r -> zeros a -> zeros (Np.add_lanes r a).
Proof.
  intros Hr. revert a. induction Hr as [ | x r Hx Hr IH ]; intros a Ha; cbn.
  - constructor.
  - destruct Ha as [ | y a Hy Ha ]; [ now constructor | ].
    subst x y. constructor; [ reflexivity | now apply IH ].
Qed.

Lemma sum_lanes_zeros (fuel : nat) (r a : list float) :
  zeros r -> zeros a ->
  zeros (fst (Np.sum_lanes fuel r a)) /\ zeros (snd (Np.sum_lanes fuel r a)).
Proof.
  revert r a. induction fuel as [ | fuel IH ]; intros r a Hr Ha; cbn [Np.sum_lanes];
    [ now split | ].
  destruct (Nat.leb 8 (List.length a)); [ | now split ].
  apply IH; [ apply add_lanes_zeros; [ exact Hr | now apply zeros_firstn ]
            | now apply zeros_skipn ].
Qed.

Lemma sum_block_zeros (a : list float) : zeros a -> Np.sum_block a = 0%float.
Proof.
  intros Ha. unfold Np.sum_block.
  destruct (sum_lanes_zeros (List.length a) (firstn 8 a) (skipn 8 a)) as [Hr Hrest];
    [ now apply zeros_firstn | now apply zeros_skipn | ].
  destruct (Np.sum_lanes (List.length a) (firstn 8 a) (skipn 8 a)) as [r rest].
  cbn [fst snd] in *. rewrite !(zeros_nth r _ Hr).
  now apply fsum_seq_zeros.
Qed.

Lemma pairwise_sum_zeros (fuel : nat) (a : list float) :
  zeros a -> Np.pairwise_sum fuel a = 0%float.
Proof.
  revert a. induction fuel as [ | fuel IH ]; intros a Ha; cbn [Np.pairwise_sum].
  - destruct (Nat.ltb (List.length a) 8); [ now apply fsum_seq_zeros | ].
    destruct (Nat.leb (List.length a) 128); now apply sum_block_zeros.
  - destruct (Nat.ltb (List.length a) 8); [ now apply fsum_seq_zeros | ].
    destruct (Nat.leb (List.length a) 128); [ now apply sum_block_zeros | ].
    rewrite (IH _ (zeros_firstn _ _ Ha)), (IH _ (zeros_skipn _ _ Ha)). reflexivity.
Qed.

Lemma np_sum_all_missing (v : list float) :
  Forall (fun x => is_nan x = true) v -> Np.np_sum (map nan_to_zero v) = 0%float.
Proof.
  intros H. unfold Np.np_sum. rewrite pairwise_sum_zeros; [ reflexivity | ].
  unfold zeros. induction H as [ | x r Hx _ IH ]; cbn; constructor; [ | exact IH ].
  unfold nan_to_zero. now rewrite Hx.
Qed.

(** X10: on a float column without present values, and so on any float
    column of a table without rows, sum is 0.0 where mean is NaN. *)
Theorem sum_of_nothing_is_zero (env : Env) (fp : string) (df : DataFrame) (kw : kwargs)
        (col : string) (v : list float) :
  loaded env fp = Some df ->
  column kw = Some col ->
  get_col df col = Some (FloatCol v) ->
  Forall (fun x => is_nan x = true) v ->
  analyze env fp "sum" kw = Ok (results fp df "sum" (PFloat 0%float))
  /\ analyze env fp "mean" kw = Ok (results fp df "mean" (PFloat nan)).
Proof.
  intros Hl Hc Hs Hv. rewrite !(analyze_loaded _ _ _ _ _ Hl). split.
  - unfold run, dispatch. cbn [String.eqb Ascii.eqb Bool.eqb].
    unfold op_sum. rewrite Hc, (with_column_found df col _ _ _ Hs).
    rewrite (getitem_found df col _ Hs). cbn [bind pd_sum py_float try_except].
    now rewrite (np_sum_all_missing v Hv).
  - unfold run, dispatch. cbn [String.eqb Ascii.eqb Bool.eqb].
    unfold op_mean. rewrite Hc, (with_column_found df col _ _ _ Hs).
    rewrite (getitem_found df col _ Hs). cbn [bind pd_mean].
    unfold mean_of. rewrite (count_valid_all_missing v Hv). reflexivity.
Qed.

Lemma sum_of_nothing_is_zero_witness :
  analyze (env_with gaps) "data.csv" "sum" (column_args "b")
  = Ok (results "data.csv" gaps "sum" (PFloat 0%float))
  /\ analyze (env_with gaps) "data.csv" "mean" (column_args "b")
     = Ok (results "data.csv" gaps "mean" (PFloat nan)).
Proof.
  apply (sum_of_nothing_is_zero (env_with gaps) "data.csv" gaps (column_args "b")
           "b" [nan; nan]).
  - reflexivity.
  - reflexivity.
  - reflexivity.
  - repeat constructor.
Defined.

(** ** The correlate operation, continued *)

(** X11: when no row has both values present (a table without rows, or
    a column without present values), correlate succeeds with a NaN
    correlation, and NaN is interpreted as "moderate". *)
Theorem correlation_of_nothing_is_moderate (env : Env) (fp : string) (df : DataFrame)
        (kw : kwargs) (c1 c2 : string) (s1 s2 : Series) :
  loaded env fp = Some df ->
  column1 kw = Some c1 -> column2 kw = Some c2 ->
  get_col df c1 = Some s1 -> get_col df c2 = Some s2 ->
  is_number_dtype s1 = true -> is_number_dtype s2 = true ->
  both_present (map cell_float (cells s1)) (map cell_float (cells s2)) = [] ->
  analyze env fp "correlate" kw
  = Ok (results fp df "correlate"
          (PDict [ (PStr "correlation", PFloat nan);
                   (PStr "interpretation", PStr "moderate") ])).
Proof.
  intros Hl H1 H2 Hs1 Hs2 Hn1 Hn2 Hv.
  pose proof (pd_corr_numeric env s1 s2 Hn1 Hn2) as E. cbv zeta in E. rewrite Hv in E.
  exact (analyze_correlate env fp df kw c1 c2 s1 s2 nan Hl H1 H2 Hs1 Hs2 E).
Qed.

Lemma correlation_of_nothing_is_moderate_witness :
  analyze (env_with gaps) "data.csv" "correlate" (correlate_args "a" "b")
  = Ok (results "data.csv" gaps "correlate"
          (PDict [ (PStr "correlation", PFloat nan);
                   (PStr "interpretation", PStr "moderate") ])).
Proof.
  apply (correlation_of_nothing_is_moderate (env_with gaps) "data.csv" gaps
           (correlate_args "a" "b") "a" "b" (IntCol [1; 2]%Z) (FloatCol [nan; nan]));
    reflexivity.
Defined.

(** ** The info operation *)





(** ** The group_by operation *)

Lemma ascii_compare_trans (a b c : ascii) :
  Ascii.compare a b = Lt -> Ascii.compare b c = Lt -> Ascii.compare a c = Lt.
Proof.
  unfold Ascii.compare. rewrite !N.compare_lt_iff. lia.
Qed.

Lemma string_compare_trans (a b c : string) :
  String.compare a b = Lt -> String.compare b c = Lt -> String.compare a c = Lt.
Proof.
  revert b c. induction a as [ | x a IH ]; intros [ | y b ] [ | z c ]; cbn;
    try discriminate; try reflexivity.
  destruct (Ascii.compare x y) eqn:Exy; try discriminate;
    destruct (Ascii.compare y z) eqn:Eyz; try discriminate.
  - apply Ascii.compare_eq_iff in Exy, Eyz. subst. intros H1 H2.
    replace (Ascii.compare z z) with Eq.
    + now apply (IH b).
    + symmetry. unfold Ascii.compare. apply N.compare_refl.
  - apply Ascii.compare_eq_iff in Exy. subst. now rewrite Eyz.
  - apply Ascii.compare_eq_iff in Eyz. subst. now rewrite Exy.
  - now rewrite (ascii_compare_trans x y z Exy Eyz).
Qed.

Lemma string_ltb_total (a b : string) :
  String.ltb a b = false -> String.eqb a b = false -> String.ltb b a = true.
Proof.
  unfold String.ltb. rewrite (String.compare_antisym b a).
  destruct (String.compare a b) eqn:E; try discriminate; [ | reflexivity ].
  apply String.compare_eq_iff in E. subst. now rewrite String.eqb_refl.
Qed.

Lemma lex_lt_trans (a b c : Z * Z * Z) : lex_lt a b -> lex_lt b c -> lex_lt a c.
Proof.
  destruct a as [[a1 a2] a3], b as [[b1 b2] b3], c as [[c1 c2] c3].
  unfold lex_lt; cbn [fst snd]. lia.
Qed.

Lemma lex_lt_total (a b : Z * Z * Z) : ~ lex_lt a b -> a <> b -> lex_lt b a.
Proof.
  destruct a as [[a1 a2] a3], b as [[b1 b2] b3].
  unfold lex_lt; cbn [fst snd]. intros H N.
  assert (a1 <> b1 \/ a2 <> b2 \/ a3 <> b3)%Z.
  { destruct (Z.eq_dec a1 b1), (Z.eq_dec a2 b2), (Z.eq_dec a3 b3); subst; auto;
      now elim N. }
  lia.
Qed.

Lemma cell_lt_any_trans (k : nat) (x y z : cell) :
  present_of k x -> present_of k y -> present_of k z ->
  cell_lt_any x y = true -> cell_lt_any y z = true -> cell_lt_any x z = true.
Proof.
  intros [Nx Kx] [Ny Ky] [Nz Kz].
  destruct x as [x | x | x | x | ], y as [y | y | y | y | ], z as [z | z | z | z | ];
    cbn [cell_kind] in *; try congruence; cbn [cell_lt_any cell_ltb is_null] in *;
    try discriminate.
  - rewrite !Z.ltb_lt. lia.
  - rewrite !ltb_rank by assumption. apply lex_lt_trans.
  - unfold String.ltb.
    destruct (String.compare x y) eqn:E1; try discriminate.
    destruct (String.compare y z) eqn:E2; try discriminate.
    now rewrite (string_compare_trans x y z E1 E2).
  - destruct x, y, z; cbn; congruence.
Qed.

Lemma cell_lt_any_total (k : nat) (x y : cell) :
  present_of k x -> present_of k y ->
  cell_lt_any x y = false -> cell_eqv x y = false -> cell_lt_any y x = true.
Proof.
  intros [Nx Kx] [Ny Ky].
  destruct x as [x | x | x | x | ], y as [y | y | y | y | ];
    cbn [cell_kind] in *; try congruence; cbn [cell_lt_any cell_ltb cell_eqv is_null] in *;
    try discriminate.
  - rewrite Z.ltb_lt, Z.ltb_ge, Z.eqb_neq. lia.
  - intros H1 H2. apply ltb_rank; try assumption. apply lex_lt_total.
    + intros H. apply (ltb_rank x y Nx Ny) in H. congruence.
    + intros H. assert (E : Np.float_eqv x y = true).
      { apply float_eqv_spec. right. auto. }
      congruence.
  - apply string_ltb_total.
  - destruct x, y; cbn; congruence.
Qed.

Lemma insert_cell_perm (x : cell) (l : list cell) : Permutation (x :: l) (insert_cell x l).
Proof.
  induction l as [ | y r IH ]; cbn; [ apply Permutation_refl | ].
  destruct (cell_lt_any x y); [ apply Permutation_refl | ].
  eapply perm_trans; [ apply perm_swap | now apply perm_skip ].
Qed.

Lemma sort_cells_perm (l : list cell) : Permutation l (sort_cells l).
Proof.
  unfold sort_cells. induction l as [ | x r IH ]; cbn; [ constructor | ].
  eapply perm_trans; [ apply perm_skip, IH | apply insert_cell_perm ].
Qed.

Lemma insert_cell_sorted (k : nat) (x : cell) (l : list cell) :
  present_of k x -> Forall (present_of k) l ->
  Forall (fun y => cell_eqv x y = false) l ->
  StronglySorted (fun a b => cell_lt_any a b = true) l ->
  StronglySorted (fun a b => cell_lt_any a b = true) (insert_cell x l).
Proof.
  intros Px Pl Nl Sl. induction Sl as [ | y r Sr IH Hy ]; cbn.
  - repeat constructor.
  - inversion Pl as [ | ? ? Py Pr ]; subst. inversion Nl as [ | ? ? Ny Nr ]; subst.
    destruct (cell_lt_any x y) eqn:E.
    + constructor; [ now constructor | ].
      constructor; [ exact E | ].
      rewrite Forall_forall in *. intros z Hz.
      apply (cell_lt_any_trans k x y z); auto.
    + constructor; [ now apply IH | ].
      rewrite Forall_forall. intros z Hz.
      apply (Permutation_in _ (Permutation_sym (insert_cell_perm x r))) in Hz.
      destruct Hz as [<- | Hz].
      * now apply (cell_lt_any_total k x y).
      * rewrite Forall_forall in Hy. now apply Hy.
Qed.

Lemma sort_cells_sorted (k : nat) (l : list cell) :
  Forall (present_of k) l ->
  ForallOrdPairs (fun a b => cell_eqv a b = false) l ->
  StronglySorted (fun a b => cell_lt_any a b = true) (sort_cells l).
Proof.
  intros Pl Dl. unfold sort_cells. induction Dl as [ | x r Hx Dr IH ]; cbn.
  - constructor.
  - inversion Pl as [ | ? ? Px Pr ]; subst.
    apply (insert_cell_sorted k); auto.
    + rewrite Forall_forall in *. intros y Hy. apply Pr.
      now apply (Permutation_in _ (Permutation_sym (sort_cells_perm r))).
    + rewrite Forall_forall in *. intros y Hy. apply Hx.
      now apply (Permutation_in _ (Permutation_sym (sort_cells_perm r))).
Qed.

Lemma unique_cells_distinct (seen l : list cell) :
  ForallOrdPairs (fun a b => cell_eqv a b = false) (unique_cells seen l).
Proof.
  revert seen. induction l as [ | x r IH ]; intros seen; cbn; [ constructor | ].
  destruct (existsb (cell_eqv x) seen); [ apply IH | ].
  constructor; [ | apply IH ].
  rewrite Forall_forall. intros y Hy. apply unique_cells_in in Hy.
  destruct Hy as [_ Hy]. cbn in Hy. apply orb_false_iff in Hy. destruct Hy as [Hy _].
  destruct (cell_eqv x y) eqn:E; [ | reflexivity ].
  apply cell_eqv_sym in E. congruence.
Qed.

Lemma distinct_eqv_eq (l : list cell) (a b : cell) :
  ForallOrdPairs (fun a b => cell_eqv a b = false) l ->
  In a l -> In b l -> cell_eqv a b = true -> a = b.
Proof.
  induction 1 as [ | x r Hx _ IH ]; [ intros [] | ].
  rewrite Forall_forall in Hx.
  intros [<- | Ha] [<- | Hb] E; auto.
  - rewrite (Hx _ Hb) in E. discriminate.
  - apply cell_eqv_sym in E. rewrite (Hx _ Ha) in E. discriminate.
Qed.

Lemma valid_cells_present (c : Series) :
  Forall (present_of match c with
                     | IntCol _ => 1 | FloatCol _ => 2 | ObjCol _ => 3 | BoolCol _ => 4
                     end) (valid_cells c).
Proof.
  rewrite Forall_forall. intros x Hx. unfold valid_cells in Hx.
  apply filter_In in Hx. destruct Hx as [Hin Hn]. apply negb_true_iff in Hn.
  split; [ exact Hn | ].
  destruct c; cbn [cells] in Hin; apply in_map_iff in Hin;
    destruct Hin as [v0 [<- _]]; try reflexivity.
  destruct v0; [ reflexivity | discriminate ].
Qed.

Lemma cell_eqv_present (k y : cell) :
  is_null k = false -> cell_eqv k y = true -> is_null y = false.
Proof.
  destruct k as [x | x | x | x | ], y as [z | z | z | z | ]; cbn; try discriminate; auto.
  intros Hx H. apply float_eqv_spec in H. destruct H as [[H _] | [_ [H _]]]; congruence.
Qed.

(** X13: group_by returns one entry per distinct present value of the
    grouping column, in strictly ascending order of that value; the
    entry of a value sums the aggregate column over the rows that hold
    it.  Every row with a present grouping value belongs to exactly one
    group, a row with a missing grouping value to none, and no group is
    empty. *)
Theorem group_by_partitions_rows (env : Env) (fp : string) (df : DataFrame) (kw : kwargs)
        (g a : string) (gc ac : Series) :
  loaded env fp = Some df ->
  wf_df df ->
  group_by kw = Some g -> aggregate kw = Some a ->
  get_col df g = Some gc -> get_col df a = Some ac ->
  exists keys : list cell,
    analyze env fp "group_by" kw
    = Ok (results fp df "group_by" (group_by_payload gc ac (df_len df) keys))
    /\ StronglySorted (fun x y => cell_lt_any x y = true) keys
    /\ (forall i, i < df_len df -> is_null (cell_at gc i) = false ->
        exists k, In k keys /\ In i (group_rows gc (df_len df) k)
                  /\ forall k', In k' keys -> In i (group_rows gc (df_len df) k') -> k' = k)
    /\ (forall k i, In k keys -> In i (group_rows gc (df_len df) k) ->
        i < df_len df /\ is_null (cell_at gc i) = false)
    /\ (forall k, In k keys -> group_rows gc (df_len df) k <> []).
Proof.
  intros Hl Hwf Hg Ha Hgc Hac.
  exists (sort_cells (unique_cells [] (valid_cells gc))).
  pose proof (sort_cells_perm (unique_cells [] (valid_cells gc))) as Hperm.
  pose proof (unique_cells_distinct [] (valid_cells gc)) as Hdist.
  pose proof (valid_cells_present gc) as Hpres. rewrite Forall_forall in Hpres.
  pose proof (wf_col_len df g gc Hwf Hgc) as Hlen. unfold series_len in Hlen.
  assert (Hkey : forall k, In k (sort_cells (unique_cells [] (valid_cells gc))) ->
                 In k (unique_cells [] (valid_cells gc))).
  { intros k Hk. now apply (Permutation_in _ (Permutation_sym Hperm)). }
  assert (Hval : forall k, In k (sort_cells (unique_cells [] (valid_cells gc))) ->
                 In k (cells gc) /\ is_null k = false).
  { intros k Hk. apply Hkey, unique_cells_in in Hk. destruct Hk as [Hk _].
    split; [ | now apply (Hpres k) ].
    unfold valid_cells in Hk. now apply filter_In in Hk. }
  split; [ | split; [ | split; [ | split ] ] ].
  - rewrite (analyze_loaded _ _ _ _ _ Hl).
    unfold run, dispatch. cbn [String.eqb Ascii.eqb Bool.eqb].
    unfold op_group_by. rewrite Hg, Ha.
    rewrite (with_column_found df g _ _ _ Hgc), (with_column_found df a _ _ _ Hac).
    unfold pd_groupby_sum.
    rewrite (getitem_found df g _ Hgc), (getitem_found df a _ Hac). reflexivity.
  - eapply sort_cells_sorted; [ | exact Hdist ].
    rewrite Forall_forall. intros x Hx. apply Hpres.
    now apply unique_cells_in in Hx.
  - intros i Hi Hn.
    assert (Hin : In (cell_at gc i) (valid_cells gc)).
    { unfold valid_cells. apply filter_In. split.
      - apply nth_In. lia.
      - now rewrite Hn. }
    destruct (unique_cells_cover [] _ _ Hin) as [H | [u [Hu Eu]]]; [ discriminate | ].
    exists u. split; [ now apply (Permutation_in _ Hperm) | split ].
    + apply filter_In. split; [ apply in_seq; lia | now apply cell_eqv_sym ].
    + intros k' Hk' Hi'. apply filter_In in Hi'. destruct Hi' as [_ E].
      apply (distinct_eqv_eq _ k' u Hdist); auto.
      now apply (cell_eqv_trans _ (cell_at gc i)).
  - intros k i Hk Hi'. apply filter_In in Hi'. destruct Hi' as [Hs E].
    apply in_seq in Hs. split; [ lia | ].
    apply (cell_eqv_present k); [ now apply Hval | exact E ].
  - intros k Hk. destruct (Hval k Hk) as [Hin _].
    apply (In_nth _ _ CNull) in Hin. destruct Hin as [i [Hi E]].
    intros Hnil.
    assert (Hm : In i (group_rows gc (df_len df) k)).
    { apply filter_In. split; [ apply in_seq; lia | ].
      unfold cell_at. rewrite E. apply cell_eqv_refl. }
    rewrite Hnil in Hm. destruct Hm.
Qed.

Lemma group_by_partitions_rows_witness :
  exists keys : list cell,
    analyze (env_with sales) "data.csv" "group_by"
            (mkKwargs None None None None None (Some "category") (Some "revenue") None)
    = Ok (results "data.csv" sales "group_by"
            (group_by_payload
               (ObjCol [Some "a"; Some "a"; Some "b"; Some "b"; Some "b"])
               (IntCol [10; 20; 30; 40; 50]%Z) 5 keys))
    /\ StronglySorted (fun x y => cell_lt_any x y = true) keys
    /\ (forall i, i < 5 ->
        is_null (cell_at (ObjCol [Some "a"; Some "a"; Some "b"; Some "b"; Some "b"]) i) = false ->
        exists k, In k keys
                  /\ In i (group_rows (ObjCol [Some "a"; Some "a"; Some "b"; Some "b"; Some "b"]) 5 k)
                  /\ forall k', In k' keys ->
                       In i (group_rows (ObjCol [Some "a"; Some "a"; Some "b"; Some "b"; Some "b"]) 5 k') ->
                       k' = k)
    /\ (forall k i, In k keys ->
        In i (group_rows (ObjCol [Some "a"; Some "a"; Some "b"; Some "b"; Some "b"]) 5 k) ->
        i < 5 /\ is_null (cell_at (ObjCol [Some "a"; Some "a"; Some "b"; Some "b"; Some "b"]) i) = false)
    /\ (forall k, In k keys ->
        group_rows (ObjCol [Some "a"; Some "a"; Some "b"; Some "b"; Some "b"]) 5 k <> []).
Proof.
  apply (group_by_partitions_rows (env_with sales) "data.csv" sales
           (mkKwargs None None None None None (Some "category") (Some "revenue") None)
           "category" "revenue").
  - reflexivity.
  - exact sales_wf.
  - reflexivity.
  - reflexivity.
  - reflexivity.
  - reflexivity.
Defined.

(** Scenario 2: grouping the revenue by category gives 30 for "a" and
    120 for "b". *)
Lemma revenue_by_category :
  analyze (env_with sales) "data.csv" "group_by"
          (mkKwargs None None None None None (Some "category") (Some "revenue") None)
  = Ok (results "data.csv" sales "group_by"
          (PDict [ (PStr "a", PInt 30); (PStr "b", PInt 120) ])).
Proof. reflexivity. Qed.

(** ** Ranking, continued *)

Lemma analyze_select (env : Env) (fp : string) (df : DataFrame) (kw : kwargs)
      (largest : bool) (col : string) (s : Series) :
  loaded env fp = Some df ->
  wf_df df ->
  column kw = Some col ->
  get_col df col = Some s ->
  is_number_dtype s = true ->
  let op := if largest then "top_n" else "bottom_n" in
  let k := Z.to_nat (match n kw with Some v => v | None => 10%Z end) in
  analyze env fp op kw
  = Ok (results fp df op (PList (map (record_at df) (firstn k (ranked largest s))))).
Proof.
  intros Hl Hwf Hc Hs Hn op k.
  pose proof (wf_col_len df col s Hwf Hs) as Hlen.
  rewrite (analyze_loaded _ _ _ _ _ Hl).
  assert (E : dispatch env fp df op kw = op_select fp df op kw largest)
    by (unfold op; destruct largest; reflexivity).
  unfold run. rewrite E. unfold op_select.
  rewrite Hc, (with_column_found df col s _ _ Hs).
  rewrite (pd_select_n_numeric largest _ col df s Hs Hn). cbn [bind try_except].
  rewrite to_dict_records_take; [ reflexivity | apply Hwf | ].
  rewrite Forall_forall. intros i Hi. apply in_firstn in Hi.
  pose proof (ranked_range largest s) as Hr. rewrite Forall_forall in Hr.
  rewrite <- Hlen. now apply Hr.
Qed.

Lemma sorted_snoc {A : Type} (R : A -> A -> Prop) (l : list A) (a : A) :
  StronglySorted R l -> (forall x, In x l -> R x a) -> StronglySorted R (l ++ [a]).
Proof.
  induction 1 as [ | y r Hr IH Hy ]; cbn; intros Ha.
  - repeat constructor.
  - constructor.
    + apply IH. intros x Hx. apply Ha. now right.
    + rewrite Forall_forall in *. intros x Hx. apply in_app_or in Hx.
      destruct Hx as [Hx | [<- | []]]; [ now apply Hy | apply Ha; now left ].
Qed.

Lemma sorted_rev {A : Type} (R : A -> A -> Prop) (l : list A) :
  StronglySorted R l -> StronglySorted (fun x y => R y x) (rev l).
Proof.
  induction 1 as [ | y r Hr IH Hy ]; cbn; [ constructor | ].
  apply sorted_snoc; [ exact IH | ].
  intros x Hx. apply in_rev in Hx. rewrite Forall_forall in Hy. now apply Hy.
Qed.

Lemma sorted_perm_unique {A : Type} (R : A -> A -> Prop) (l1 l2 : list A) :
  (forall x y, R x y -> R y x -> x = y) ->
  StronglySorted R l1 -> StronglySorted R l2 -> Permutation l1 l2 -> l1 = l2.
Proof.
  intros Hanti H1. revert l2. induction H1 as [ | a r Hr IH Ha ]; intros l2 H2 Hp.
  - apply Permutation_nil in Hp. now subst.
  - destruct H2 as [ | b r2 Hr2 Hb ].
    + apply Permutation_sym, Permutation_nil in Hp. discriminate.
    + assert (E : a = b).
      { rewrite Forall_forall in Ha, Hb.
        assert (Hab : In a (b :: r2)) by (apply (Permutation_in _ Hp); now left).
        assert (Hba : In b (a :: r))
          by (apply (Permutation_in _ (Permutation_sym Hp)); now left).
        destruct Hab as [Hab | Hab]; [ now symmetry | ].
        destruct Hba as [Hba | Hba]; [ exact Hba | ].
        apply Hanti; [ now apply Ha | now apply Hb ]. }
      subst b. f_equal. apply IH; [ exact Hr2 | ].
      now apply Permutation_cons_inv in Hp.
Qed.

Lemma sorted_weaken {A : Type} (R Q : A -> A -> Prop) (l : list A) :
  NoDup l ->
  (forall x y, In x l -> In y l -> x <> y -> R x y -> Q x y) ->
  StronglySorted R l -> StronglySorted Q l.
Proof.
  intros Hnd HQ Hs. induction Hs as [ | a r Hr IH Ha ]; [ constructor | ].
  inversion Hnd as [ | ? ? Hni Hnd' ]; subst.
  constructor.
  - apply IH; [ exact Hnd' | ].
    intros x y Hx Hy. apply HQ; now right.
  - rewrite Forall_forall in *. intros x Hx.
    apply HQ; [ now left | now right | | now apply Ha ].
    intros ->. contradiction.
Qed.

(** X14: on a numeric column whose values are all present and pairwise
    different, bottom_n with [n] at least the number of rows returns the
    rows of top_n in reverse order. *)
Theorem bottom_n_reverses_top_n (env : Env) (fp : string) (df : DataFrame) (kw : kwargs)
        (col : string) (s : Series) :
  loaded env fp = Some df ->
  wf_df df ->
  column kw = Some col ->
  get_col df col = Some s ->
  is_number_dtype s = true ->
  (forall i, i < df_len df -> is_null (cell_at s i) = false) ->
  (forall i j, i < j < df_len df -> cell_eqv (cell_at s i) (cell_at s j) = false) ->
  (Z.of_nat (df_len df) <= match n kw with Some v => v | None => 10 end)%Z ->
  exists rows : list pyval,
    analyze env fp "top_n" kw = Ok (results fp df "top_n" (PList rows))
    /\ analyze env fp "bottom_n" kw = Ok (results fp df "bottom_n" (PList (rev rows)))
    /\ List.length rows = df_len df.
Proof.
  intros Hl Hwf Hc Hs Hn Hpres Hdist Hk.
  pose proof (wf_col_len df col s Hwf Hs) as Hlen.
  exists (map (record_at df) (ranked true s)).
  assert (Hall : forall largest,
             firstn (Z.to_nat match n kw with Some v => v | None => 10%Z end)
                    (ranked largest s) = ranked largest s).
  { intros largest. apply firstn_all2.
    rewrite <- (Permutation_length (ranked_perm largest s)), length_seq. lia. }
  pose proof (analyze_select env fp df kw true col s Hl Hwf Hc Hs Hn) as Et.
  pose proof (analyze_select env fp df kw false col s Hl Hwf Hc Hs Hn) as Eb.
  cbv zeta in Et, Eb. rewrite Hall in Et, Eb.
  split; [ exact Et | split ].
  2: { rewrite length_map, <- (Permutation_length (ranked_perm true s)), length_seq.
       exact Hlen. }
  rewrite Eb, <- map_rev. do 4 f_equal.
  assert (Hin : forall largest i, In i (ranked largest s) -> i < df_len df).
  { intros largest i Hi.
    apply (Permutation_in _ (Permutation_sym (ranked_perm largest s))) in Hi.
    apply in_seq in Hi. lia. }
  assert (Hnd : forall largest, NoDup (ranked largest s)).
  { intros largest. apply (Permutation_NoDup (ranked_perm largest s)), seq_NoDup. }
  assert (Htot : forall largest i j, i < df_len df -> j < df_len df -> i <> j ->
                 precedes largest s j i = false -> precedes largest s i j = true).
  { intros largest i j Hi Hj Hij. unfold precedes.
    rewrite (Hpres i Hi), (Hpres j Hj). cbn [negb andb orb].
    assert (Hne : cell_eqv (cell_at s i) (cell_at s j) = false).
    { destruct (Nat.lt_total i j) as [H | [H | H]]; [ apply Hdist; lia | contradiction | ].
      destruct (cell_eqv (cell_at s i) (cell_at s j)) eqn:E; [ | reflexivity ].
      apply cell_eqv_sym in E. rewrite Hdist in E by lia. discriminate. }
    assert (Hne' : cell_eqv (cell_at s j) (cell_at s i) = false).
    { destruct (cell_eqv (cell_at s j) (cell_at s i)) eqn:E; [ | reflexivity ].
      apply cell_eqv_sym in E. congruence. }
    pose proof (Hpres i Hi) as Pi. pose proof (Hpres j Hj) as Pj.
    destruct (cell_at_kind s i) as [Ki | Ki], (cell_at_kind s j) as [Kj | Kj];
      try (destruct (cell_at s i); cbn in Ki, Pi; discriminate);
      try (destruct (cell_at s j); cbn in Kj, Pj; discriminate).
    assert (Pri : present_of (cell_kind (cell_at s i)) (cell_at s i)) by now split.
    assert (Prj : present_of (cell_kind (cell_at s i)) (cell_at s j))
      by (split; [ exact Pj | congruence ]).
    assert (Hnum : forall a b, cell_kind a <> 3 -> cell_lt_any a b = cell_ltb a b).
    { intros a b Ha. destruct a, b; try reflexivity. now elim Ha. }
    assert (K3i : cell_kind (cell_at s i) <> 3) by (rewrite Ki; destruct s; discriminate).
    assert (K3j : cell_kind (cell_at s j) <> 3) by (rewrite Kj; destruct s; discriminate).
    destruct largest; intros H.
    - rewrite <- Hnum by exact K3j. rewrite <- Hnum in H by exact K3i.
      now apply (cell_lt_any_total _ _ _ Pri Prj).
    - rewrite <- Hnum by exact K3i. rewrite <- Hnum in H by exact K3j.
      now apply (cell_lt_any_total _ _ _ Prj Pri). }
  apply (sorted_perm_unique (fun i j => precedes false s i j = true)).
  - intros x y Hxy Hyx. apply precedes_asym in Hxy. congruence.
  - apply (sorted_weaken (ranks_before false s)); [ apply Hnd | | apply ranked_sorted ].
    intros x y Hx Hy Hxy [Hb _]. apply Htot; eauto.
  - apply (sorted_weaken (fun x y => ranks_before true s y x)).
    + apply NoDup_rev, Hnd.
    + intros x y Hx Hy Hxy [Hb _]. apply in_rev in Hx, Hy.
      assert (Ht : precedes true s y x = true) by (apply Htot; eauto).
      unfold precedes in *. rewrite (Hpres x), (Hpres y) in * by eauto.
      exact Ht.
    + apply sorted_rev, ranked_sorted.
  - eapply perm_trans; [ apply Permutation_sym, ranked_perm | ].
    eapply perm_trans; [ apply (ranked_perm true) | apply Permutation_rev ].
Qed.

Lemma bottom_n_reverses_top_n_witness :
  exists rows : list pyval,
    analyze (env_with sales) "data.csv" "top_n" (select_args "revenue" 5)
    = Ok (results "data.csv" sales "top_n" (PList rows))
    /\ analyze (env_with sales) "data.csv" "bottom_n" (select_args "revenue" 5)
       = Ok (results "data.csv" sales "bottom_n" (PList (rev rows)))
    /\ List.length rows = df_len sales.
Proof.
  apply (bottom_n_reverses_top_n (env_with sales) "data.csv" sales
           (select_args "revenue" 5) "revenue" (IntCol [10; 20; 30; 40; 50]%Z)).
  - reflexivity.
  - exact sales_wf.
  - reflexivity.
  - reflexivity.
  - reflexivity.
  - intros i Hi. simpl in Hi.
    destruct i as [ | [ | [ | [ | [ | i ] ] ] ] ]; try reflexivity; lia.
  - intros i j Hij. simpl in Hij.
    destruct i as [ | [ | [ | [ | [ | i ] ] ] ] ]; try lia;
      destruct j as [ | [ | [ | [ | [ | j ] ] ] ] ]; try lia; reflexivity.
  - simpl. lia.
Defined.

(** ** The stats operation *)

Lemma cell_lt_any_asym (k : nat) (x y : cell) :
  present_of k x -> present_of k y ->
  cell_lt_any x y = true -> cell_lt_any y x = false.
Proof.
  intros [Nx Kx] [Ny Ky].
  destruct x as [x | x | x | x | ], y as [y | y | y | y | ];
    cbn [cell_kind] in *; try congruence; cbn [cell_lt_any cell_ltb is_null] in *;
    try discriminate.
  - rewrite Z.ltb_lt, Z.ltb_ge. lia.
  - intros H. apply (ltb_rank x y Nx Ny) in H.
    destruct (y <? x)%float eqn:E; [ | reflexivity ].
    apply (ltb_rank y x Ny Nx) in E. exfalso. revert H E.
    destruct (float_rank x) as [[a1 a2] a3], (float_rank y) as [[b1 b2] b3].
    unfold lex_lt; cbn [fst snd]. lia.
  - unfold String.ltb. rewrite (String.compare_antisym y x).
    now destruct (String.compare x y).
  - destruct x, y; cbn; congruence.
Qed.

Lemma cell_lt_any_irrefl (k : nat) (x : cell) : present_of k x -> cell_lt_any x x = false.
Proof.
  intros P. destruct (cell_lt_any x x) eqn:E; [ | reflexivity ].
  pose proof (cell_lt_any_asym k x x P P E). congruence.
Qed.

Lemma cell_lt_any_between (k : nat) (x y z : cell) :
  present_of k x -> present_of k y -> present_of k z ->
  cell_lt_any x y = true -> cell_lt_any z y = false -> cell_lt_any z x = false.
Proof.
  intros Px Py Pz Hxy Hzy.
  destruct (cell_lt_any z x) eqn:E; [ | reflexivity ].
  rewrite (cell_lt_any_trans k z x y Pz Px Py E Hxy) in Hzy. discriminate.
Qed.

Lemma insert_cell_ascending (k : nat) (x : cell) (l : list cell) :
  present_of k x -> Forall (present_of k) l ->
  StronglySorted (fun a b => cell_lt_any b a = false) l ->
  StronglySorted (fun a b => cell_lt_any b a = false) (insert_cell x l).
Proof.
  intros Px Pl Sl. induction Sl as [ | y r Sr IH Hy ]; cbn.
  - repeat constructor.
  - inversion Pl as [ | ? ? Py Pr ]; subst.
    destruct (cell_lt_any x y) eqn:E.
    + constructor; [ now constructor | ].
      constructor; [ now apply (cell_lt_any_asym k) | ].
      rewrite Forall_forall in *. intros z Hz.
      apply (cell_lt_any_between k x y z); auto.
    + constructor; [ now apply IH | ].
      rewrite Forall_forall. intros z Hz.
      apply (Permutation_in _ (Permutation_sym (insert_cell_perm x r))) in Hz.
      destruct Hz as [<- | Hz]; [ exact E | ].
      rewrite Forall_forall in Hy. now apply Hy.
Qed.

Lemma sort_cells_ascending (k : nat) (l : list cell) :
  Forall (present_of k) l ->
  StronglySorted (fun a b => cell_lt_any b a = false) (sort_cells l).
Proof.
  unfold sort_cells. induction 1 as [ | x r Px Pr IH ]; cbn; [ constructor | ].
  apply (insert_cell_ascending k); auto.
  rewrite Forall_forall in *. intros y Hy. apply Pr.
  now apply (Permutation_in _ (Permutation_sym (sort_cells_perm r))).
Qed.

Lemma sorted_head_least (k : nat) (a : cell) (r : list cell) :
  Forall (present_of k) (a :: r) ->
  StronglySorted (fun x y => cell_lt_any y x = false) (a :: r) ->
  forall x, In x (a :: r) -> cell_lt_any x a = false.
Proof.
  intros P S x [<- | Hx].
  - apply (cell_lt_any_irrefl k). now inversion P.
  - inversion S as [ | ? ? _ Ha ]; subst. rewrite Forall_forall in Ha. now apply Ha.
Qed.

Lemma sorted_head_greatest (k : nat) (a : cell) (r : list cell) :
  Forall (present_of k) (a :: r) ->
  StronglySorted (fun x y => cell_lt_any x y = false) (a :: r) ->
  forall x, In x (a :: r) -> cell_lt_any a x = false.
Proof.
  intros P S x [<- | Hx].
  - apply (cell_lt_any_irrefl k). now inversion P.
  - inversion S as [ | ? ? _ Ha ]; subst. rewrite Forall_forall in Ha. now apply Ha.
Qed.

Lemma numeric_lt_any (s : Series) (x y : cell) :
  is_number_dtype s = true -> In x (cells s) -> cell_lt_any x y = cell_ltb x y.
Proof.
  intros Hn Hx. destruct s; try discriminate; cbn [cells] in Hx;
    apply in_map_iff in Hx; destruct Hx as [v0 [<- _]]; reflexivity.
Qed.

(** X15: stats on a numeric column with a present value.  The count is
    the number of present values; the minimum and the maximum are values
    of the column, and no present value is smaller than the minimum or
    larger than the maximum; the mean is the value the mean operation
    returns; the standard deviation of a single present value is NaN. *)
Theorem stats_of_numeric_column (env : Env) (fp : string) (df : DataFrame) (kw : kwargs)
        (col : string) (s : Series) :
  loaded env fp = Some df ->
  column kw = Some col ->
  col <> "" ->
  get_col df col = Some s ->
  is_number_dtype s = true ->
  valid_cells s <> [] ->
  exists (lo hi : cell) (q1 q2 q3 : float),
    analyze env fp "stats" kw
    = Ok (results fp df "stats"
            (stats_payload (Np.float_of_Z (Z.of_nat (List.length (valid_cells s))))
                           (mean_float s) (pd_std s)
                           (cell_float lo) q1 q2 q3 (cell_float hi)))
    /\ In lo (valid_cells s) /\ In hi (valid_cells s)
    /\ (forall x, In x (valid_cells s) -> cell_ltb x lo = false /\ cell_ltb hi x = false)
    /\ analyze env fp "mean" kw = Ok (results fp df "mean" (PFloat (mean_float s)))
    /\ (List.length (valid_cells s) = 1 -> pd_std s = nan).
Proof.
  intros Hl Hc Hne Hs Hn Hv.
  pose proof (valid_cells_present s) as Hp.
  set (k := match s with IntCol _ => 1 | FloatCol _ => 2 | ObjCol _ => 3 | BoolCol _ => 4 end)
    in Hp.
  pose proof (sort_cells_perm (valid_cells s)) as Hperm.
  pose proof (sort_cells_ascending k _ Hp) as Hsorted.
  assert (Hps : Forall (present_of k) (sort_cells (valid_cells s))).
  { rewrite Forall_forall in *. intros x Hx. apply Hp.
    now apply (Permutation_in _ (Permutation_sym Hperm)). }
  assert (Hnum : forall x y, In x (valid_cells s) -> cell_lt_any x y = cell_ltb x y).
  { intros x y Hx. apply (numeric_lt_any s); [ exact Hn | ].
    unfold valid_cells in Hx. now apply filter_In in Hx. }
  destruct (sort_cells (valid_cells s)) as [ | lo r ] eqn:Es.
  { apply Permutation_sym, Permutation_nil in Hperm. contradiction. }
  pose proof (sorted_rev _ _ Hsorted) as Hrev.
  assert (Hpr : Forall (present_of k) (rev (lo :: r))).
  { rewrite Forall_forall in *. intros x Hx. apply Hps. now apply in_rev. }
  destruct (rev (lo :: r)) as [ | hi r' ] eqn:Er.
  { apply (f_equal (@List.length cell)) in Er. rewrite length_rev in Er. discriminate. }
  assert (Hin : forall x, In x (lo :: r) <-> In x (valid_cells s)).
  { intros x. split; intros H.
    - now apply (Permutation_in _ (Permutation_sym Hperm)).
    - now apply (Permutation_in _ Hperm). }
  assert (Hin' : forall x, In x (hi :: r') <-> In x (valid_cells s)).
  { intros x. rewrite <- Hin, <- Er. symmetry. apply in_rev. }
  exists lo, hi, (np_quantile (lo :: r) 0.25%float), (np_quantile (lo :: r) 0.5%float),
         (np_quantile (lo :: r) 0.75%float).
  split; [ | split; [ | split; [ | split; [ | split ] ] ] ].
  - rewrite (analyze_loaded _ _ _ _ _ Hl).
    unfold run, dispatch. cbn [String.eqb Ascii.eqb Bool.eqb].
    unfold op_stats. rewrite Hc.
    destruct col as [ | c0 col' ]; [ now elim Hne | ].
    rewrite (with_column_found df _ _ _ _ Hs), (getitem_found df _ _ Hs).
    cbn [bind try_except]. unfold describe_series. rewrite Hn.
    unfold describe_numeric. rewrite Es, Er. reflexivity.
  - apply Hin. now left.
  - apply Hin'. now left.
  - intros x Hx. split.
    + rewrite <- (Hnum x lo Hx).
      apply (sorted_head_least k lo r Hps Hsorted). now apply Hin.
    + assert (Hhi : In hi (valid_cells s)) by (apply Hin'; now left).
      rewrite <- (Hnum hi x Hhi).
      apply (sorted_head_greatest k hi r' Hpr Hrev). now apply Hin'.
  - rewrite (analyze_loaded _ _ _ _ _ Hl).
    unfold run, dispatch. cbn [String.eqb Ascii.eqb Bool.eqb].
    unfold op_mean. rewrite Hc.
    rewrite (with_column_found df _ _ _ _ Hs), (getitem_found df _ _ Hs).
    unfold mean_float. destruct s; try discriminate; reflexivity.
  - intros H1. unfold pd_std, count_valid. unfold valid_cells in H1. now rewrite H1.
Qed.

Lemma stats_of_numeric_column_witness :
  exists (lo hi : cell) (q1 q2 q3 : float),
    analyze (env_with sales) "data.csv" "stats" (column_args "revenue")
    = Ok (results "data.csv" sales "stats"
            (stats_payload
               (Np.float_of_Z (Z.of_nat (List.length (valid_cells (IntCol [10; 20; 30; 40; 50]%Z)))))
               (mean_float (IntCol [10; 20; 30; 40; 50]%Z))
               (pd_std (IntCol [10; 20; 30; 40; 50]%Z))
               (cell_float lo) q1 q2 q3 (cell_float hi)))
    /\ In lo (valid_cells (IntCol [10; 20; 30; 40; 50]%Z))
    /\ In hi (valid_cells (IntCol [10; 20; 30; 40; 50]%Z))
    /\ (forall x, In x (valid_cells (IntCol [10; 20; 30; 40; 50]%Z)) ->
        cell_ltb x lo = false /\ cell_ltb hi x = false)
    /\ analyze (env_with sales) "data.csv" "mean" (column_args "revenue")
       = Ok (results "data.csv" sales "mean"
               (PFloat (mean_float (IntCol [10; 20; 30; 40; 50]%Z))))
    /\ (List.length (valid_cells (IntCol [10; 20; 30; 40; 50]%Z)) = 1 ->
        pd_std (IntCol [10; 20; 30; 40; 50]%Z) = nan).
Proof.
  apply (stats_of_numeric_column (env_with sales) "data.csv" sales (column_args "revenue")
           "revenue" (IntCol [10; 20; 30; 40; 50]%Z)).
  - reflexivity.
  - reflexivity.
  - discriminate.
  - reflexivity.
  - reflexivity.
  - discriminate.
Defined.



(** ** Loading, continued *)

Lemma checks_in_order_witness :
  analyze (env_with sales) "data.txt" "sum" (column_args "revenue")
  = Ok (error ("Unsupported file type: " ++ path_suffix "data.txt")).
Proof.
  apply (proj1 (proj2 (checks_in_order (env_with sales) "data.txt" "sum"
                         (column_args "revenue")))).
  - reflexivity.
  - simpl. intros [H | [H | [H | [H | []]]]]; discriminate.
Defined.

(** ** Conditions and their connectives *)










(** * Properties of the feature list manager *)

Lemma dict_get_set_same (k : string) (v : pyval) (d : list (pyval * pyval)) :
  FeatureManager.dict_get k (FeatureManager.dict_set k v d) = Some v.
Proof.
  induction d as [ | [key x] r IH ]; cbn.
  - now rewrite String.eqb_refl.
  - destruct key; cbn; try exact IH.
    destruct (String.eqb s k) eqn:E; cbn; rewrite E; [ reflexivity | exact IH ].
Qed.

Lemma dict_get_set_other (k k' : string) (v : pyval) (d : list (pyval * pyval)) :
  k <> k' ->
  FeatureManager.dict_get k' (FeatureManager.dict_set k v d) = FeatureManager.dict_get k' d.
Proof.
  intros Hne. induction d as [ | [key x] r IH ]; cbn.
  - destruct (String.eqb k k') eqn:E; [ | reflexivity ].
    apply String.eqb_eq in E. contradiction.
  - destruct key; cbn; try exact IH.
    destruct (String.eqb s k) eqn:E; cbn.
    + apply String.eqb_eq in E. subst s.
      destruct (String.eqb k k') eqn:E'; [ | reflexivity ].
      apply String.eqb_eq in E'. contradiction.
    + destruct (String.eqb s k'); [ reflexivity | exact IH ].
Qed.

Lemma dict_set_same (k : string) (v : pyval) (d : list (pyval * pyval)) :
  FeatureManager.dict_get k d = Some v -> FeatureManager.dict_set k v d = d.
Proof.
  induction d as [ | [key x] r IH ]; cbn; [ discriminate | ].
  destruct key; cbn; try (intros H; now rewrite IH).
  destruct (String.eqb s k) eqn:E; [ now intros [= ->] | ].
  intros H. now rewrite IH.
Qed.

Lemma dict_set_twice (k : string) (v w : pyval) (d : list (pyval * pyval)) :
  FeatureManager.dict_set k v (FeatureManager.dict_set k w d) = FeatureManager.dict_set k v d.
Proof.
  induction d as [ | [key x] r IH ]; cbn.
  - now rewrite String.eqb_refl.
  - destruct key; cbn; try now rewrite IH.
    destruct (String.eqb s k) eqn:E; cbn; rewrite E; [ reflexivity | now rewrite IH ].
Qed.

Lemma shaped_weaken (P Q : pyval -> bool) (data : pyval) :
  (forall f, P f = true -> Q f = true) ->
  FeatureManager.shaped P data = true -> FeatureManager.shaped Q data = true.
Proof.
  intros HPQ. unfold FeatureManager.shaped. destruct data; try discriminate.
  rewrite !andb_true_iff. intros [H1 H2]. split; [ | exact H2 ].
  destruct (FeatureManager.dict_get "features" d) as [[ | | | | | fs | ] | ];
    try discriminate; try reflexivity.
  rewrite forallb_forall in *. intros f Hf. specialize (H1 f Hf).
  apply andb_true_iff in H1. destruct H1 as [Hd HP].
  now rewrite Hd, (HPQ f HP).
Qed.

Lemma shaped_dict (P : pyval -> bool) (data : pyval) :
  FeatureManager.shaped P data = true -> exists d, data = PDict d.
Proof. destruct data; try discriminate. intros _. now eexists. Qed.

Lemma shaped_features (P : pyval -> bool) (data : pyval) :
  FeatureManager.shaped P data = true ->
  forall f, In f (FeatureManager.features_of data) ->
  FeatureManager.is_dict f = true /\ P f = true.
Proof.
  unfold FeatureManager.shaped, FeatureManager.features_of.
  destruct data; try discriminate. cbn [FeatureManager.items].
  rewrite andb_true_iff. intros [H _] f Hf.
  destruct (FeatureManager.dict_get "features" d) as [[ | | | | | fs | ] | ];
    try discriminate; try destruct Hf.
  rewrite forallb_forall in H. apply andb_true_iff. now apply H.
Qed.

Lemma shaped_metadata (P : pyval -> bool) (data meta : pyval) :
  FeatureManager.shaped P data = true ->
  FeatureManager.dict_get "metadata" (FeatureManager.items data) = Some meta ->
  exists m, meta = PDict m.
Proof.
  unfold FeatureManager.shaped. destruct data; try discriminate. cbn [FeatureManager.items].
  rewrite andb_true_iff. intros [_ H] E. rewrite E in H.
  destruct meta; try discriminate. now eexists.
Qed.

Lemma shaped_features_list (P : pyval -> bool) (data v : pyval) :
  FeatureManager.shaped P data = true ->
  FeatureManager.dict_get "features" (FeatureManager.items data) = Some v ->
  v = PList (FeatureManager.features_of data).
Proof.
  unfold FeatureManager.shaped, FeatureManager.features_of.
  destruct data; try discriminate. cbn [FeatureManager.items].
  rewrite andb_true_iff. intros [H _] E. rewrite E in *.
  destruct v; try discriminate. reflexivity.
Qed.

(** What [save_features] writes for a document with both entries. *)
Lemma save_features_writes (host : FeatureManager.Host) (d m : list (pyval * pyval))
      (fs : list pyval) :
  FeatureManager.dict_get "metadata" d = Some (PDict m) ->
  FeatureManager.dict_get "features" d = Some (PList fs) ->
  exists m' : list (pyval * pyval),
    FeatureManager.save_features host (PDict d)
    = Ok (PDict (FeatureManager.dict_set "metadata" (PDict m') d))
    /\ counts_agree (PDict (FeatureManager.dict_set "metadata" (PDict m') d))
    /\ FeatureManager.features_of (PDict (FeatureManager.dict_set "metadata" (PDict m') d)) = fs.
Proof.
  intros Hm Hf. unfold FeatureManager.save_features. cbn [FeatureManager.items].
  rewrite Hm, Hf. cbn [FeatureManager.items].
  assert (Efs : FeatureManager.features_of (PDict d) = fs).
  { unfold FeatureManager.features_of. cbn [FeatureManager.items]. now rewrite Hf. }
  rewrite Efs. eexists. split; [ reflexivity | ].
  assert (Efs' : forall x, FeatureManager.features_of
                             (PDict (FeatureManager.dict_set "metadata" x d)) = fs).
  { intros x. unfold FeatureManager.features_of. cbn [FeatureManager.items].
    rewrite dict_get_set_other by discriminate. now rewrite Hf. }
  split; [ | apply Efs' ].
  unfold counts_agree. rewrite Efs'. cbn [FeatureManager.items].
  eexists. split; [ apply dict_get_set_same | ].
  split; [ | split ].
  - rewrite !dict_get_set_other by discriminate. apply dict_get_set_same.
  - rewrite !dict_get_set_other by discriminate. apply dict_get_set_same.
  - apply dict_get_set_same.
Qed.

(** A command that replaced the feature list and saved. *)
Lemma save_and_report_spec (host : FeatureManager.Host) (data : pyval)
      (d : list (pyval * pyval)) (fs' : list pyval) (message : string) :
  data = PDict d ->
  (forall meta, FeatureManager.dict_get "metadata" d = Some meta -> exists m, meta = PDict m) ->
  let r := FeatureManager.save_and_report host data
             (PDict (FeatureManager.dict_set "features" (PList fs') d)) message in
  (FeatureManager.dict_get "metadata" d = None
   /\ r = FeatureManager.mkRun [] (Some data) (FeatureManager.Crashed (key_error "metadata")))
  \/ (exists m' : list (pyval * pyval),
        let written := PDict (FeatureManager.dict_set "metadata" (PDict m')
                                (FeatureManager.dict_set "features" (PList fs') d)) in
        FeatureManager.dict_get "metadata" d <> None
        /\ r = FeatureManager.mkRun [ FeatureManager.saved; message ] (Some written)
                 FeatureManager.Returned
        /\ counts_agree written
        /\ FeatureManager.features_of written = fs').
Proof.
  intros -> Hmeta r. unfold r, FeatureManager.save_and_report.
  destruct (FeatureManager.dict_get "metadata" d) as [meta | ] eqn:Em.
  - right. destruct (Hmeta meta eq_refl) as [m ->].
    destruct (save_features_writes host (FeatureManager.dict_set "features" (PList fs') d)
                m fs') as [m' [Es [Hc Hf]]].
    + rewrite dict_get_set_other by discriminate. exact Em.
    + apply dict_get_set_same.
    + exists m'. rewrite Es. repeat split; auto. discriminate.
  - left. split; [ reflexivity | ].
    unfold FeatureManager.save_features. cbn [FeatureManager.items].
    rewrite dict_get_set_other by discriminate. now rewrite Em.
Qed.

(** X19: without the feature file every invocation, whatever its
    arguments, exits with status 1 and creates no file. *)
Theorem feature_file_missing (host : FeatureManager.Host) (argv : list string) :
  FeatureManager.file (FeatureManager.main host None argv) = None
  /\ FeatureManager.ended (FeatureManager.main host None argv) = FeatureManager.Exited 1.
Proof.
  unfold FeatureManager.main.
  destruct argv as [ | p [ | c rest ] ]; try (split; reflexivity).
  destruct (String.eqb (lower c) "status"); [ split; reflexivity | ].
  destruct (String.eqb (lower c) "list"); [ split; reflexivity | ].
  destruct (String.eqb (lower c) "next"); [ split; reflexivity | ].
  destruct rest as [ | arg rest ]; [ split; reflexivity | ].
  destruct (String.eqb (lower c) "pass"); [ split; reflexivity | ].
  destruct (String.eqb (lower c) "fail"); [ split; reflexivity | ].
  destruct (String.eqb (lower c) "add"); split; reflexivity.
Qed.

Lemma untouched_returned (data : pyval) (out : list string) :
  untouched data (FeatureManager.mkRun out (Some data) FeatureManager.Returned).
Proof. split; [ reflexivity | ]. cbn. discriminate. Qed.

Lemma untouched_exited (data : pyval) (out : list string) (status : Z) :
  untouched data (FeatureManager.mkRun out (Some data) (FeatureManager.Exited status)).
Proof. split; [ reflexivity | ]. cbn. discriminate. Qed.

Lemma untouched_crashed (data : pyval) (k : string) :
  k = "metadata" \/ k = "features" ->
  untouched data (FeatureManager.mkRun [] (Some data) (FeatureManager.Crashed (key_error k))).
Proof.
  intros Hk. split; [ reflexivity | ]. cbn. intros e [= <-]. split; [ reflexivity | ].
  destruct Hk as [-> | ->]; auto.
Qed.

Lemma saved_outcome (host : FeatureManager.Host) (data : pyval) (fs' : list pyval)
      (message : string) :
  FeatureManager.shaped (fun _ => true) data = true ->
  let r := FeatureManager.save_and_report host data
             (PDict (FeatureManager.dict_set "features" (PList fs')
                       (FeatureManager.items data))) message in
  untouched data r \/ rewritten data r.
Proof.
  intros Hs r. destruct (shaped_dict _ _ Hs) as [d Hd]. subst data.
  assert (Hmeta : forall meta, FeatureManager.dict_get "metadata" d = Some meta ->
                  exists m, meta = PDict m).
  { intros meta E. now apply (shaped_metadata _ (PDict d) meta Hs). }
  unfold r. cbn [FeatureManager.items].
  destruct (save_and_report_spec host (PDict d) d fs' message eq_refl Hmeta)
    as [[_ E] | [m' [_ [E [Hc Hf]]]]]; rewrite E.
  - left. apply untouched_crashed. now left.
  - right. eexists. split; [ reflexivity | ]. split; [ reflexivity | ].
    split; [ reflexivity | ]. split; [ exact Hc | ].
    intros k K1 K2. cbn [FeatureManager.items].
    rewrite !dict_get_set_other by congruence. reflexivity.
Qed.

Lemma cmd_mark_outcome (target : bool) (host : FeatureManager.Host) (data : pyval)
      (fid : string) :
  FeatureManager.shaped (fun _ => true) data = true ->
  untouched data (FeatureManager.cmd_mark target host (Some data) fid)
  \/ rewritten data (FeatureManager.cmd_mark target host (Some data) fid).
Proof.
  intros Hs. unfold FeatureManager.cmd_mark. rewrite Hs. cbn [negb].
  destruct (FeatureManager.dict_get "features" (FeatureManager.items data)).
  2: { left. apply untouched_crashed. now right. }
  destruct (find (FeatureManager.has_id fid) (FeatureManager.features_of data)) as [f | ].
  2: { left. apply untouched_returned. }
  destruct (Bool.eqb (FeatureManager.passes f) target).
  { left. apply untouched_returned. }
  now apply saved_outcome.
Qed.

Lemma cmd_add_outcome (host : FeatureManager.Host) (data : pyval) (description : string) :
  FeatureManager.shaped (FeatureManager.entry_is "priority" FeatureManager.is_int) data = true ->
  untouched data (FeatureManager.cmd_add host (Some data) description)
  \/ rewritten data (FeatureManager.cmd_add host (Some data) description).
Proof.
  intros Hs. unfold FeatureManager.cmd_add. rewrite Hs. cbn [negb].
  destruct (FeatureManager.dict_get "features" (FeatureManager.items data)).
  2: { left. apply untouched_crashed. now right. }
  apply saved_outcome. revert Hs. apply shaped_weaken. reflexivity.
Qed.

Lemma plain_feature_parts (f : pyval) :
  plain_feature f = true ->
  FeatureManager.entry_is "priority" FeatureManager.is_int f = true
  /\ FeatureManager.entry_is "steps" FeatureManager.is_list f = true
  /\ FeatureManager.entry_is "description" FeatureManager.is_str f = true.
Proof. unfold plain_feature. rewrite !andb_true_iff. tauto. Qed.

Lemma well_shaped_any (data : pyval) :
  well_shaped data -> FeatureManager.shaped (fun _ => true) data = true.
Proof. apply shaped_weaken. reflexivity. Qed.

Lemma well_shaped_add (data : pyval) :
  well_shaped data ->
  FeatureManager.shaped (FeatureManager.entry_is "priority" FeatureManager.is_int) data = true.
Proof. apply shaped_weaken. intros f H. now apply plain_feature_parts in H. Qed.

Lemma well_shaped_next (data : pyval) :
  well_shaped data ->
  FeatureManager.shaped
    (fun f => FeatureManager.entry_is "priority" FeatureManager.is_int f
              && FeatureManager.entry_is "steps" FeatureManager.is_list f) data = true.
Proof.
  apply shaped_weaken. intros f H. apply plain_feature_parts in H.
  destruct H as [H1 [H2 _]]. now rewrite H1, H2.
Qed.

Lemma well_shaped_list (data : pyval) :
  well_shaped data ->
  FeatureManager.shaped (FeatureManager.entry_is "description" FeatureManager.is_str) data = true.
Proof. apply shaped_weaken. intros f H. now apply plain_feature_parts in H. Qed.

(** X20: on a well-shaped document every invocation either leaves the
    file as it was, or saves a document whose metadata counts agree
    with its feature list (total, passing, and failing as their
    difference) and that differs from the old one in the features and
    the metadata at most.  An invocation that crashes has printed
    nothing and has not touched the file: the [KeyError] of a missing
    [metadata] or [features] is raised before the file is opened. *)
Theorem commands_keep_counts (host : FeatureManager.Host) (data : pyval)
        (argv : list string) :
  well_shaped data ->
  untouched data (FeatureManager.main host (Some data) argv)
  \/ rewritten data (FeatureManager.main host (Some data) argv).
Proof.
  intros Hw. unfold FeatureManager.main.
  destruct argv as [ | p [ | c rest ] ]; try (left; apply untouched_exited).
  destruct (String.eqb (lower c) "status").
  { left. unfold FeatureManager.cmd_status. rewrite (well_shaped_any data Hw).
    apply untouched_returned. }
  destruct (String.eqb (lower c) "list").
  { left. unfold FeatureManager.cmd_list. rewrite (well_shaped_list data Hw).
    apply untouched_returned. }
  destruct (String.eqb (lower c) "next").
  { left. unfold FeatureManager.cmd_next. rewrite (well_shaped_next data Hw). cbn [negb].
    destruct (FeatureManager.by_priority _); apply untouched_returned. }
  destruct rest as [ | arg rest ]; [ left; apply untouched_exited | ].
  destruct (String.eqb (lower c) "pass").
  { apply cmd_mark_outcome. now apply well_shaped_any. }
  destruct (String.eqb (lower c) "fail").
  { apply cmd_mark_outcome. now apply well_shaped_any. }
  destruct (String.eqb (lower c) "add").
  { apply cmd_add_outcome. now apply well_shaped_add. }
  left. apply untouched_exited.
Qed.

Lemma commands_keep_counts_witness :
  untouched demo_list (FeatureManager.main demo_host (Some demo_list) [ "fm"; "pass"; "F001" ])
  \/ rewritten demo_list
       (FeatureManager.main demo_host (Some demo_list) [ "fm"; "pass"; "F001" ]).
Proof.
  apply (commands_keep_counts demo_host demo_list [ "fm"; "pass"; "F001" ]).
  reflexivity.
Defined.

(** ** Marking a feature *)

Lemma dict_set_comm (k k' : string) (v v' : pyval) (d : list (pyval * pyval)) :
  k <> k' ->
  FeatureManager.dict_get k d <> None ->
  FeatureManager.dict_set k v (FeatureManager.dict_set k' v' d)
  = FeatureManager.dict_set k' v' (FeatureManager.dict_set k v d).
Proof.
  intros Hne. induction d as [ | [key x] r IH ]; cbn; [ congruence | ].
  destruct key; cbn; try (intros H; now rewrite IH).
  destruct (String.eqb s k) eqn:E, (String.eqb s k') eqn:E'; cbn; rewrite ?E, ?E'.
  - apply String.eqb_eq in E, E'. congruence.
  - reflexivity.
  - reflexivity.
  - intros H. now rewrite IH.
Qed.

Lemma has_id_set_passes (fid : string) (b : bool) (f : pyval) :
  FeatureManager.has_id fid (FeatureManager.set_passes b f) = FeatureManager.has_id fid f.
Proof.
  unfold FeatureManager.has_id, FeatureManager.set_passes. cbn [FeatureManager.items].
  now rewrite dict_get_set_other by discriminate.
Qed.

Lemma passes_set_passes (b : bool) (f : pyval) :
  FeatureManager.passes (FeatureManager.set_passes b f) = b.
Proof.
  unfold FeatureManager.passes, FeatureManager.set_passes, FeatureManager.get_or.
  cbn [FeatureManager.items]. now rewrite dict_get_set_same.
Qed.

Lemma find_split {A : Type} (p : A -> bool) (l : list A) (x : A) :
  find p l = Some x ->
  exists pre post, l = pre ++ x :: post /\ p x = true /\ forall y, In y pre -> p y = false.
Proof.
  induction l as [ | a r IH ]; cbn; [ discriminate | ].
  destruct (p a) eqn:E.
  - intros [= <-]. exists [], r. repeat split; auto. intros y [].
  - intros H. destruct (IH H) as [pre [post [-> [Hx Hpre]]]].
    exists (a :: pre), post. repeat split; auto.
    intros y [<- | Hy]; auto.
Qed.

Lemma find_first {A : Type} (p : A -> bool) (pre post : list A) (x : A) :
  p x = true -> (forall y, In y pre -> p y = false) -> find p (pre ++ x :: post) = Some x.
Proof.
  intros Hx. induction pre as [ | a r IH ]; cbn; intros Hpre; [ now rewrite Hx | ].
  rewrite (Hpre a) by now left. apply IH. intros y Hy. apply Hpre. now right.
Qed.

Lemma update_first_at (fid : string) (g : pyval -> pyval) (pre post : list pyval) (f : pyval) :
  FeatureManager.has_id fid f = true ->
  (forall y, In y pre -> FeatureManager.has_id fid y = false) ->
  FeatureManager.update_first fid g (pre ++ f :: post) = pre ++ g f :: post.
Proof.
  intros Hf. induction pre as [ | a r IH ]; cbn; intros Hpre; [ now rewrite Hf | ].
  rewrite (Hpre a) by now left. f_equal. apply IH. intros y Hy. apply Hpre. now right.
Qed.

Lemma count_passing_app (l1 l2 : list pyval) :
  FeatureManager.count_passing (l1 ++ l2)
  = FeatureManager.count_passing l1 + FeatureManager.count_passing l2.
Proof. unfold FeatureManager.count_passing. now rewrite filter_app, length_app. Qed.

Lemma count_passing_cons (f : pyval) (l : list pyval) :
  FeatureManager.count_passing (f :: l)
  = (if FeatureManager.passes f then 1 else 0) + FeatureManager.count_passing l.
Proof. unfold FeatureManager.count_passing. cbn. now destruct (FeatureManager.passes f). Qed.

Lemma shaped_rewritten (d m : list (pyval * pyval)) (fs : list pyval) :
  Forall (fun f => FeatureManager.is_dict f = true) fs ->
  FeatureManager.shaped (fun _ => true)
    (PDict (FeatureManager.dict_set "metadata" (PDict m)
              (FeatureManager.dict_set "features" (PList fs) d))) = true.
Proof.
  intros H. unfold FeatureManager.shaped.
  rewrite dict_get_set_other by discriminate. rewrite !dict_get_set_same.
  rewrite andb_true_r. apply forallb_forall. intros f Hf.
  rewrite Forall_forall in H. now rewrite (H f Hf).
Qed.

(** The run of [cmd_pass] or [cmd_fail] that changes the first feature
    with the id. *)
Lemma cmd_mark_changes (target : bool) (host : FeatureManager.Host)
      (d m : list (pyval * pyval)) (fid : string) (pre post : list pyval) (f : pyval) :
  FeatureManager.shaped (fun _ => true) (PDict d) = true ->
  FeatureManager.dict_get "metadata" d = Some (PDict m) ->
  FeatureManager.features_of (PDict d) = pre ++ f :: post ->
  FeatureManager.has_id fid f = true ->
  (forall y, In y pre -> FeatureManager.has_id fid y = false) ->
  FeatureManager.passes f = negb target ->
  exists m' : list (pyval * pyval),
    let fs' := pre ++ FeatureManager.set_passes target f :: post in
    let written := PDict (FeatureManager.dict_set "metadata" (PDict m')
                            (FeatureManager.dict_set "features" (PList fs') d)) in
    FeatureManager.cmd_mark target host (Some (PDict d)) fid
    = FeatureManager.mkRun
        [ FeatureManager.saved;
          (if target then "✅ Marked " ++ fid ++ " as PASSING"
           else "❌ Marked " ++ fid ++ " as FAILING")%string ]
        (Some written) FeatureManager.Returned
    /\ counts_agree written
    /\ FeatureManager.features_of written = fs'
    /\ FeatureManager.shaped (fun _ => true) written = true.
Proof.
  intros Hs Hm Hfs Hf Hpre Hp.
  assert (Hdicts : Forall (fun x => FeatureManager.is_dict x = true) (pre ++ f :: post)).
  { rewrite Forall_forall. intros x Hx. rewrite <- Hfs in Hx.
    now apply (shaped_features _ _ Hs x) in Hx. }
  assert (Hdicts' : Forall (fun x => FeatureManager.is_dict x = true)
                           (pre ++ FeatureManager.set_passes target f :: post)).
  { rewrite Forall_forall in *. intros x Hx. apply in_app_or in Hx.
    destruct Hx as [Hx | [<- | Hx]]; [ | reflexivity | ];
      apply Hdicts, in_or_app; [ now left | right; now right ]. }
  assert (Hmeta : forall meta, FeatureManager.dict_get "metadata" d = Some meta ->
                  exists m0, meta = PDict m0).
  { intros meta E. rewrite Hm in E. injection E as <-. now eexists. }
  destruct (save_and_report_spec host (PDict d) d
              (pre ++ FeatureManager.set_passes target f :: post)
              (if target then "✅ Marked " ++ fid ++ " as PASSING"
               else "❌ Marked " ++ fid ++ " as FAILING")%string eq_refl Hmeta)
    as [[E _] | [m' [_ [E [Hc Hw]]]]]; [ congruence | ].
  exists m'. cbv zeta. split; [ | split; [ exact Hc | split; [ exact Hw | ] ] ].
  - unfold FeatureManager.cmd_mark. rewrite Hs. cbn [negb].
    assert (Ef : FeatureManager.dict_get "features" (FeatureManager.items (PDict d)) <> None).
    { intros N. unfold FeatureManager.features_of in Hfs. rewrite N in Hfs.
      destruct pre; discriminate. }
    destruct (FeatureManager.dict_get "features" (FeatureManager.items (PDict d)));
      [ | congruence ].
    rewrite Hfs, (find_first _ pre post f Hf Hpre), Hp.
    replace (Bool.eqb (negb target) target) with false by now destruct target.
    rewrite (update_first_at fid _ pre post f Hf Hpre).
    cbn [FeatureManager.items]. exact E.
  - now apply shaped_rewritten.
Qed.

(** X21: [pass] on an id changes the first feature that has the id, and
    only when that feature is failing: it then passes, the number of
    passing features grows by one, and the other features and the
    length of the list are as before.  Repeating the command reports
    that the feature is already passing and leaves the file alone. *)
Theorem pass_marks_the_first_match (host : FeatureManager.Host) (data meta : pyval)
        (fid : string) (f : pyval) :
  FeatureManager.shaped (fun _ => true) data = true ->
  FeatureManager.dict_get "metadata" (FeatureManager.items data) = Some meta ->
  find (FeatureManager.has_id fid) (FeatureManager.features_of data) = Some f ->
  FeatureManager.passes f = false ->
  exists (written : pyval) (pre post : list pyval),
    FeatureManager.cmd_pass host (Some data) fid
    = FeatureManager.mkRun [ FeatureManager.saved; ("✅ Marked " ++ fid ++ " as PASSING")%string ]
        (Some written) FeatureManager.Returned
    /\ FeatureManager.features_of data = pre ++ f :: post
    /\ (forall y, In y pre -> FeatureManager.has_id fid y = false)
    /\ FeatureManager.features_of written = pre ++ FeatureManager.set_passes true f :: post
    /\ FeatureManager.passes (FeatureManager.set_passes true f) = true
    /\ FeatureManager.count_passing (FeatureManager.features_of written)
       = S (FeatureManager.count_passing (FeatureManager.features_of data))
    /\ FeatureManager.cmd_pass host (Some written) fid
       = FeatureManager.mkRun [ ("⚠️  " ++ fid ++ " is already passing")%string ]
           (Some written) FeatureManager.Returned.
Proof.
  intros Hs Hm Hfind Hp.
  destruct (shaped_dict _ _ Hs) as [d ->].
  destruct (shaped_metadata _ _ _ Hs Hm) as [m ->]. cbn [FeatureManager.items] in Hm.
  destruct (find_split _ _ _ Hfind) as [pre [post [Hfs [Hf Hpre]]]].
  destruct (cmd_mark_changes true host d m fid pre post f Hs Hm Hfs Hf Hpre Hp)
    as [m' [E [_ [Hw Hs']]]]. cbv zeta in E, Hw, Hs'.
  eexists. exists pre, post.
  split; [ exact E | ]. split; [ exact Hfs | ]. split; [ exact Hpre | ].
  split; [ exact Hw | ]. split; [ apply passes_set_passes | ]. split.
  - rewrite Hw, Hfs, !count_passing_app, !count_passing_cons, passes_set_passes, Hp. lia.
  - unfold FeatureManager.cmd_pass, FeatureManager.cmd_mark. rewrite Hs'. cbn [negb].
    cbn [FeatureManager.items].
    rewrite dict_get_set_other by discriminate. rewrite dict_get_set_same.
    rewrite Hw. rewrite find_first; [ | now rewrite has_id_set_passes | exact Hpre ].
    now rewrite passes_set_passes.
Qed.

Lemma pass_marks_the_first_match_witness :
  exists (written : pyval) (pre post : list pyval),
    FeatureManager.cmd_pass demo_host (Some demo_list) "F001"
    = FeatureManager.mkRun [ FeatureManager.saved; ("✅ Marked " ++ "F001" ++ " as PASSING")%string ]
        (Some written) FeatureManager.Returned
    /\ FeatureManager.features_of demo_list
       = pre ++ PDict [ (PStr "id", PStr "F001"); (PStr "priority", PInt 2);
                        (PStr "passes", PBool false);
                        (PStr "description", PStr "first") ] :: post
    /\ (forall y, In y pre -> FeatureManager.has_id "F001" y = false)
    /\ FeatureManager.features_of written
       = pre ++ FeatureManager.set_passes true
                  (PDict [ (PStr "id", PStr "F001"); (PStr "priority", PInt 2);
                           (PStr "passes", PBool false);
                           (PStr "description", PStr "first") ]) :: post
    /\ FeatureManager.passes
         (FeatureManager.set_passes true
            (PDict [ (PStr "id", PStr "F001"); (PStr "priority", PInt 2);
                     (PStr "passes", PBool false);
                     (PStr "description", PStr "first") ])) = true
    /\ FeatureManager.count_passing (FeatureManager.features_of written)
       = S (FeatureManager.count_passing (FeatureManager.features_of demo_list))
    /\ FeatureManager.cmd_pass demo_host (Some written) "F001"
       = FeatureManager.mkRun [ ("⚠️  " ++ "F001" ++ " is already passing")%string ]
           (Some written) FeatureManager.Returned.
Proof.
  apply (pass_marks_the_first_match demo_host demo_list
           (PDict [ (PStr "total_features", PInt 2) ]) "F001").
  - reflexivity.
  - reflexivity.
  - reflexivity.
  - reflexivity.
Defined.

(** X22: [pass] followed by [fail] on the id of a feature whose
    [passes] entry is [false] gives the document back: the feature list
    is the original one, and only the metadata may differ. *)
Theorem pass_then_fail_restores (host : FeatureManager.Host) (data meta : pyval)
        (fid : string) (f : pyval) :
  FeatureManager.shaped (fun _ => true) data = true ->
  FeatureManager.dict_get "metadata" (FeatureManager.items data) = Some meta ->
  find (FeatureManager.has_id fid) (FeatureManager.features_of data) = Some f ->
  FeatureManager.dict_get "passes" (FeatureManager.items f) = Some (PBool false) ->
  exists (w1 w2 : pyval) (m : list (pyval * pyval)),
    FeatureManager.file (FeatureManager.cmd_pass host (Some data) fid) = Some w1
    /\ FeatureManager.file (FeatureManager.cmd_fail host (Some w1) fid) = Some w2
    /\ w2 = PDict (FeatureManager.dict_set "metadata" (PDict m) (FeatureManager.items data))
    /\ FeatureManager.features_of w2 = FeatureManager.features_of data
    /\ counts_agree w2.
Proof.
  intros Hs Hm Hfind Hpass.
  destruct (shaped_dict _ _ Hs) as [d ->].
  destruct (shaped_metadata _ _ _ Hs Hm) as [m ->]. cbn [FeatureManager.items] in Hm.
  destruct (find_split _ _ _ Hfind) as [pre [post [Hfs [Hf Hpre]]]].
  assert (Hp : FeatureManager.passes f = false).
  { unfold FeatureManager.passes, FeatureManager.get_or. now rewrite Hpass. }
  assert (Hfd : exists df, f = PDict df).
  { assert (Hin : In f (FeatureManager.features_of (PDict d)))
      by (rewrite Hfs; apply in_or_app; right; now left).
    apply (shaped_features _ _ Hs) in Hin. destruct Hin as [Hd _].
    destruct f; try discriminate. now eexists. }
  destruct Hfd as [df ->]. cbn [FeatureManager.items] in Hpass.
  destruct (cmd_mark_changes true host d m fid pre post (PDict df) Hs Hm Hfs Hf Hpre Hp)
    as [m1 [E1 [_ [Hw1 Hs1]]]]. cbv zeta in E1, Hw1, Hs1.
  set (f1 := FeatureManager.set_passes true (PDict df)) in *.
  set (d1 := FeatureManager.dict_set "metadata" (PDict m1)
               (FeatureManager.dict_set "features" (PList (pre ++ f1 :: post)) d)) in *.
  assert (Hm1 : FeatureManager.dict_get "metadata" d1 = Some (PDict m1))
    by apply dict_get_set_same.
  assert (Hf1 : FeatureManager.has_id fid f1 = true)
    by (unfold f1; now rewrite has_id_set_passes).
  assert (Hp1 : FeatureManager.passes f1 = negb false) by apply passes_set_passes.
  destruct (cmd_mark_changes false host d1 m1 fid pre post f1 Hs1 Hm1 Hw1 Hf1 Hpre Hp1)
    as [m2 [E2 [Hc2 [Hw2 _]]]]. cbv zeta in E2, Hc2, Hw2.
  assert (Eback : FeatureManager.set_passes false f1 = PDict df).
  { unfold f1, FeatureManager.set_passes. cbn [FeatureManager.items].
    now rewrite dict_set_twice, dict_set_same. }
  rewrite Eback in *. rewrite <- Hfs in *.
  assert (Efeat : FeatureManager.dict_get "features" d
                  = Some (PList (FeatureManager.features_of (PDict d)))).
  { destruct (FeatureManager.dict_get "features" d) as [v | ] eqn:E.
    - f_equal. now apply (shaped_features_list _ (PDict d) v Hs).
    - unfold FeatureManager.features_of in Hfs. cbn [FeatureManager.items] in Hfs.
      rewrite E in Hfs. destruct pre; discriminate. }
  assert (Eitems : FeatureManager.dict_set "metadata" (PDict m2)
                     (FeatureManager.dict_set "features"
                        (PList (FeatureManager.features_of (PDict d))) d1)
                   = FeatureManager.dict_set "metadata" (PDict m2) d).
  { unfold d1.
    rewrite (dict_set_comm "features" "metadata") by (discriminate || (rewrite dict_get_set_same; discriminate)).
    rewrite dict_set_twice, dict_set_twice. now rewrite (dict_set_same "features"). }
  exists (PDict d1), (PDict (FeatureManager.dict_set "metadata" (PDict m2) d)), m2.
  unfold FeatureManager.cmd_pass, FeatureManager.cmd_fail. rewrite E1. cbn [FeatureManager.file].
  rewrite E2, Eitems. cbn [FeatureManager.file FeatureManager.items].
  rewrite Eitems in Hc2, Hw2. auto.
Qed.

Lemma pass_then_fail_restores_witness :
  exists (w1 w2 : pyval) (m : list (pyval * pyval)),
    FeatureManager.file (FeatureManager.cmd_pass demo_host (Some demo_list) "F001") = Some w1
    /\ FeatureManager.file (FeatureManager.cmd_fail demo_host (Some w1) "F001") = Some w2
    /\ w2 = PDict (FeatureManager.dict_set "metadata" (PDict m)
                     (FeatureManager.items demo_list))
    /\ FeatureManager.features_of w2 = FeatureManager.features_of demo_list
    /\ counts_agree w2.
Proof.
  apply (pass_then_fail_restores demo_host demo_list
           (PDict [ (PStr "total_features", PInt 2) ]) "F001"
           (PDict [ (PStr "id", PStr "F001"); (PStr "priority", PInt 2);
                    (PStr "passes", PBool false);
                    (PStr "description", PStr "first") ])).
  - reflexivity.
  - reflexivity.
  - reflexivity.
  - reflexivity.
Defined.

(** ** Adding a feature *)

Lemma unpad3_pad3 (i : nat) : i < 1000 -> unpad3 (FeatureManager.pad3 i) = i.
Proof.
  intros Hi.
  assert (H : forallb (fun k => Nat.eqb (unpad3 (FeatureManager.pad3 k)) k) (seq 0 1000) = true)
    by (vm_compute; reflexivity).
  rewrite forallb_forall in H. apply Nat.eqb_eq, H, in_seq. lia.
Qed.

Lemma candidate_inj (i j : nat) : i < 1000 -> j < 1000 -> candidate i = candidate j -> i = j.
Proof.
  intros Hi Hj H.
  assert (T : forall k, candidate k = String "F"%char (FeatureManager.pad3 k)) by reflexivity.
  rewrite !T in H.
  apply (f_equal (fun s => unpad3 match s with
                                  | String _ r => r
                                  | EmptyString => EmptyString
                                  end)) in H.
  cbv beta iota in H. now rewrite !unpad3_pad3 in H.
Qed.

Lemma candidates_NoDup : NoDup (map (fun i => PStr (candidate i)) (seq 1 999)).
Proof.
  assert (H : forall k a, a + k <= 1000 -> NoDup (map (fun i => PStr (candidate i)) (seq a k))).
  { intros k. induction k as [ | k IH ]; intros a Ha; cbn [map seq]; constructor.
    - rewrite in_map_iff. intros [j [E Hj]]. apply in_seq in Hj.
      assert (E' : candidate j = candidate a) by congruence.
      apply candidate_inj in E'; lia.
    - apply IH. lia. }
  apply H. lia.
Qed.

Lemma eq_str_true (s : string) (v : pyval) :
  FeatureManager.eq_str s v = true <-> v = PStr s.
Proof.
  destruct v; cbn; try (split; [ discriminate | discriminate ]).
  rewrite String.eqb_eq. split; [ now intros -> | now intros [= ->] ].
Qed.

(** Some candidate is free when there are fewer than 999 features. *)
Lemma free_candidate (ids : list pyval) :
  List.length ids < 999 ->
  exists i, find (fun i => negb (existsb (FeatureManager.eq_str (candidate i)) ids)) (seq 1 999)
            = Some i.
Proof.
  intros Hlen.
  destruct (find (fun i => negb (existsb (FeatureManager.eq_str (candidate i)) ids))
                 (seq 1 999)) as [i | ] eqn:E; [ now exists i | exfalso ].
  assert (Hincl : incl (map (fun i => PStr (candidate i)) (seq 1 999)) ids).
  { intros v Hv. apply in_map_iff in Hv. destruct Hv as [i [<- Hi]].
    pose proof (find_none _ _ E i Hi) as H. cbn in H. apply negb_false_iff in H.
    apply existsb_exists in H. destruct H as [x [Hx Hex]].
    apply eq_str_true in Hex. now subst x. }
  pose proof (NoDup_incl_length candidates_NoDup Hincl) as H.
  rewrite length_map, length_seq in H. lia.
Qed.

Lemma new_id_fresh (fs : list pyval) (i : nat) :
  find (fun i => negb (existsb (FeatureManager.eq_str (candidate i))
                         (map (fun f => FeatureManager.get_or "id" (PStr "")
                                          (FeatureManager.items f)) fs)))
       (seq 1 999) = Some i ->
  FeatureManager.new_id fs = candidate i
  /\ forall f, In f fs -> FeatureManager.has_id (candidate i) f = false.
Proof.
  intros E. split.
  - unfold FeatureManager.new_id. fold (candidate 999).
    change (fun i0 => negb (existsb (FeatureManager.eq_str ("F" ++ FeatureManager.pad3 i0)) _))
      with (fun i0 => negb (existsb (FeatureManager.eq_str (candidate i0))
                              (map (fun f => FeatureManager.get_or "id" (PStr "")
                                               (FeatureManager.items f)) fs))).
    now rewrite E.
  - intros f Hf. apply find_some in E. destruct E as [_ E]. apply negb_true_iff in E.
    unfold FeatureManager.has_id.
    destruct (FeatureManager.dict_get "id" (FeatureManager.items f)) as [v | ] eqn:Ev;
      [ | reflexivity ].
    destruct (FeatureManager.eq_str (candidate i) v) eqn:Eq; [ | reflexivity ].
    assert (H : existsb (FeatureManager.eq_str (candidate i))
                  (map (fun f => FeatureManager.get_or "id" (PStr "")
                                   (FeatureManager.items f)) fs) = true).
    { apply existsb_exists. exists v. split; [ | exact Eq ].
      apply in_map_iff. exists f. split; [ | exact Hf ].
      unfold FeatureManager.get_or. now rewrite Ev. }
    congruence.
Qed.

Lemma fold_max_ge (l : list Z) (x : Z) :
  (x <= fold_left Z.max l x)%Z /\ forall y, In y l -> (y <= fold_left Z.max l x)%Z.
Proof.
  revert x. induction l as [ | a r IH ]; intros x; cbn; [ split; [ lia | intros y [] ] | ].
  destruct (IH (Z.max x a)) as [H1 H2]. split; [ lia | ].
  intros y [<- | Hy]; [ lia | now apply H2 ].
Qed.

Lemma max_or_zero_ge (l : list Z) (y : Z) :
  In y l -> (y <= FeatureManager.max_or_zero l)%Z.
Proof.
  destruct l as [ | x r ]; [ intros [] | ]. cbn [FeatureManager.max_or_zero].
  destruct (fold_max_ge r x) as [H1 H2]. intros [<- | Hy]; [ exact H1 | now apply H2 ].
Qed.

(** The run of [cmd_add] on a document with both entries. *)
Lemma cmd_add_appends (host : FeatureManager.Host) (data meta : pyval) (fs : list pyval)
      (description : string) :
  FeatureManager.shaped (FeatureManager.entry_is "priority" FeatureManager.is_int) data = true ->
  FeatureManager.dict_get "metadata" (FeatureManager.items data) = Some meta ->
  FeatureManager.dict_get "features" (FeatureManager.items data) = Some (PList fs) ->
  exists written : pyval,
    FeatureManager.cmd_add host (Some data) description
    = FeatureManager.mkRun
        [ FeatureManager.saved;
          ("✅ Added feature " ++ FeatureManager.new_id fs ++ ": " ++ description)%string ]
        (Some written) FeatureManager.Returned
    /\ FeatureManager.features_of written
       = fs ++ [ FeatureManager.new_feature fs description ]
    /\ counts_agree written.
Proof.
  intros Hs Hm Hf.
  destruct (shaped_dict _ _ Hs) as [d ->].
  destruct (shaped_metadata _ _ _ Hs Hm) as [m ->]. cbn [FeatureManager.items] in Hm, Hf.
  assert (Efs : FeatureManager.features_of (PDict d) = fs).
  { unfold FeatureManager.features_of. cbn [FeatureManager.items]. now rewrite Hf. }
  assert (Hmeta : forall meta, FeatureManager.dict_get "metadata" d = Some meta ->
                  exists m0, meta = PDict m0).
  { intros meta E. rewrite Hm in E. injection E as <-. now eexists. }
  destruct (save_and_report_spec host (PDict d) d
              (fs ++ [ FeatureManager.new_feature fs description ])
              ("✅ Added feature " ++ FeatureManager.new_id fs ++ ": " ++ description)%string
              eq_refl Hmeta)
    as [[E _] | [m' [_ [E [Hc Hw]]]]]; [ congruence | ].
  eexists. split; [ | split; [ exact Hw | exact Hc ] ].
  unfold FeatureManager.cmd_add. rewrite Hs. cbn [negb FeatureManager.items].
  rewrite Hf, Efs. exact E.
Qed.

(** X23: [add] appends one failing feature and saves.  While the list
    holds fewer than 999 features the new id is of the form [Fnnn] and
    is the id of no feature already in the list, and the new priority
    is larger than the priority of every feature in the list. *)
Theorem add_appends_a_fresh_feature (host : FeatureManager.Host) (data meta : pyval)
        (fs : list pyval) (description : string) :
  FeatureManager.shaped (FeatureManager.entry_is "priority" FeatureManager.is_int) data = true ->
  FeatureManager.dict_get "metadata" (FeatureManager.items data) = Some meta ->
  FeatureManager.dict_get "features" (FeatureManager.items data) = Some (PList fs) ->
  List.length fs < 999 ->
  exists (written : pyval) (i : nat),
    FeatureManager.cmd_add host (Some data) description
    = FeatureManager.mkRun
        [ FeatureManager.saved;
          ("✅ Added feature " ++ candidate i ++ ": " ++ description)%string ]
        (Some written) FeatureManager.Returned
    /\ FeatureManager.features_of written
       = fs ++ [ FeatureManager.new_feature fs description ]
    /\ 1 <= i <= 999
    /\ FeatureManager.has_id (candidate i) (FeatureManager.new_feature fs description) = true
    /\ (forall f, In f fs -> FeatureManager.has_id (candidate i) f = false)
    /\ (forall f, In f fs ->
        (FeatureManager.priority_or 0 f
         < FeatureManager.priority_or 0 (FeatureManager.new_feature fs description))%Z)
    /\ FeatureManager.passes (FeatureManager.new_feature fs description) = false.
Proof.
  intros Hs Hm Hf Hlen.
  destruct (cmd_add_appends host data meta fs description Hs Hm Hf) as [written [E [Hw _]]].
  destruct (free_candidate (map (fun f => FeatureManager.get_or "id" (PStr "")
                                            (FeatureManager.items f)) fs)) as [i Hi];
    [ now rewrite length_map | ].
  destruct (new_id_fresh fs i Hi) as [Eid Hfresh].
  exists written, i. rewrite Eid in E.
  split; [ exact E | ]. split; [ exact Hw | ]. split.
  { apply find_some in Hi. destruct Hi as [Hi _]. apply in_seq in Hi. lia. }
  split.
  { unfold FeatureManager.has_id, FeatureManager.new_feature. cbn. rewrite Eid.
    apply String.eqb_refl. }
  split; [ exact Hfresh | ]. split; [ | reflexivity ].
  intros f Hin. unfold FeatureManager.new_feature at 1. cbn.
  assert (H : (FeatureManager.priority_or 0 f
               <= FeatureManager.max_or_zero (map (FeatureManager.priority_or 0) fs))%Z)
    by (apply max_or_zero_ge, in_map, Hin).
  lia.
Qed.

Lemma add_appends_a_fresh_feature_witness :
  exists (written : pyval) (i : nat),
    FeatureManager.cmd_add demo_host (Some demo_list) "third"
    = FeatureManager.mkRun
        [ FeatureManager.saved;
          ("✅ Added feature " ++ candidate i ++ ": " ++ "third")%string ]
        (Some written) FeatureManager.Returned
    /\ FeatureManager.features_of written
       = FeatureManager.features_of demo_list
         ++ [ FeatureManager.new_feature (FeatureManager.features_of demo_list) "third" ]
    /\ 1 <= i <= 999
    /\ FeatureManager.has_id (candidate i)
         (FeatureManager.new_feature (FeatureManager.features_of demo_list) "third") = true
    /\ (forall f, In f (FeatureManager.features_of demo_list) ->
        FeatureManager.has_id (candidate i) f = false)
    /\ (forall f, In f (FeatureManager.features_of demo_list) ->
        (FeatureManager.priority_or 0 f
         < FeatureManager.priority_or 0
             (FeatureManager.new_feature (FeatureManager.features_of demo_list) "third"))%Z)
    /\ FeatureManager.passes
         (FeatureManager.new_feature (FeatureManager.features_of demo_list) "third") = false.
Proof.
  apply (add_appends_a_fresh_feature demo_host demo_list
           (PDict [ (PStr "total_features", PInt 2) ])
           (FeatureManager.features_of demo_list) "third").
  - reflexivity.
  - reflexivity.
  - reflexivity.
  - simpl. lia.
Defined.

(** X24: when every id from [F001] to [F999] is taken, [add] does not
    fail: it appends a feature whose id is [F999], an id that a feature
    of the list already has. *)
Theorem add_reuses_the_last_id (host : FeatureManager.Host) (data meta : pyval)
        (fs : list pyval) (description : string) :
  FeatureManager.shaped (FeatureManager.entry_is "priority" FeatureManager.is_int) data = true ->
  FeatureManager.dict_get "metadata" (FeatureManager.items data) = Some meta ->
  FeatureManager.dict_get "features" (FeatureManager.items data) = Some (PList fs) ->
  (forall i, 1 <= i <= 999 -> exists f, In f fs /\ FeatureManager.has_id (candidate i) f = true) ->
  exists (written old : pyval),
    FeatureManager.cmd_add host (Some data) description
    = FeatureManager.mkRun
        [ FeatureManager.saved; ("✅ Added feature F999: " ++ description)%string ]
        (Some written) FeatureManager.Returned
    /\ FeatureManager.features_of written
       = fs ++ [ FeatureManager.new_feature fs description ]
    /\ In old fs
    /\ FeatureManager.has_id "F999" old = true
    /\ FeatureManager.has_id "F999" (FeatureManager.new_feature fs description) = true.
Proof.
  intros Hs Hm Hf Hall.
  destruct (cmd_add_appends host data meta fs description Hs Hm Hf) as [written [E [Hw _]]].
  assert (Eid : FeatureManager.new_id fs = "F999").
  { unfold FeatureManager.new_id.
    destruct (find _ (seq 1 999)) as [i | ] eqn:Efind; [ exfalso | reflexivity ].
    apply find_some in Efind. destruct Efind as [Hi Hn]. apply in_seq in Hi.
    apply negb_true_iff in Hn.
    destruct (Hall i) as [f [Hin Hid]]; [ lia | ].
    unfold FeatureManager.has_id in Hid.
    destruct (FeatureManager.dict_get "id" (FeatureManager.items f)) as [v | ] eqn:Ev;
      [ | discriminate ].
    assert (H : existsb (FeatureManager.eq_str ("F" ++ FeatureManager.pad3 i))
                  (map (fun f => FeatureManager.get_or "id" (PStr "")
                                   (FeatureManager.items f)) fs) = true).
    { apply existsb_exists. exists v. split; [ | exact Hid ].
      apply in_map_iff. exists f. split; [ | exact Hin ].
      unfold FeatureManager.get_or. now rewrite Ev. }
    congruence. }
  destruct (Hall 999) as [old [Hin Hold]]; [ lia | ].
  exists written, old. rewrite Eid in E.
  split; [ exact E | ]. split; [ exact Hw | ]. split; [ exact Hin | ].
  split; [ exact Hold | ].
  unfold FeatureManager.has_id, FeatureManager.new_feature. cbn. rewrite Eid. reflexivity.
Qed.

Lemma add_reuses_the_last_id_witness :
  exists (written old : pyval),
    FeatureManager.cmd_add demo_host (Some full_list) "one more"
    = FeatureManager.mkRun
        [ FeatureManager.saved; ("✅ Added feature F999: " ++ "one more")%string ]
        (Some written) FeatureManager.Returned
    /\ FeatureManager.features_of written
       = FeatureManager.features_of full_list
         ++ [ FeatureManager.new_feature (FeatureManager.features_of full_list) "one more" ]
    /\ In old (FeatureManager.features_of full_list)
    /\ FeatureManager.has_id "F999" old = true
    /\ FeatureManager.has_id "F999"
         (FeatureManager.new_feature (FeatureManager.features_of full_list) "one more") = true.
Proof.
  apply (add_reuses_the_last_id demo_host full_list (PDict [])
           (FeatureManager.features_of full_list) "one more").
  - vm_compute. reflexivity.
  - reflexivity.
  - reflexivity.
  - intros i Hi. exists (PDict [ (PStr "id", PStr (candidate i)) ]). split.
    + change (FeatureManager.features_of full_list)
        with (map (fun i => PDict [ (PStr "id", PStr (candidate i)) ]) (seq 1 999)).
      apply in_map_iff. exists i. split; [ reflexivity | apply in_seq; lia ].
    + unfold FeatureManager.has_id. cbn [FeatureManager.items FeatureManager.dict_get].
      rewrite String.eqb_refl. cbn [FeatureManager.eq_str]. apply String.eqb_refl.
Defined.

(** ** Choosing the next feature *)

Lemma by_priority_head (failing : list pyval) :
  failing <> [] ->
  exists (i : nat) (rest : list pyval),
    i < List.length failing
    /\ FeatureManager.by_priority failing = nth i failing PNone :: rest
    /\ (forall j, j < List.length failing ->
        (FeatureManager.priority_or 999 (nth i failing PNone)
         <= FeatureManager.priority_or 999 (nth j failing PNone))%Z
        /\ (FeatureManager.priority_or 999 (nth j failing PNone)
            = FeatureManager.priority_or 999 (nth i failing PNone) -> i <= j)).
Proof.
  intros Hne.
  set (key := fun i : nat => FeatureManager.priority_or 999 (nth i failing PNone)).
  set (before := fun i j : nat => Z.ltb (key i) (key j)).
  assert (Ebp : FeatureManager.by_priority failing
                = map (fun k => nth k failing PNone)
                      (stable_sort before (seq 0 (List.length failing)))) by reflexivity.
  rewrite Ebp. clear Ebp.
  pose proof (stable_sort_perm before (seq 0 (List.length failing))) as Hperm.
  assert (Hsorted : StronglySorted
                      (fun x y => before y x = false /\ (before x y = true \/ x < y))
                      (stable_sort before (seq 0 (List.length failing)))).
  { apply stable_sort_sorted.
    - unfold before. intros x y. rewrite Z.ltb_lt, Z.ltb_ge. lia.
    - unfold before. intros x y z. rewrite !Z.ltb_ge. lia.
    - apply seq_sorted. }
  destruct (stable_sort before (seq 0 (List.length failing))) as [ | i rest ] eqn:E.
  { apply Permutation_sym, Permutation_nil in Hperm.
    destruct failing; [ now elim Hne | discriminate ]. }
  exists i, (map (fun k => nth k failing PNone) rest).
  assert (Hi : forall j, In j (i :: rest) <-> j < List.length failing).
  { intros j. split; intros H.
    - apply (Permutation_in _ (Permutation_sym Hperm)) in H. apply in_seq in H. lia.
    - apply (Permutation_in _ Hperm), in_seq. lia. }
  split; [ apply Hi; now left | ]. split; [ reflexivity | ].
  fold (key i). intros j Hj. fold (key j). apply Hi in Hj. destruct Hj as [<- | Hj]; [ split; lia | ].
  inversion Hsorted as [ | ? ? _ Hall ]; subst. rewrite Forall_forall in Hall.
  destruct (Hall j Hj) as [H1 H2]. unfold before in H1, H2.
  rewrite Z.ltb_ge in H1. rewrite Z.ltb_lt in H2. split; lia.
Qed.

(** X25: [next] shows the failing feature of lowest priority, a missing
    priority counting as 999, and among several of that priority the
    one that comes first in the document; without a failing feature it
    reports that all features pass.  It never changes the file. *)
Theorem next_shows_the_first_of_lowest_priority (host : FeatureManager.Host) (data : pyval) :
  well_shaped data ->
  FeatureManager.file (FeatureManager.cmd_next host (Some data)) = Some data
  /\ FeatureManager.ended (FeatureManager.cmd_next host (Some data)) = FeatureManager.Returned
  /\ (failing_of data = [] ->
      FeatureManager.printed (FeatureManager.cmd_next host (Some data))
      = [ (FeatureManager.nl ++ "🎉 All features are passing!")%string ])
  /\ (failing_of data <> [] ->
      exists i : nat,
        i < List.length (failing_of data)
        /\ nth 2 (FeatureManager.printed (FeatureManager.cmd_next host (Some data))) ""
           = ("ID: " ++ FeatureManager.py_str host
                          (FeatureManager.get_or "id" (PStr "???")
                             (FeatureManager.items (nth i (failing_of data) PNone))))%string
        /\ (forall j, j < List.length (failing_of data) ->
            (FeatureManager.priority_or 999 (nth i (failing_of data) PNone)
             <= FeatureManager.priority_or 999 (nth j (failing_of data) PNone))%Z
            /\ (FeatureManager.priority_or 999 (nth j (failing_of data) PNone)
                = FeatureManager.priority_or 999 (nth i (failing_of data) PNone) -> i <= j))).
Proof.
  intros Hw. unfold FeatureManager.cmd_next. rewrite (well_shaped_next data Hw). cbn [negb].
  fold (failing_of data).
  split; [ | split; [ | split ] ].
  - now destruct (FeatureManager.by_priority (failing_of data)).
  - now destruct (FeatureManager.by_priority (failing_of data)).
  - intros ->. reflexivity.
  - intros Hne. destruct (by_priority_head (failing_of data) Hne) as [i [rest [Hi [E Hmin]]]].
    exists i. rewrite E. split; [ exact Hi | ]. split; [ reflexivity | exact Hmin ].
Qed.

Lemma next_shows_the_first_of_lowest_priority_witness :
  FeatureManager.file (FeatureManager.cmd_next demo_host (Some demo_list)) = Some demo_list
  /\ FeatureManager.ended (FeatureManager.cmd_next demo_host (Some demo_list))
     = FeatureManager.Returned
  /\ (failing_of demo_list = [] ->
      FeatureManager.printed (FeatureManager.cmd_next demo_host (Some demo_list))
      = [ (FeatureManager.nl ++ "🎉 All features are passing!")%string ])
  /\ (failing_of demo_list <> [] ->
      exists i : nat,
        i < List.length (failing_of demo_list)
        /\ nth 2 (FeatureManager.printed (FeatureManager.cmd_next demo_host (Some demo_list))) ""
           = ("ID: " ++ FeatureManager.py_str demo_host
                          (FeatureManager.get_or "id" (PStr "???")
                             (FeatureManager.items (nth i (failing_of demo_list) PNone))))%string
        /\ (forall j, j < List.length (failing_of demo_list) ->
            (FeatureManager.priority_or 999 (nth i (failing_of demo_list) PNone)
             <= FeatureManager.priority_or 999 (nth j (failing_of demo_list) PNone))%Z
            /\ (FeatureManager.priority_or 999 (nth j (failing_of demo_list) PNone)
                = FeatureManager.priority_or 999 (nth i (failing_of demo_list) PNone) ->
                i <= j))).
Proof.
  apply (next_shows_the_first_of_lowest_priority demo_host demo_list).
  reflexivity.
Defined.

(** ** The command line *)

Lemma upper_char_not_lower (c : ascii) :
  Nat.leb 97 (nat_of_ascii (FeatureManager.upper_char c))
  && Nat.leb (nat_of_ascii (FeatureManager.upper_char c)) 122 = false.
Proof. destruct c as [[] [] [] [] [] [] [] []]; reflexivity. Qed.

Lemma ascii_upper_no_lower (s : string) : has_lower (FeatureManager.ascii_upper s) = false.
Proof.
  induction s as [ | c r IH ]; [ reflexivity | ].
  cbn [FeatureManager.ascii_upper has_lower]. now rewrite upper_char_not_lower, IH.
Qed.

(** X26: the command is recognised in any letter case and the id given
    to [pass] and [fail] is put in upper case before it is compared, so
    an id typed in lower case matches, and a feature whose id holds a
    lower-case letter is never the one matched. *)
Theorem ids_are_matched_in_upper_case (host : FeatureManager.Host) (store : option pyval)
        (p c arg : string) (rest : list string) (target : bool) :
  lower c = (if target then "pass" else "fail") ->
  FeatureManager.is_ascii arg = true ->
  FeatureManager.main host store (p :: c :: arg :: rest)
  = FeatureManager.cmd_mark target host store (FeatureManager.ascii_upper arg)
  /\ (forall (f : pyval) (s : string),
        FeatureManager.dict_get "id" (FeatureManager.items f) = Some (PStr s) ->
        has_lower s = true ->
        FeatureManager.has_id (FeatureManager.ascii_upper arg) f = false).
Proof.
  intros Hc Ha. split.
  - unfold FeatureManager.main, FeatureManager.upper, FeatureManager.cmd_pass,
      FeatureManager.cmd_fail. rewrite Hc, Ha. now destruct target.
  - intros f s Hid Hl. unfold FeatureManager.has_id. rewrite Hid. cbn [FeatureManager.eq_str].
    destruct (String.eqb s (FeatureManager.ascii_upper arg)) eqn:E; [ | reflexivity ].
    apply String.eqb_eq in E. subst s. now rewrite ascii_upper_no_lower in Hl.
Qed.

Lemma ids_are_matched_in_upper_case_witness :
  FeatureManager.main demo_host (Some demo_list) [ "fm"; "PASS"; "f001" ]
  = FeatureManager.cmd_mark true demo_host (Some demo_list) (FeatureManager.ascii_upper "f001")
  /\ (forall (f : pyval) (s : string),
        FeatureManager.dict_get "id" (FeatureManager.items f) = Some (PStr s) ->
        has_lower s = true ->
        FeatureManager.has_id (FeatureManager.ascii_upper "f001") f = false).
Proof.
  apply (ids_are_matched_in_upper_case demo_host (Some demo_list) "fm" "PASS" "f001" [] true).
  - reflexivity.
  - reflexivity.
Defined.

(** ** The status summary *)

Lemma count_passing_le (fs : list pyval) : FeatureManager.count_passing fs <= List.length fs.
Proof. unfold FeatureManager.count_passing. apply filter_length_le. Qed.

Lemma percent_split (k total : nat) :
  0 < total -> k <= total ->
  (99 <= FeatureManager.percent k total + FeatureManager.percent (total - k) total <= 100)%Z
  /\ (FeatureManager.percent k total + FeatureManager.percent (total - k) total = 100
      <-> (100 * Z.of_nat k) mod Z.of_nat total = 0)%Z.
Proof.
  intros Ht Hk. unfold FeatureManager.percent.
  destruct total as [ | t ]; [ lia | ].
  set (T := Z.of_nat (S t)). set (K := Z.of_nat k).
  assert (HT : (0 < T)%Z) by (unfold T; lia).
  assert (HK : (0 <= K <= T)%Z) by (unfold K, T; lia).
  replace (Z.of_nat (S t - k)) with (T - K)%Z by (unfold T, K; lia).
  pose proof (Z.div_mod (100 * K) T ltac:(lia)) as E1.
  pose proof (Z.mod_pos_bound (100 * K) T HT) as B1.
  pose proof (Z.div_mod (100 * (T - K)) T ltac:(lia)) as E2.
  pose proof (Z.mod_pos_bound (100 * (T - K)) T HT) as B2.
  set (q1 := (100 * K / T)%Z) in *. set (r1 := ((100 * K) mod T)%Z) in *.
  set (q2 := (100 * (T - K) / T)%Z) in *. set (r2 := ((100 * (T - K)) mod T)%Z) in *.
  assert (Hsum : (T * (q1 + q2) + (r1 + r2) = 100 * T)%Z) by lia.
  assert (Hs : (T * (100 - (q1 + q2)) = r1 + r2)%Z) by lia.
  assert (H0 : (0 <= 100 - (q1 + q2))%Z) by nia.
  assert (H2 : (100 - (q1 + q2) < 2)%Z) by nia.
  assert (Hq : (q1 + q2 = 100 /\ r1 + r2 = 0 \/ q1 + q2 = 99 /\ r1 + r2 = T)%Z).
  { assert (C : (100 - (q1 + q2) = 0 \/ 100 - (q1 + q2) = 1)%Z) by lia.
    destruct C as [C | C]; rewrite C in Hs; [ left | right ]; lia. }
  split; [ lia | ]. split; intros H; destruct Hq as [[Hq Hr] | [Hq Hr]]; lia.
Qed.

(** X27: [status] never changes the file.  It prints the number of
    passing features with [100 * passing // total] percent and the
    number of failing features with the same for them; for a list that
    is not empty the two percentages add up to 100 exactly when
    [100 * passing] is a multiple of the total, and to 99 otherwise.
    For an empty list both are 0 and no progress bar is printed. *)
Theorem status_percentages (host : FeatureManager.Host) (data : pyval) :
  FeatureManager.shaped (fun _ => true) data = true ->
  let total := List.length (FeatureManager.features_of data) in
  let passing := FeatureManager.count_passing (FeatureManager.features_of data) in
  let out := FeatureManager.printed (FeatureManager.cmd_status host (Some data)) in
  FeatureManager.file (FeatureManager.cmd_status host (Some data)) = Some data
  /\ nth 4 out ""
     = ("✅ Passing: " ++ FeatureManager.int_str (Z.of_nat passing)
        ++ " (" ++ FeatureManager.int_str (FeatureManager.percent passing total) ++ "%)")%string
  /\ nth 5 out ""
     = ("❌ Failing: " ++ FeatureManager.int_str (Z.of_nat (total - passing))
        ++ " (" ++ FeatureManager.int_str (FeatureManager.percent (total - passing) total)
        ++ "%)")%string
  /\ (0 < total ->
      (99 <= FeatureManager.percent passing total
             + FeatureManager.percent (total - passing) total <= 100)%Z
      /\ (FeatureManager.percent passing total
          + FeatureManager.percent (total - passing) total = 100
          <-> (100 * Z.of_nat passing) mod Z.of_nat total = 0)%Z
      /\ List.length out = 10)
  /\ (total = 0 ->
      FeatureManager.percent passing total = 0%Z
      /\ FeatureManager.percent (total - passing) total = 0%Z
      /\ List.length out = 9).
Proof.
  intros Hs total passing out.
  assert (Hle : passing <= total) by apply count_passing_le.
  unfold out, FeatureManager.cmd_status. rewrite Hs. cbn [negb].
  fold total. fold passing. cbn [FeatureManager.printed FeatureManager.file].
  split; [ reflexivity | ]. split; [ reflexivity | ]. split; [ reflexivity | ].
  split.
  - intros Ht. destruct (percent_split passing total Ht Hle) as [H1 H2].
    split; [ exact H1 | ]. split; [ exact H2 | ].
    apply Nat.ltb_lt in Ht. rewrite Ht. reflexivity.
  - intros Ht. rewrite Ht. cbn. auto.
Qed.

Lemma status_percentages_witness :
  let total := List.length (FeatureManager.features_of demo_list) in
  let passing := FeatureManager.count_passing (FeatureManager.features_of demo_list) in
  let out := FeatureManager.printed (FeatureManager.cmd_status demo_host (Some demo_list)) in
  FeatureManager.file (FeatureManager.cmd_status demo_host (Some demo_list)) = Some demo_list
  /\ nth 4 out ""
     = ("✅ Passing: " ++ FeatureManager.int_str (Z.of_nat passing)
        ++ " (" ++ FeatureManager.int_str (FeatureManager.percent passing total) ++ "%)")%string
  /\ nth 5 out ""
     = ("❌ Failing: " ++ FeatureManager.int_str (Z.of_nat (total - passing))
        ++ " (" ++ FeatureManager.int_str (FeatureManager.percent (total - passing) total)
        ++ "%)")%string
  /\ (0 < total ->
      (99 <= FeatureManager.percent passing total
             + FeatureManager.percent (total - passing) total <= 100)%Z
      /\ (FeatureManager.percent passing total
          + FeatureManager.percent (total - passing) total = 100
          <-> (100 * Z.of_nat passing) mod Z.of_nat total = 0)%Z
      /\ List.length out = 10)
  /\ (total = 0 ->
      FeatureManager.percent passing total = 0%Z
      /\ FeatureManager.percent (total - passing) total = 0%Z
      /\ List.length out = 9).
Proof.
  apply (status_percentages demo_host demo_list).
  reflexivity.
Defined.

(** ** Listing the features *)

Lemma str_prefix_count (k : nat) (s : string) :
  char_count (FeatureManager.str_prefix k s) = Nat.min k (char_count s).
Proof.
  revert k. induction s as [ | c r IH ]; intros k; cbn [FeatureManager.str_prefix char_count].
  - now rewrite Nat.min_0_r.
  - destruct (FeatureManager.is_continuation c) eqn:E.
    + cbn [char_count]. rewrite E. apply IH.
    + destruct k as [ | k ]; [ reflexivity | ].
      cbn [char_count]. rewrite E, IH. reflexivity.
Qed.

Lemma str_prefix_all (k : nat) (s : string) :
  char_count s <= k -> FeatureManager.str_prefix k s = s.
Proof.
  revert k. induction s as [ | c r IH ]; intros k; cbn [FeatureManager.str_prefix char_count];
    [ reflexivity | ].
  destruct (FeatureManager.is_continuation c).
  - intros H. now rewrite IH.
  - destruct k as [ | k ]; [ lia | ]. intros H. rewrite IH; [ reflexivity | lia ].
Qed.

Lemma str_prefix_is_prefix (k : nat) (s : string) :
  exists t, s = (FeatureManager.str_prefix k s ++ t)%string.
Proof.
  revert k. induction s as [ | c r IH ]; intros k; cbn [FeatureManager.str_prefix].
  - now exists "".
  - destruct (FeatureManager.is_continuation c).
    + destruct (IH k) as [t Ht]. exists t. cbn. now rewrite <- Ht.
    + destruct k as [ | k ]; [ now exists (String c r) | ].
      destruct (IH k) as [t Ht]. exists t. cbn. now rewrite <- Ht.
Qed.

Lemma string_app_assoc (a b c : string) :
  (a ++ (b ++ c))%string = ((a ++ b) ++ c)%string.
Proof. induction a as [ | x a IH ]; cbn; [ reflexivity | now rewrite IH ]. Qed.

(** X28: [list] never changes the file and prints one line for every
    feature, in document order, between a two-line header and an empty
    line.  The line shows the description cut to its first 50
    characters: a description of at most 50 characters is shown whole,
    a longer one loses its tail. *)
Theorem list_shows_every_feature (host : FeatureManager.Host) (data : pyval) :
  FeatureManager.shaped (FeatureManager.entry_is "description" FeatureManager.is_str) data
  = true ->
  let fs := FeatureManager.features_of data in
  let out := FeatureManager.printed (FeatureManager.cmd_list host (Some data)) in
  FeatureManager.file (FeatureManager.cmd_list host (Some data)) = Some data
  /\ FeatureManager.ended (FeatureManager.cmd_list host (Some data)) = FeatureManager.Returned
  /\ List.length out = List.length fs + 3
  /\ (forall i, i < List.length fs ->
      nth (2 + i) out "" = FeatureManager.list_line host (nth i fs PNone))
  /\ (forall f, exists head : string,
        FeatureManager.list_line host f = (head ++ shown_description f)%string)
  /\ (forall f s,
        FeatureManager.dict_get "description" (FeatureManager.items f) = Some (PStr s) ->
        char_count (shown_description f) = Nat.min 50 (char_count s)
        /\ (exists tail, s = (shown_description f ++ tail)%string)
        /\ (char_count s <= 50 -> shown_description f = s)).
Proof.
  intros Hs fs out. unfold out, FeatureManager.cmd_list. rewrite Hs. cbn [negb].
  fold fs. cbn [FeatureManager.printed FeatureManager.file FeatureManager.ended].
  split; [ reflexivity | ]. split; [ reflexivity | ]. split; [ | split; [ | split ] ].
  - cbn [List.app List.length]. rewrite length_app, length_map. cbn. lia.
  - intros i Hi. cbn [List.app Nat.add nth].
    rewrite app_nth1 by now rewrite length_map.
    rewrite (nth_indep _ "" (FeatureManager.list_line host PNone)) by now rewrite length_map.
    apply map_nth.
  - intros f. unfold FeatureManager.list_line. fold (shown_description f).
    eexists. rewrite !string_app_assoc. reflexivity.
  - intros f s Hd. unfold shown_description, FeatureManager.get_or. rewrite Hd.
    split; [ apply str_prefix_count | ].
    split; [ apply str_prefix_is_prefix | apply str_prefix_all ].
Qed.

Lemma list_shows_every_feature_witness :
  let fs := FeatureManager.features_of demo_list in
  let out := FeatureManager.printed (FeatureManager.cmd_list demo_host (Some demo_list)) in
  FeatureManager.file (FeatureManager.cmd_list demo_host (Some demo_list)) = Some demo_list
  /\ FeatureManager.ended (FeatureManager.cmd_list demo_host (Some demo_list))
     = FeatureManager.Returned
  /\ List.length out = List.length fs + 3
  /\ (forall i, i < List.length fs ->
      nth (2 + i) out "" = FeatureManager.list_line demo_host (nth i fs PNone))
  /\ (forall f, exists head : string,
        FeatureManager.list_line demo_host f = (head ++ shown_description f)%string)
  /\ (forall f s,
        FeatureManager.dict_get "description" (FeatureManager.items f) = Some (PStr s) ->
        char_count (shown_description f) = Nat.min 50 (char_count s)
        /\ (exists tail, s = (shown_description f ++ tail)%string)
        /\ (char_count s <= 50 -> shown_description f = s)).
Proof.
  apply (list_shows_every_feature demo_host demo_list).
  reflexivity.
Defined.

(** ** Exit status *)

(** X29: an id that is missing from the command line and an id that is
    missing from the file end differently.  [pass] or [fail] without an
    id prints the usage text and exits with status 1; with an id that
    no feature has, it prints that the feature was not found and
    returns normally.  Neither changes the file. *)
Theorem unknown_id_is_reported_not_failed (host : FeatureManager.Host) (data : pyval)
        (fs : list pyval) (p c arg : string) (rest : list string) :
  FeatureManager.shaped (fun _ => true) data = true ->
  FeatureManager.dict_get "features" (FeatureManager.items data) = Some (PList fs) ->
  lower c = "pass" \/ lower c = "fail" ->
  FeatureManager.is_ascii arg = true ->
  (forall f, In f fs -> FeatureManager.has_id (FeatureManager.ascii_upper arg) f = false) ->
  FeatureManager.main host (Some data) [ p; c ]
  = FeatureManager.mkRun [ FeatureManager.doc ] (Some data) (FeatureManager.Exited 1)
  /\ FeatureManager.main host (Some data) (p :: c :: arg :: rest)
     = FeatureManager.mkRun
         [ ("❌ Feature " ++ FeatureManager.ascii_upper arg ++ " not found")%string ]
         (Some data) FeatureManager.Returned.
Proof.
  intros Hs Hf Hc Ha Hnone.
  assert (Efs : FeatureManager.features_of data = fs).
  { unfold FeatureManager.features_of. now rewrite Hf. }
  assert (Efind : find (FeatureManager.has_id (FeatureManager.ascii_upper arg)) fs = None).
  { destruct (find _ fs) as [f | ] eqn:E; [ | reflexivity ].
    apply find_some in E. destruct E as [Hin Hid]. rewrite (Hnone f Hin) in Hid.
    discriminate. }
  unfold FeatureManager.main, FeatureManager.upper, FeatureManager.cmd_pass,
    FeatureManager.cmd_fail, FeatureManager.cmd_mark, FeatureManager.usage.
  rewrite Ha, Hs, Hf, Efs, Efind. cbn [negb].
  destruct Hc as [-> | ->]; split; reflexivity.
Qed.

Lemma unknown_id_is_reported_not_failed_witness :
  FeatureManager.main demo_host (Some demo_list) [ "fm"; "pass" ]
  = FeatureManager.mkRun [ FeatureManager.doc ] (Some demo_list) (FeatureManager.Exited 1)
  /\ FeatureManager.main demo_host (Some demo_list) ("fm" :: "pass" :: "f009" :: [])
     = FeatureManager.mkRun
         [ ("❌ Feature " ++ FeatureManager.ascii_upper "f009" ++ " not found")%string ]
         (Some demo_list) FeatureManager.Returned.
Proof.
  apply (unknown_id_is_reported_not_failed demo_host demo_list
           (FeatureManager.features_of demo_list) "fm" "pass" "f009" []).
  - reflexivity.
  - reflexivity.
  - left. reflexivity.
  - reflexivity.
  - intros f [<- | [<- | []]]; reflexivity.
Defined.
